(** * weii: the measurement engine of the Wii Balance Board scale

    A shallow embedding of [src/weii/cli.py]: the event decoder
    [get_raw_measurement], the collection loop [read_data], the
    aggregation in [measure_weight] and [measure_thread], and the address
    check that guards the disconnect command.  ([src/weii/gui.py] carries
    the same [get_raw_measurement] and [read_data], up to status texts.)

    Numbers.  Python floats are modelled by exact rationals [Q]: an event
    value is a machine integer, [event.value / 100] is [div100], [sum] and
    the comparison with the threshold are the rational ones.  Rounding of
    binary floating point is therefore outside the model.

    Effects.  A device handle is the list of the results its future
    [read_one()] calls will give.  The global flag [measuring], which
    another thread writes, is an oracle: the value the n-th read of the
    flag observes.  Calls with an effect outside the program
    ([device.close()], [subprocess.run], [time.sleep], printing the weight)
    are appended to a trace.  The status texts and the debug print of an
    unexpected event, which are only displayed, are left out. *)

From Stdlib Require Import ZArith QArith String Ascii Lia Sorted.
From stdpp Require Import list.

Local Open Scope Z_scope.

(** ** Event codes

    The constants of [evdev.ecodes] the decoder compares with, with the
    values of the Linux input-event-codes header. *)
Module ecodes.
Definition SYN_REPORT : Z := 0.
Definition SYN_DROPPED : Z := 3.
Definition ABS_HAT0X : Z := 16.
Definition ABS_HAT0Y : Z := 17.
Definition ABS_HAT1X : Z := 18.
Definition ABS_HAT1Y : Z := 19.
Definition BTN_A : Z := 304.
End ecodes.

(** An input event, as far as the decoder looks at it. *)
Record InputEvent : Type := mkEvent { code : Z; value : Z }.

(** The outcome of one [device.read_one()]: no event available yet
    ([None]), an event, or the call raising [OSError] (the device is
    gone). *)
Inductive Read : Type :=
| NoEvent
| Event (e : InputEvent)
| Fault.

(** ** The decoder: [get_raw_measurement] *)

(** [data = [None] * 4] *)
Definition empty_slots : list (option Q) := [None; None; None; None].

(** [event.value / 100] *)
Definition div100 (v : Z) : Q := (inject_Z v / 100)%Q.

(** [None in data] *)
Definition has_None (data : list (option Q)) : bool :=
  existsb (fun s => match s with None => true | Some _ => false end) data.

(** [sum(data)], from the integer 0 and left to right.  It is only called
    behind the test [None in data], on four present readings. *)
Definition sum (data : list (option Q)) : Q :=
  fold_left (fun acc s => match s with Some x => acc + x | None => acc end)%Q
            data 0%Q.

(** What one turn of the [while True] loop does with an event. *)
Inductive Step : Type :=
| Pending (data : list (option Q))  (* a slot stored, or [pass] *)
| Discarded                         (* [data = [None] * 4; continue] *)
| Completed (m : Q)                 (* [return sum(data)] *)
| Abort (msg : string)              (* [sys.exit(...)] *)
| Unexpected (data : list (option Q)).  (* [debug(...)], data untouched *)

Definition abort_message : string :=
  "ERROR: User pressed board button while measuring, aborting.".

(** The [if]/[elif] chain of the loop body, in the order of the source. *)
Definition decode (data : list (option Q)) (event : InputEvent) : Step :=
  if code event =? ecodes.ABS_HAT1X then
    Pending (<[0%nat := Some (div100 (value event))]> data)
  else if code event =? ecodes.ABS_HAT0X then
    Pending (<[1%nat := Some (div100 (value event))]> data)
  else if code event =? ecodes.ABS_HAT0Y then
    Pending (<[2%nat := Some (div100 (value event))]> data)
  else if code event =? ecodes.ABS_HAT1Y then
    Pending (<[3%nat := Some (div100 (value event))]> data)
  else if code event =? ecodes.BTN_A then
    Abort abort_message
  else if code event =? ecodes.SYN_DROPPED then
    Pending data
  else if (code event =? ecodes.SYN_REPORT) && (value event =? 3) then
    Pending data
  else if (code event =? ecodes.SYN_REPORT) && (value event =? 0) then
    if has_None data then Discarded else Completed (sum data)
  else
    Unexpected data.

(** How a call of [get_raw_measurement] ends. *)
Inductive Raw : Type :=
| Measured (m : Q) (rest : list Read)  (* returned [m]; [rest] is unread *)
| Exit (msg : string) (rest : list Read)  (* [SystemExit] from the button *)
| Failed (rest : list Read)            (* [OSError] from [read_one] *)
| Waiting (data : list (option Q)).    (* no more events: still polling *)

(** The [while True] loop, from the slots [data]. *)
Fixpoint get_raw_measurement_from (data : list (option Q))
    (device : list Read) : Raw :=
  match device with
  | [] => Waiting data
  | NoEvent :: rest => get_raw_measurement_from data rest
  | Fault :: rest => Failed rest
  | Event event :: rest =>
      match decode data event with
      | Pending data' => get_raw_measurement_from data' rest
      | Discarded => get_raw_measurement_from empty_slots rest
      | Completed m => Measured m rest
      | Abort msg => Exit msg rest
      | Unexpected data' => get_raw_measurement_from data' rest
      end
  end.

Definition get_raw_measurement (device : list Read) : Raw :=
  get_raw_measurement_from empty_slots device.

(** ** State, effects and results *)

(** Calls that act outside the program, in the order they are made. *)
Inductive Effect : Type :=
| Sleep                          (* [time.sleep(0.5)] *)
| Close                          (* [device.close()] *)
| Disconnect (address : string)  (* [bluetoothctl disconnect address] *)
| Command (template : string) (weight : Q)
                                 (* the command, [{weight}] filled in *)
| PrintWeight (weight : Q)       (* [debug(..., force=True)] *)
| IdleAdd.                       (* [GLib.idle_add(self.finish_measurement)] *)

Inductive Exn : Type :=
| SystemExit (msg : string)
| OSError
| StatisticsError
| AttributeError.

(** How a call ends: it returns, it raises, or the inputs given to the
    model are used up while it still waits for the next one ([Starved]).
    [OutOfFuel] belongs to the model of the loops only. *)
Inductive Result (A : Type) : Type :=
| Return (a : A)
| Raise (e : Exn)
| Starved
| OutOfFuel.
Arguments Return {A} a.
Arguments Raise {A} e.
Arguments Starved {A}.
Arguments OutOfFuel {A}.

(** The state a session works on. *)
Record State : Type := mkState {
  device : list Read;      (* what the open handle will still deliver *)
  clock : nat;             (* how often the flag [measuring] was read *)
  current_weight : Q;      (* the global [current_weight] *)
  trace : list Effect      (* the outside calls made so far *)
}.

Definition set_device (d : list Read) (s : State) : State :=
  mkState d (clock s) (current_weight s) (trace s).
Definition tick (s : State) : State :=
  mkState (device s) (S (clock s)) (current_weight s) (trace s).
Definition set_current_weight (w : Q) (s : State) : State :=
  mkState (device s) (clock s) w (trace s).
Definition emit (e : Effect) (s : State) : State :=
  mkState (device s) (clock s) (current_weight s) (trace s ++ [e]).

Definition M (A : Type) : Type := State -> Result A * State.

Definition ret {A} (a : A) : M A := fun s => (Return a, s).
Definition raise {A} (e : Exn) : M A := fun s => (Raise e, s).
Definition bind {A B} (m : M A) (k : A -> M B) : M B :=
  fun s =>
    match m s with
    | (Return a, s') => k a s'
    | (Raise e, s') => (Raise e, s')
    | (Starved, s') => (Starved, s')
    | (OutOfFuel, s') => (OutOfFuel, s')
    end.
Definition effect (e : Effect) : M unit := fun s => (Return tt, emit e s).
Definition when (b : bool) (m : M unit) : M unit := if b then m else ret tt.

Notation "'do' x <- m ; k" := (bind m (fun x => k))
  (at level 10, x name, m at level 100, k at level 200).
Notation "'run' m ; k" := (bind m (fun _ => k))
  (at level 10, m at level 100, k at level 200).

(** [x < y] on the numbers. *)
Definition Qlt_bool (x y : Q) : bool := negb (Qle_bool y x).

(** ** Aggregation: [statistics.median] *)

(** [sorted(data)]: a stable sort by [<], here by insertion. *)
Fixpoint insert_sorted (x : Q) (l : list Q) : list Q :=
  match l with
  | [] => [x]
  | y :: l' => if Qlt_bool x y then x :: l else y :: insert_sorted x l'
  end.

Definition sorted (data : list Q) : list Q :=
  fold_left (fun acc x => insert_sorted x acc) data [].

(** [statistics.median] of the Python library; [None] stands for its
    [StatisticsError] on empty data. *)
Definition median (data : list Q) : option Q :=
  let data := sorted data in
  let n := length data in
  if (n =? 0)%nat then None
  else if (n mod 2 =? 1)%nat then Some (nth (n / 2) data 0%Q)
  else
    let i := (n / 2)%nat in
    Some ((nth (i - 1) data 0 + nth i data 0) / 2)%Q.

Definition py_median (data : list Q) : M Q :=
  match median data with
  | Some m => ret m
  | None => raise StatisticsError
  end.

(** [final_weight = statistics.median(weight_data)] and
    [final_weight += adjust] *)
Definition final_weight_of (weight_data : list Q) (adjust : Q) : M Q :=
  do final_weight <- py_median weight_data;
  ret (final_weight + adjust)%Q.

(** ** The address check of [measure_weight] *)

Definition in_range (lo hi c : ascii) : bool :=
  (nat_of_ascii lo <=? nat_of_ascii c)%nat
  && (nat_of_ascii c <=? nat_of_ascii hi)%nat.

(** [[0-9a-f]] under [re.IGNORECASE] *)
Definition is_hex (c : ascii) : bool :=
  in_range "0" "9" c || in_range "a" "f" c || in_range "A" "F" c.

(** [([0-9a-f]{2}[:]){n}] at the start of [s]; what follows the match. *)
Fixpoint match_groups (n : nat) (s : string) : option string :=
  match n with
  | O => Some s
  | S n' =>
      match s with
      | String a (String b (String c rest)) =>
          if is_hex a && is_hex b && Ascii.eqb c ":"
          then match_groups n' rest else None
      | _ => None
      end
  end.

(** [$] without [re.MULTILINE]: the end of the string, or the newline
    that ends it. *)
Definition at_end (s : string) : bool :=
  match s with
  | EmptyString => true
  | String c EmptyString => Ascii.eqb c "010"
  | _ => false
  end.

(** [re.match(r"^([0-9a-f]{2}[:]){5}([0-9a-f]{2})$", address,
    re.IGNORECASE)] gives a match. *)
Definition address_match (address : string) : bool :=
  match match_groups 5 address with
  | Some (String a (String b rest)) => is_hex a && is_hex b && at_end rest
  | _ => false
  end.

(** The truth value of a string: it is not empty. *)
Definition truthy (s : string) : bool :=
  match s with EmptyString => false | _ => true end.

Definition truthy_opt (s : option string) : bool :=
  match s with Some s => truthy s | None => false end.

Definition invalid_address_message : string :=
  "ERROR: Invalid device address to disconnect specified.".

(** ** The collection loop: [read_data] *)

Section Session.

(** The value the [n]-th read of the global [measuring] observes. *)
Variable measuring : nat -> bool.

(** Reading the flag. *)
Definition read_measuring : M bool :=
  fun s => (Return (measuring (clock s)), tick s).

(** [device.close(); return data], after the loop. *)
Definition close_and_return (data : list Q) : M (list Q) :=
  run effect Close; ret data.

(** [measurement = get_raw_measurement(device)] on the open handle. *)
Definition next_measurement : M Q :=
  fun s =>
    match get_raw_measurement (device s) with
    | Measured m rest => (Return m, set_device rest s)
    | Exit msg rest => (Raise (SystemExit msg), set_device rest s)
    | Failed rest => (Raise OSError, set_device rest s)
    | Waiting _ => (Starved, set_device [] s)
    end.

(** The [while measuring:] loop.  Every turn that goes on has read at
    least one event, so [fuel] above the number of reads left is never
    used up. *)
Fixpoint read_data_loop (fuel : nat) (samples : Z) (threshold : Q)
    (data : list Q) : M (list Q) :=
  match fuel with
  | O => fun s => (OutOfFuel, s)
  | S fuel' =>
      do go_on <- read_measuring;
      if go_on then
        do measurement <- next_measurement;
        if negb (length data =? 0)%nat && Qlt_bool measurement threshold then
          (* The user stepped off the board. *)
          close_and_return data
        else if (length data =? 0)%nat && Qlt_bool measurement threshold then
          (* Too light and measurement has not yet started, ignore. *)
          read_data_loop fuel' samples threshold data
        else
          let data := data ++ [measurement] in
          if Z.of_nat (length data) >=? samples then
            (* We have enough samples now. *)
            close_and_return data
          else
            read_data_loop fuel' samples threshold data
      else
        close_and_return data
  end.

Definition read_data (board : list Read) (samples : Z) (threshold : Q)
    : M (list Q) :=
  fun s =>
    read_data_loop (S (length board)) samples threshold []
                   (set_device board s).

(** ** Sessions: [measure_weight] and [measure_thread] *)

(** What the successive calls of [get_board_device()] return: no board,
    or the handle of the board. *)
Variable lookups : list (option (list Read)).

(** [while not fake: board = get_board_device(); if board: break;
    time.sleep(0.5)] *)
Fixpoint wait_for_board (polls : list (option (list Read)))
    : M (list Read) :=
  match polls with
  | [] => fun s => (Starved, s)
  | Some board :: _ => ret board
  | None :: later => run effect Sleep; wait_for_board later
  end.

(** The two subprocess calls that follow a measurement. *)
Definition after_measurement (disconnect_address : string)
    (command : option string) (final_weight : Q) : M unit :=
  run when (truthy disconnect_address)
        (effect (Disconnect disconnect_address));
  when (truthy_opt command)
       (effect (Command (default EmptyString command) final_weight)).

(** [weight_data = [85.2] * 200] *)
Definition fake_data : list Q := repeat (85.2)%Q 200.

Definition measure_weight (adjust minlimit : Q)
    (disconnect_address : string) (command : option string)
    (terse fake : bool) : M Q :=
  if truthy disconnect_address && negb (address_match disconnect_address)
  then raise (SystemExit invalid_address_message)
  else
    do weight_data <-
      (if fake then ret fake_data
       else do board <- wait_for_board lookups;
            read_data board 200 minlimit);
    do final_weight <- final_weight_of weight_data adjust;
    run when terse (effect (PrintWeight final_weight));
    run after_measurement disconnect_address command final_weight;
    ret final_weight.

(** [while measuring and not board: ...] of [measure_thread]; [None] when
    the flag ended the loop. *)
Fixpoint wait_while_measuring (polls : list (option (list Read)))
    : M (option (list Read)) :=
  do go_on <- read_measuring;
  if go_on then
    match polls with
    | [] => fun s => (Starved, s)
    | Some board :: _ => ret (Some board)
    | None :: later => run effect Sleep; wait_while_measuring later
    end
  else ret None.

(** The body of the [try] of [measure_thread]. *)
Definition measure_thread_try (adjust minlimit : Q)
    (disconnect_address : string) (command : option string) : M unit :=
  do board <- wait_while_measuring lookups;
  do measuring_now <- read_measuring;
  if negb measuring_now then ret tt
  else
    do weight_data <-
      match board with
      | Some board => read_data board 200 minlimit
      | None =>
          (* [read_data(None, ...)]: the flag is read, then a method of
             [None] is called *)
          run read_measuring; raise AttributeError
      end;
    if negb (length weight_data =? 0)%nat then
      do measuring_now <- read_measuring;
      if measuring_now then
        do final_weight <- final_weight_of weight_data adjust;
        run (fun s => (Return tt, set_current_weight final_weight s));
        after_measurement disconnect_address command final_weight
      else ret tt
    else ret tt.

(** [try: ... except Exception as e: ... finally: GLib.idle_add(...)].
    [SystemExit] is no [Exception] and passes through the handler. *)
Definition measure_thread (adjust minlimit : Q)
    (disconnect_address : string) (command : option string) : M unit :=
  fun s =>
    match measure_thread_try adjust minlimit disconnect_address command s with
    | (Return tt, s') => (Return tt, emit IdleAdd s')
    | (Raise (SystemExit msg), s') => (Raise (SystemExit msg), emit IdleAdd s')
    | (Raise _, s') => (Return tt, emit IdleAdd s')
    | (r, s') => (r, s')
    end.

End Session.

(** ** Notions the statements use *)

(** The slot an event code writes, if it is one of the four axes. *)
Definition slot_of (c : Z) : option nat :=
  if c =? ecodes.ABS_HAT1X then Some 0%nat
  else if c =? ecodes.ABS_HAT0X then Some 1%nat
  else if c =? ecodes.ABS_HAT0Y then Some 2%nat
  else if c =? ecodes.ABS_HAT1Y then Some 3%nat
  else None.

Definition is_axis (e : InputEvent) : Prop := is_Some (slot_of (code e)).

(** The raw value the last event with code [c] carries. *)
Fixpoint last_value (c : Z) (evs : list InputEvent) : option Z :=
  match evs with
  | [] => None
  | e :: evs' =>
      match last_value c evs' with
      | Some v => Some v
      | None => if code e =? c then Some (value e) else None
      end
  end.

(** The slots after a run of axis events. *)
Definition feed (data : list (option Q)) (evs : list InputEvent)
    : list (option Q) :=
  fold_left
    (fun d e => match slot_of (code e) with
                | Some i => <[i := Some (div100 (value e))]> d
                | None => d
                end)
    evs data.

(** The call after a completed one. *)
Definition second_call (device : list Read) : option Raw :=
  match get_raw_measurement device with
  | Measured _ rest => Some (get_raw_measurement rest)
  | _ => None
  end.

(** [decodes device ms rest]: successive calls of [get_raw_measurement]
    on [device] return the samples [ms] and leave [rest] unread. *)
Inductive decodes : list Read -> list Q -> list Read -> Prop :=
| decodes_nil device : decodes device [] device
| decodes_cons device m device' ms rest :
    get_raw_measurement device = Measured m device' ->
    decodes device' ms rest ->
    decodes device (m :: ms) rest.

(** The state after [n] more turns of the loop that left [rest] unread. *)
Definition advance (n : nat) (rest : list Read) (s : State) : State :=
  mkState rest (clock s + n) (current_weight s) (trace s).

(** One turn of the loop of [read_data], seen from outside: it ends the
    call, or it hands the next turn a window and a state.  This is the
    body of [read_data_loop] once more, tied to it by
    [read_data_loop_by_turn] below; it serves to speak of every window the
    loop holds on its way, not only of the one it returns. *)
Inductive Turn : Type :=
| Ends (out : Result (list Q) * State)
| GoesOn (data : list Q) (s : State).

Definition turn (measuring : nat -> bool) (samples : Z) (threshold : Q)
    (data : list Q) (s : State) : Turn :=
  if measuring (clock s) then
    match get_raw_measurement (device s) with
    | Measured m rest =>
        let s1 := set_device rest (tick s) in
        if negb (length data =? 0)%nat && Qlt_bool m threshold then
          Ends (Return data, emit Close s1)
        else if (length data =? 0)%nat && Qlt_bool m threshold then
          GoesOn data s1
        else if Z.of_nat (length (data ++ [m])) >=? samples then
          Ends (Return (data ++ [m]), emit Close s1)
        else
          GoesOn (data ++ [m]) s1
    | Exit msg rest => Ends (Raise (SystemExit msg), set_device rest (tick s))
    | Failed rest => Ends (Raise OSError, set_device rest (tick s))
    | Waiting _ => Ends (Starved, set_device [] (tick s))
    end
  else Ends (Return data, emit Close (tick s)).

(** [holds ... data s data' s']: the loop entered with the window [data]
    in the state [s] comes, some turns later, to the window [data'] in the
    state [s']. *)
Inductive holds (measuring : nat -> bool) (samples : Z) (threshold : Q)
    : list Q -> State -> list Q -> State -> Prop :=
| holds_now data s : holds measuring samples threshold data s data s
| holds_later data s data1 s1 data2 s2 :
    turn measuring samples threshold data s = GoesOn data1 s1 ->
    holds measuring samples threshold data1 s1 data2 s2 ->
    holds measuring samples threshold data s data2 s2.

(** How often [device.close()] was called. *)
Fixpoint closes (t : list Effect) : nat :=
  match t with
  | [] => 0
  | Close :: t' => S (closes t')
  | _ :: t' => closes t'
  end.

(** ** The address pattern, as the specification words it

    A second, independent reading of
    [([0-9a-f]{2}:){5}[0-9a-f]{2}]: the strings the pattern matches as a
    whole, letters in either case.  [address_match] above follows the
    call in the source; the two are compared further down. *)
Inductive regex : Type :=
| Chars (p : ascii -> bool)
| Cat (r1 r2 : regex)
| Times (n : nat) (r : regex).

Inductive matches : regex -> string -> Prop :=
| matches_chars p c :
    p c = true -> matches (Chars p) (String c EmptyString)
| matches_cat r1 r2 s1 s2 :
    matches r1 s1 -> matches r2 s2 -> matches (Cat r1 r2) (String.append s1 s2)
| matches_times_O r : matches (Times 0 r) EmptyString
| matches_times_S n r s1 s2 :
    matches r s1 -> matches (Times n r) s2 ->
    matches (Times (S n) r) (String.append s1 s2).

Definition hex_pair : regex := Times 2 (Chars is_hex).
Definition colon : regex := Chars (fun c => Ascii.eqb c ":").
Definition address_pattern : regex :=
  Cat (Times 5 (Cat hex_pair colon)) hex_pair.

Definition newline : string := String "010" EmptyString.

(** ** Sample inputs *)

Definition axis (c v : Z) : Read := Event (mkEvent c v).
Definition report (v : Z) : Read := Event (mkEvent ecodes.SYN_REPORT v).
Definition button : Read := Event (mkEvent ecodes.BTN_A 1).

(** The events of one reading of the four sensors. *)
Definition group (tl tr bl br : Z) : list Read :=
  [axis ecodes.ABS_HAT1X tl; axis ecodes.ABS_HAT0X tr;
   axis ecodes.ABS_HAT0Y bl; axis ecodes.ABS_HAT1Y br; report 0].

(** The sample such a reading gives. *)
Definition reading (tl tr bl br : Z) : Q :=
  (0 + div100 tl + div100 tr + div100 bl + div100 br)%Q.

(** The four sensors out of order, the top left one twice. *)
Definition shuffled_group : list InputEvent :=
  [mkEvent ecodes.ABS_HAT1Y 2400; mkEvent ecodes.ABS_HAT1X 2100;
   mkEvent ecodes.ABS_HAT0Y 2300; mkEvent ecodes.ABS_HAT1X 2000;
   mkEvent ecodes.ABS_HAT0X 2200].

(** Three sensors: the top right one is missing. *)
Definition partial_group : list InputEvent :=
  [mkEvent ecodes.ABS_HAT1X 2100; mkEvent ecodes.ABS_HAT0Y 2100;
   mkEvent ecodes.ABS_HAT1Y 2100].

(** [n] readings of [v] on every sensor. *)
Fixpoint groups (n : nat) (v : Z) : list Read :=
  match n with
  | O => []
  | S n' => group v v v v ++ groups n' v
  end.

(** The flag stays set. *)
Definition always : nat -> bool := fun _ => true.

(** The flag is cleared before its [n]-th read. *)
Definition until (n : nat) : nat -> bool := fun k => (k <? n)%nat.

Definition start : State := mkState [] 0 0%Q [].


From Stdlib Require Import Lqa Qround.

(** * More of the code: notions and models

    ** Notions for the decoder *)

(** The report-complete marker: [SYN_REPORT] with value 0. *)
Definition is_marker (e : InputEvent) : bool :=
  (code e =? ecodes.SYN_REPORT) && (value e =? 0).

(** An event the loop of [get_raw_measurement] passes over: none of the
    four axes, not the button, not the report-complete marker.  These are
    [SYN_DROPPED], [SYN_REPORT] with value 3 and every code the chain of
    tests does not name. *)
Definition passed_over (e : InputEvent) : bool :=
  match slot_of (code e) with
  | Some _ => false
  | None => negb (code e =? ecodes.BTN_A) && negb (is_marker e)
  end.

(** ** The [else] branch of [get_raw_measurement]

    The branch builds the message it hands to [debug] from
    [evdev.categorize(event)], whether the message is printed or not.
    The library raises [KeyError] there for an event whose code it has
    no name for. *)

(** The event falls through every test of the chain. *)
Definition reaches_else (e : InputEvent) : bool :=
  match decode empty_slots e with
  | Unexpected _ => true
  | _ => false
  end.

(** How a call ends when the [else] branch is followed into the
    library. *)
Inductive Checked : Type :=
| Finished (r : Raw)
| KeyError (rest : list Read).   (* no name for the event's code *)

Section Categorize.

(** Whether the library has a name for the event. *)
Variable named : InputEvent -> bool.

(** The [while True] loop with the [else] branch as the source has it. *)
Fixpoint get_raw_measurement_checked (data : list (option Q))
    (device : list Read) : Checked :=
  match device with
  | [] => Finished (Waiting data)
  | NoEvent :: rest => get_raw_measurement_checked data rest
  | Fault :: rest => Finished (Failed rest)
  | Event event :: rest =>
      match decode data event with
      | Pending data' => get_raw_measurement_checked data' rest
      | Discarded => get_raw_measurement_checked empty_slots rest
      | Completed m => Finished (Measured m rest)
      | Abort msg => Finished (Exit msg rest)
      | Unexpected data' =>
          if named event then get_raw_measurement_checked data' rest
          else KeyError rest
      end
  end.

(** A read that leaves the decoder as it was: no event, an event of a
    [pass] branch, or an event of the [else] branch that has a name. *)
Definition idle (r : Read) : bool :=
  match r with
  | NoEvent => true
  | Event e => passed_over e && (negb (reaches_else e) || named e)
  | Fault => false
  end.

Definition without_idle (device : list Read) : list Read :=
  List.filter (fun r => negb (idle r)) device.

(** Every event of [device] that reaches the [else] branch has a
    name. *)
Definition all_named (device : list Read) : Prop :=
  Forall (fun r => match r with
                   | Event e => reaches_else e = true -> named e = true
                   | _ => True
                   end) device.

End Categorize.

(** A result with its unread reads changed by [f]. *)
Definition on_rest (f : list Read -> list Read) (r : Raw) : Raw :=
  match r with
  | Measured m rest => Measured m (f rest)
  | Exit msg rest => Exit msg (f rest)
  | Failed rest => Failed (f rest)
  | Waiting data => Waiting data
  end.

Definition on_rest_checked (f : list Read -> list Read) (r : Checked)
    : Checked :=
  match r with
  | Finished r => Finished (on_rest f r)
  | KeyError rest => KeyError (f rest)
  end.

(** The events among some reads. *)
Fixpoint events (l : list Read) : list InputEvent :=
  match l with
  | [] => []
  | Event e :: l' => e :: events l'
  | _ :: l' => events l'
  end.

(** No read of [l] is the report-complete marker, the button or a
    failure: [l] lies inside one group. *)
Definition inside_group (l : list Read) : Prop :=
  Forall (fun r => match r with
                   | NoEvent => True
                   | Event e => is_marker e = false
                                /\ code e <> ecodes.BTN_A
                   | Fault => False
                   end) l.

(** [l] is empty or ends with a report-complete marker. *)
Definition ends_group (l : list Read) : Prop :=
  l = [] \/ exists l' e, l = l' ++ [Event e] /\ is_marker e = true.

(** * The window of [gui.py]

    The functions of [gui.py] that [cli.py] does not have, or has in
    another form.  Numbers are exact rationals here as well.  Drawing
    calls, label texts and the configuration file are left out; what is
    kept is what the code computes. *)

(** ** Python's [int], [round], [//] and [%] on numbers *)

(** [int(x)]: towards zero. *)
Definition py_int (x : Q) : Z := Z.quot (Qnum x) (Zpos (Qden x)).

(** [round(x)]: to the nearest whole number, a tie to the even one. *)
Definition py_round (x : Q) : Z :=
  let f := Qfloor x in
  match (x - inject_Z f ?= 1 # 2)%Q with
  | Lt => f
  | Gt => f + 1
  | Eq => if Z.even f then f else f + 1
  end.

(** [x // y] and [x % y] for a divisor above zero. *)
Definition py_floordiv (x y : Q) : Q := inject_Z (Qfloor (x / y)).
Definition py_mod (x y : Q) : Q := (x - y * inject_Z (Qfloor (x / y)))%Q.

(** [max(a, b)] and [min(a, b)]: the first argument unless the second
    is strictly beyond it. *)
Definition py_max (a b : Q) : Q := if Qlt_bool a b then b else a.
Definition py_min (a b : Q) : Q := if Qlt_bool b a then b else a.

(** A result without its value. *)
Definition forget {A} (x : Result A * State) : Result unit * State :=
  match x with
  | (Return _, s) => (Return tt, s)
  | (Raise e, s) => (Raise e, s)
  | (Starved, s) => (Starved, s)
  | (OutOfFuel, s) => (OutOfFuel, s)
  end.

Module gui.

Definition DEFAULT_MIN_WEIGHT_LIMIT : Q := 20.

(** A dict keeps the order in which its keys were written. *)
Definition BMI_CATEGORIES : list (string * (Q * Q)) :=
  [("Underweight"%string, (0, 18.5)); ("Normal weight"%string, (18.5, 25));
   ("Overweight"%string, (25, 30)); ("Obese"%string, (30, 100))]%Q.

(** ** The controls of the window *)

(** The values the window's controls hold. *)
Record Controls : Type := mkControls {
  use_imperial : bool;
  height_spin : Q;     (* lower=100, upper=250 *)
  feet_spin : Q;       (* lower=1, upper=8 *)
  inches_spin : Q;     (* lower=0, upper=11 *)
  adj_spin : Q         (* lower=-20, upper=20 *)
}.

(** [spin.set_value(v)] of a control with the bounds [lower] and
    [upper]: the toolkit keeps the value within the bounds. *)
Definition set_value (lower upper v : Q) : Q :=
  if Qlt_bool v lower then lower
  else if Qlt_bool upper v then upper
  else v.

(** The values of the controls lie within their bounds. *)
Definition within_bounds (c : Controls) : Prop :=
  (100 <= height_spin c <= 250)%Q
  /\ (1 <= feet_spin c <= 8)%Q
  /\ (0 <= inches_spin c <= 11)%Q
  /\ (-20 <= adj_spin c <= 20)%Q.

Definition get_height_in_cm (c : Controls) : Q :=
  if use_imperial c
  then ((feet_spin c * 12 + inches_spin c) * 2.54)%Q
  else height_spin c.

Definition get_adjustment_in_kg (c : Controls) : Q :=
  if use_imperial c then (adj_spin c / 2.20462)%Q else adj_spin c.

(** The number [update_weight_display] formats, when it shows one. *)
Definition update_weight_display (c : Controls) (current_weight : Q)
    : option Q :=
  if Qlt_bool 0 current_weight then
    if use_imperial c then Some (current_weight * 2.20462)%Q
    else Some current_weight
  else None.

(** ** [on_unit_toggled] *)

(** [cm = int((feet * 12 + inches) * 2.54)] *)
Definition cm_of_imperial (feet inches : Q) : Z :=
  py_int ((feet * 12 + inches) * 2.54)%Q.

(** The branch for the imperial button, up to the two [set_value]. *)
Definition imperial_of_cm (cm : Q) : Z * Z :=
  let total_inches := (cm / 2.54)%Q in
  let feet := py_int (py_floordiv total_inches 12) in
  let inches := py_round (py_mod total_inches 12) in
  if inches =? 12 then (feet + 1, 0) else (feet, inches).

(** The metric button becomes active. *)
Definition to_metric (c : Controls) : Controls :=
  let cm := cm_of_imperial (feet_spin c) (inches_spin c) in
  mkControls false (set_value 100 250 (inject_Z cm))
             (feet_spin c) (inches_spin c) (adj_spin c).

(** The imperial button becomes active. *)
Definition to_imperial (c : Controls) : Controls :=
  let (feet, inches) := imperial_of_cm (height_spin c) in
  mkControls true (height_spin c)
             (set_value 1 8 (inject_Z feet))
             (set_value 0 11 (inject_Z inches)) (adj_spin c).

(** ** [calculate_bmi] *)

(** The loop over [BMI_CATEGORIES.items()], from ["Unknown"]. *)
Fixpoint category_of (bmi : Q) (categories : list (string * (Q * Q)))
    : string :=
  match categories with
  | [] => "Unknown"
  | (cat, (min_val, max_val)) :: later =>
      if Qle_bool min_val bmi && Qlt_bool bmi max_val then cat
      else category_of bmi later
  end.

(** [None] stands for the [ZeroDivisionError] of the division. *)
Definition calculate_bmi (weight_kg height_cm : Q) : option (Q * string) :=
  let height_m := (height_cm / 100)%Q in
  if Qeq_bool (height_m * height_m) 0 then None
  else
    let bmi := (weight_kg / (height_m * height_m))%Q in
    Some (bmi, category_of bmi BMI_CATEGORIES).

(** ** The scale of [BMIScaleDrawingArea._draw_func] *)

Definition margin : Q := 10.
Definition bmi_min : Q := 10.
Definition bmi_max : Q := 40.
Definition bar_width (width : Q) : Q := (width - 2 * margin)%Q.
Definition scale_factor (width : Q) : Q :=
  (bar_width width / (bmi_max - bmi_min))%Q.

(** [sorted(BMI_CATEGORIES.items(), key=lambda x: x[1][0])]: a stable
    sort on the lower bounds. *)
Fixpoint insert_by_min (x : string * (Q * Q)) (l : list (string * (Q * Q)))
    : list (string * (Q * Q)) :=
  match l with
  | [] => [x]
  | y :: l' =>
      if Qlt_bool (fst (snd x)) (fst (snd y)) then x :: l
      else y :: insert_by_min x l'
  end.

Definition sorted_by_min (l : list (string * (Q * Q)))
    : list (string * (Q * Q)) :=
  fold_left (fun acc x => insert_by_min x acc) l [].

(** One entry of the list [segments]. *)
Record Segment : Type := mkSegment {
  category : string;
  start_x : Q;
  end_x : Q;
  segment_width : Q
}.

(** The first loop of [_draw_func]: the segments it will draw. *)
Fixpoint segments_of (width : Q) (items : list (string * (Q * Q)))
    : list Segment :=
  match items with
  | [] => []
  | (cat, (min_val, max_val)) :: later =>
      let display_min := py_max min_val bmi_min in
      let display_max := py_min max_val bmi_max in
      if Qle_bool display_max display_min then segments_of width later
      else
        let start_x := (margin + (display_min - bmi_min)
                                 * scale_factor width)%Q in
        let end_x := (margin + (display_max - bmi_min)
                               * scale_factor width)%Q in
        mkSegment cat start_x end_x (end_x - start_x)%Q
        :: segments_of width later
  end.

Definition segments (width : Q) : list Segment :=
  segments_of width (sorted_by_min BMI_CATEGORIES).

(** [marker_x], when [self.bmi > 0] and a marker is drawn. *)
Definition marker_x (width bmi : Q) : option Q :=
  if Qlt_bool 0 bmi then
    Some (margin + (py_min (py_max bmi bmi_min) bmi_max - bmi_min)
                   * scale_factor width)%Q
  else None.

(** The segments run from [from] to [to], each starting at the very
    number at which the one before it ends. *)
Fixpoint contiguous (from : Q) (l : list Segment) (to : Q) : Prop :=
  match l with
  | [] => from = to
  | seg :: later =>
      start_x seg = from
      /\ segment_width seg = (end_x seg - start_x seg)%Q
      /\ contiguous (end_x seg) later to
  end.

(** ** [measure_weight] and [measure_thread] of [gui.py] *)

Section Session.

Variable measuring : nat -> bool.
Variable lookups : list (option (list Read)).

(** [measure_weight] of [gui.py]: no address, no command. *)
Definition measure_weight (adjust minlimit : Q) (terse fake : bool)
    : M Q :=
  do weight_data <-
    (if fake then ret fake_data
     else do board <- wait_for_board lookups;
          read_data measuring board 200 minlimit);
  do final_weight <- final_weight_of weight_data adjust;
  run when terse (effect (PrintWeight final_weight));
  ret final_weight.

(** What the window's thread works on: the session and the global
    [current_bmi]. *)
Record Window : Type := mkWindow {
  session : State;
  current_bmi : Q
}.

(** The [try] of [measure_thread] up to [current_weight = final_weight];
    the weight, when one was published. *)
Definition publish_weight (adjust minlimit : Q) : M (option Q) :=
  do board <- wait_while_measuring measuring lookups;
  do measuring_now <- read_measuring measuring;
  if negb measuring_now then ret None
  else
    do weight_data <-
      match board with
      | Some board => read_data measuring board 200 minlimit
      | None => run read_measuring measuring; raise AttributeError
      end;
    if negb (length weight_data =? 0)%nat then
      do measuring_now <- read_measuring measuring;
      if measuring_now then
        do final_weight <- final_weight_of weight_data adjust;
        run (fun s => (Return tt, set_current_weight final_weight s));
        ret (Some final_weight)
      else ret None
    else ret None.

(** [measure_thread] of [gui.py].  After the weight it reads the height
    from the controls and publishes the BMI; the [ZeroDivisionError] of
    [calculate_bmi] is an [Exception] and ends in the handler. *)
Definition measure_thread (c : Controls) (adjust minlimit : Q)
    (g : Window) : Result unit * Window :=
  match publish_weight adjust minlimit (session g) with
  | (Return (Some final_weight), s') =>
      let height := get_height_in_cm c in
      match calculate_bmi final_weight height with
      | Some (bmi, _) => (Return tt, mkWindow (emit IdleAdd s') bmi)
      | None => (Return tt, mkWindow (emit IdleAdd s') (current_bmi g))
      end
  | (Return None, s') =>
      (Return tt, mkWindow (emit IdleAdd s') (current_bmi g))
  | (Raise (SystemExit msg), s') =>
      (Raise (SystemExit msg), mkWindow (emit IdleAdd s') (current_bmi g))
  | (Raise _, s') =>
      (Return tt, mkWindow (emit IdleAdd s') (current_bmi g))
  | (Starved, s') => (Starved, mkWindow s' (current_bmi g))
  | (OutOfFuel, s') => (OutOfFuel, mkWindow s' (current_bmi g))
  end.

(** [on_measure_clicked] while no measurement runs: the thread it
    starts. *)
Definition on_measure_clicked (c : Controls) (g : Window)
    : Result unit * Window :=
  measure_thread c (get_adjustment_in_kg c) DEFAULT_MIN_WEIGHT_LIMIT g.

End Session.

End gui.

(** ** Switching units and back *)

(** The centimetres after switching to imperial and back to metric. *)
Definition metric_and_back (height : Q) : Q :=
  gui.height_spin
    (gui.to_metric (gui.to_imperial (gui.mkControls false height 1 0 0))).

(** The feet and inches after switching to metric and back to
    imperial. *)
Definition imperial_and_back (feet inches : Q) : Q * Q :=
  let c := gui.to_imperial
             (gui.to_metric (gui.mkControls true 100 feet inches 0)) in
  (gui.feet_spin c, gui.inches_spin c).
(** * Properties

    ** The decoder *)

Example four_axes :
  get_raw_measurement (group 2100 2100 2100 2100)
  = Measured (reading 2100 2100 2100 2100) [].
Proof. reflexivity. Qed.

(** Case analysis on every test of an [if] in the goal. *)
Ltac case_tests :=
  repeat match goal with
         | |- context [if ?b then _ else _] => destruct b
         end.

Lemma decode_axis data e i :
  slot_of (code e) = Some i ->
  decode data e = Pending (<[i := Some (div100 (value e))]> data).
Proof.
  unfold slot_of, decode.
  repeat (destruct (code e =? _); [intros [= <-]; reflexivity|]).
  discriminate.
Qed.

Lemma loop_axes evs : forall data rest,
  Forall is_axis evs ->
  get_raw_measurement_from data (map Event evs ++ rest)
  = get_raw_measurement_from (feed data evs) rest.
Proof.
  induction evs as [|e evs IH]; intros data rest Hax; [reflexivity|].
  inversion Hax as [|? ? [i Hi] Hax']; subst.
  cbn [map app get_raw_measurement_from].
  rewrite (decode_axis data e i Hi), IH by assumption.
  unfold feed; cbn [fold_left]. rewrite Hi. reflexivity.
Qed.

Lemma feed_length evs : forall data, length (feed data evs) = length data.
Proof.
  induction evs as [|e evs IH]; intros data; [reflexivity|].
  unfold feed in *; cbn [fold_left]. rewrite IH.
  destruct (slot_of (code e)); [apply length_insert|reflexivity].
Qed.

Lemma slot_of_inj c c' i :
  slot_of c = Some i -> slot_of c' = Some i -> c = c'.
Proof.
  unfold slot_of.
  repeat match goal with
         | |- context [?x =? ?y] => destruct (Z.eqb_spec x y)
         end; congruence.
Qed.

Lemma feed_lookup evs : forall data c i,
  slot_of c = Some i -> (i < length data)%nat ->
  feed data evs !! i
  = match last_value c evs with
    | Some v => Some (Some (div100 v))
    | None => data !! i
    end.
Proof.
  induction evs as [|e evs IH]; intros data c i Hc Hi; [reflexivity|].
  unfold feed; cbn [fold_left last_value]. fold (feed).
  destruct (slot_of (code e)) as [j|] eqn:Hj.
  - change (fold_left _ evs ?d) with (feed d evs).
    rewrite (IH _ c i Hc) by (rewrite length_insert; exact Hi).
    destruct (last_value c evs); [reflexivity|].
    destruct (Z.eqb_spec (code e) c) as [<-|Hne].
    + assert (j = i) as -> by congruence.
      apply list_lookup_insert_eq, Hi.
    + apply list_lookup_insert_ne. intros ->. apply Hne.
      eapply slot_of_inj; eassumption.
  - change (fold_left _ evs ?d) with (feed d evs).
    rewrite (IH _ c i Hc Hi).
    destruct (last_value c evs); [reflexivity|].
    destruct (Z.eqb_spec (code e) c) as [<-|Hne]; [congruence|reflexivity].
Qed.

Lemma feed_all_axes evs tl tr bl br :
  last_value ecodes.ABS_HAT1X evs = Some tl ->
  last_value ecodes.ABS_HAT0X evs = Some tr ->
  last_value ecodes.ABS_HAT0Y evs = Some bl ->
  last_value ecodes.ABS_HAT1Y evs = Some br ->
  feed empty_slots evs
  = [Some (div100 tl); Some (div100 tr); Some (div100 bl); Some (div100 br)].
Proof.
  intros H0 H1 H2 H3.
  pose proof (feed_length evs empty_slots) as Hlen.
  pose proof (feed_lookup evs empty_slots ecodes.ABS_HAT1X 0 eq_refl) as L0.
  pose proof (feed_lookup evs empty_slots ecodes.ABS_HAT0X 1 eq_refl) as L1.
  pose proof (feed_lookup evs empty_slots ecodes.ABS_HAT0Y 2 eq_refl) as L2.
  pose proof (feed_lookup evs empty_slots ecodes.ABS_HAT1Y 3 eq_refl) as L3.
  rewrite H0 in L0. rewrite H1 in L1. rewrite H2 in L2. rewrite H3 in L3.
  cbn [empty_slots length] in *.
  destruct (feed empty_slots evs) as [|a [|b [|c [|d [|? ?]]]]];
    try discriminate Hlen.
  cbn in L0, L1, L2, L3.
  specialize (L0 ltac:(lia)). specialize (L1 ltac:(lia)).
  specialize (L2 ltac:(lia)). specialize (L3 ltac:(lia)).
  congruence.
Qed.

Lemma feed_missing evs c i :
  slot_of c = Some i ->
  last_value c evs = None ->
  has_None (feed empty_slots evs) = true.
Proof.
  intros Hc Hnone.
  assert (i < 4)%nat as Hi.
  { revert Hc. unfold slot_of.
    repeat (destruct (c =? _); [intros [= <-]; lia|]). discriminate. }
  pose proof (feed_lookup evs empty_slots c i Hc Hi) as L.
  rewrite Hnone in L.
  assert (feed empty_slots evs !! i = Some None) as L'.
  { rewrite L. destruct i as [|[|[|[|?]]]]; try reflexivity; lia. }
  clear L Hc Hnone Hi. revert i L'.
  induction (feed empty_slots evs) as [|[x|] data IH]; intros i L; cbn in *.
  - destruct i; discriminate.
  - destruct i as [|i]; [discriminate|]. exact (IH i L).
  - reflexivity.
Qed.

(** The slots stay four: every index the decoder writes is in range. *)
Lemma decode_keeps_slots data e data' :
  length data = 4%nat ->
  decode data e = Pending data' \/ decode data e = Unexpected data' ->
  length data' = 4%nat.
Proof.
  unfold decode. intros Hlen.
  case_tests;
    intros [H|H]; try discriminate;
    injection H as <-; rewrite ?length_insert; exact Hlen.
Qed.

Lemma decode_report_complete data e :
  code e = ecodes.SYN_REPORT -> value e = 0 ->
  decode data e = if has_None data then Discarded else Completed (sum data).
Proof. unfold decode. intros -> ->. reflexivity. Qed.

Lemma decode_button data e :
  code e = ecodes.BTN_A -> decode data e = Abort abort_message.
Proof. unfold decode. intros ->. reflexivity. Qed.

(** C1. A group of axis events that gives every one of the four axes a
    raw value, in any order and with any repetition, followed by the
    report-complete marker: the call returns, at the marker, one sample,
    the sum (from 0, in slot order) of the last raw value of each axis
    divided by 100, and the next call starts from four unset slots: when
    the group that follows leaves an axis out, it is discarded, although
    the completed group had a value for that axis. *)
Theorem C1_complete_group_sums_and_resets
    (evs : list InputEvent) (tl tr bl br : Z) (rest : list Read) :
  Forall is_axis evs ->
  last_value ecodes.ABS_HAT1X evs = Some tl ->
  last_value ecodes.ABS_HAT0X evs = Some tr ->
  last_value ecodes.ABS_HAT0Y evs = Some bl ->
  last_value ecodes.ABS_HAT1Y evs = Some br ->
  get_raw_measurement (map Event evs ++ report 0 :: rest)
  = Measured (0 + inject_Z tl / 100 + inject_Z tr / 100
              + inject_Z bl / 100 + inject_Z br / 100)%Q rest
  /\ second_call (map Event evs ++ report 0 :: rest)
     = Some (get_raw_measurement_from empty_slots rest)
  /\ forall (next : list InputEvent) (c : Z) (later : list Read),
       Forall is_axis next ->
       is_Some (slot_of c) ->
       last_value c next = None ->
       rest = map Event next ++ report 0 :: later ->
       second_call (map Event evs ++ report 0 :: rest)
       = Some (get_raw_measurement later).
Proof.
  intros Hax H0 H1 H2 H3.
  assert (get_raw_measurement (map Event evs ++ report 0 :: rest)
          = Measured (0 + inject_Z tl / 100 + inject_Z tr / 100
                      + inject_Z bl / 100 + inject_Z br / 100)%Q
                     rest) as Hcall.
  { unfold get_raw_measurement. rewrite loop_axes by assumption.
    rewrite (feed_all_axes evs tl tr bl br) by assumption.
    reflexivity. }
  split; [exact Hcall|].
  split; [unfold second_call; rewrite Hcall; reflexivity|].
  intros next c later Hnext [i Hc] Hnone Hrest.
  unfold second_call. rewrite Hcall. f_equal. rewrite Hrest.
  unfold get_raw_measurement. rewrite loop_axes by assumption.
  unfold report. cbn [get_raw_measurement_from].
  rewrite decode_report_complete by reflexivity.
  rewrite (feed_missing next c i Hc Hnone). reflexivity.
Qed.

Lemma C1_witness :
  get_raw_measurement
    (map Event shuffled_group
     ++ report 0 :: map Event partial_group ++ report 0 :: [report 0])
  = Measured (0 + inject_Z 2000 / 100 + inject_Z 2200 / 100
              + inject_Z 2300 / 100 + inject_Z 2400 / 100)%Q
             (map Event partial_group ++ report 0 :: [report 0])
  /\ second_call
       (map Event shuffled_group
        ++ report 0 :: map Event partial_group ++ report 0 :: [report 0])
     = Some (get_raw_measurement_from empty_slots
               (map Event partial_group ++ report 0 :: [report 0]))
  /\ forall (next : list InputEvent) (c : Z) (later : list Read),
       Forall is_axis next ->
       is_Some (slot_of c) ->
       last_value c next = None ->
       map Event partial_group ++ report 0 :: [report 0]
       = map Event next ++ report 0 :: later ->
       second_call
         (map Event shuffled_group
          ++ report 0 :: map Event partial_group ++ report 0 :: [report 0])
       = Some (get_raw_measurement later).
Proof.
  apply (C1_complete_group_sums_and_resets shuffled_group
           2000 2200 2300 2400).
  - repeat constructor; eexists; reflexivity.
  - reflexivity.
  - reflexivity.
  - reflexivity.
  - reflexivity.
Defined.

(** C5. Whenever a slot is still unset at the moment the report-complete
    marker arrives (here after any run of axis events from any slots), the
    step is [Discarded], nothing is raised, and the call goes on exactly as
    a call with four unset slots on the events after the marker: nothing
    of the abandoned group is left for a later sample. *)
Theorem C5_incomplete_group_discarded
    (data : list (option Q)) (evs : list InputEvent) (rest : list Read) :
  Forall is_axis evs ->
  has_None (feed data evs) = true ->
  decode (feed data evs) (mkEvent ecodes.SYN_REPORT 0) = Discarded
  /\ get_raw_measurement_from data (map Event evs ++ report 0 :: rest)
     = get_raw_measurement_from empty_slots rest.
Proof.
  intros Hax Hnone.
  assert (decode (feed data evs) (mkEvent ecodes.SYN_REPORT 0) = Discarded)
    as Hd.
  { rewrite decode_report_complete by reflexivity. rewrite Hnone.
    reflexivity. }
  split; [exact Hd|].
  rewrite loop_axes by assumption.
  unfold report. cbn [get_raw_measurement_from]. rewrite Hd. reflexivity.
Qed.

Lemma C5_witness :
  decode (feed empty_slots partial_group) (mkEvent ecodes.SYN_REPORT 0)
  = Discarded
  /\ get_raw_measurement_from empty_slots
       (map Event partial_group
        ++ report 0 :: [axis ecodes.ABS_HAT0X 900; report 0])
     = get_raw_measurement_from empty_slots
         [axis ecodes.ABS_HAT0X 900; report 0].
Proof.
  apply (C5_incomplete_group_discarded empty_slots partial_group
           [axis ecodes.ABS_HAT0X 900; report 0]).
  - repeat constructor; eexists; reflexivity.
  - apply (feed_missing _ ecodes.ABS_HAT0X 1%nat); reflexivity.
Defined.

Lemma Qlt_bool_true x y : Qlt_bool x y = true <-> (x < y)%Q.
Proof.
  unfold Qlt_bool. rewrite negb_true_iff.
  split.
  - intros H. apply Qnot_le_lt. intros Hle.
    apply Qle_bool_iff in Hle. congruence.
  - intros H. destruct (Qle_bool y x) eqn:E; [|reflexivity].
    apply Qle_bool_iff in E. exfalso. exact (Qlt_not_le _ _ H E).
Qed.

Lemma Qlt_bool_false x y : Qlt_bool x y = false <-> (y <= x)%Q.
Proof.
  unfold Qlt_bool. rewrite negb_false_iff. apply Qle_bool_iff.
Qed.

Lemma get_raw_measurement_shorter device : forall data m rest,
  get_raw_measurement_from data device = Measured m rest ->
  (length rest < length device)%nat.
Proof.
  induction device as [|r device IH]; intros data m rest H;
    cbn [get_raw_measurement_from] in H; [discriminate|].
  cbn [length].
  destruct r as [|e|].
  - apply IH in H. lia.
  - destruct (decode data e); try discriminate;
      try (apply IH in H; lia).
    injection H as _ <-. lia.
  - discriminate.
Qed.

Section Loop.

Variable measuring : nat -> bool.
Variables (samples : Z) (threshold : Q).

(** One turn of the loop, with the monad unfolded. *)
Lemma read_data_loop_turn fuel data s :
  read_data_loop measuring (S fuel) samples threshold data s
  = if measuring (clock s) then
      match get_raw_measurement (device s) with
      | Measured m rest =>
          let s1 := set_device rest (tick s) in
          if negb (length data =? 0)%nat && Qlt_bool m threshold then
            (Return data, emit Close s1)
          else if (length data =? 0)%nat && Qlt_bool m threshold then
            read_data_loop measuring fuel samples threshold data s1
          else if Z.of_nat (length (data ++ [m])) >=? samples then
            (Return (data ++ [m]), emit Close s1)
          else
            read_data_loop measuring fuel samples threshold (data ++ [m]) s1
      | Exit msg rest => (Raise (SystemExit msg), set_device rest (tick s))
      | Failed rest => (Raise OSError, set_device rest (tick s))
      | Waiting _ => (Starved, set_device [] (tick s))
      end
    else (Return data, emit Close (tick s)).
Proof.
  cbn [read_data_loop]. unfold bind at 1. unfold read_measuring.
  destruct (measuring (clock s)); [|reflexivity].
  unfold bind at 1. unfold next_measurement. cbn [device tick].
  destruct (get_raw_measurement (device s)) as [m rest|msg rest|rest|d];
    try reflexivity.
  cbv zeta.
  destruct (negb (length data =? 0)%nat && Qlt_bool m threshold);
    [reflexivity|].
  destruct ((length data =? 0)%nat && Qlt_bool m threshold); [reflexivity|].
  destruct (Z.of_nat (length (data ++ [m])) >=? samples); reflexivity.
Qed.

Lemma read_data_loop_by_turn fuel data s :
  read_data_loop measuring (S fuel) samples threshold data s
  = match turn measuring samples threshold data s with
    | Ends out => out
    | GoesOn data' s' =>
        read_data_loop measuring fuel samples threshold data' s'
    end.
Proof.
  rewrite read_data_loop_turn. unfold turn.
  destruct (measuring (clock s)); [|reflexivity].
  destruct (get_raw_measurement (device s)); try reflexivity.
  cbv zeta.
  case_tests; reflexivity.
Qed.

(** Fuel above the number of reads left is never used up: any two such
    amounts give the same run. *)
Lemma read_data_loop_fuel f1 : forall f2 data s,
  (length (device s) < f1)%nat -> (length (device s) < f2)%nat ->
  read_data_loop measuring f1 samples threshold data s
  = read_data_loop measuring f2 samples threshold data s.
Proof.
  induction f1 as [|f1 IH]; intros f2 data s H1 H2; [lia|].
  destruct f2 as [|f2]; [lia|].
  rewrite !read_data_loop_turn.
  destruct (measuring (clock s)); [|reflexivity].
  destruct (get_raw_measurement (device s)) as [m rest|msg rest|rest|d] eqn:E;
    try reflexivity.
  apply get_raw_measurement_shorter in E.
  cbv zeta.
  assert (forall d, read_data_loop measuring f1 samples threshold d
                      (set_device rest (tick s))
                    = read_data_loop measuring f2 samples threshold d
                      (set_device rest (tick s))) as Hrec.
  { intros d. apply IH; cbn [device set_device]; lia. }
  rewrite !Hrec. reflexivity.
Qed.

Lemma read_data_loop_never_out_of_fuel fuel : forall data s,
  (length (device s) < fuel)%nat ->
  fst (read_data_loop measuring fuel samples threshold data s) <> OutOfFuel.
Proof.
  induction fuel as [|fuel IH]; intros data s H; [lia|].
  rewrite read_data_loop_turn.
  destruct (measuring (clock s)); [|discriminate].
  destruct (get_raw_measurement (device s)) as [m rest|msg rest|rest|d] eqn:E;
    try discriminate.
  apply get_raw_measurement_shorter in E.
  cbv zeta.
  case_tests; try discriminate; apply IH; cbn [device set_device]; lia.
Qed.

(** The cases of a run of the loop, as an induction principle. *)
Lemma read_data_loop_cases
    (P : list Q -> State -> Result (list Q) * State -> Prop) :
  (forall data s, P data s (OutOfFuel, s)) ->
  (forall data s,
     measuring (clock s) = false ->
     P data s (Return data, emit Close (tick s))) ->
  (forall data s m rest,
     measuring (clock s) = true ->
     get_raw_measurement (device s) = Measured m rest ->
     data <> [] -> (m < threshold)%Q ->
     P data s (Return data, emit Close (set_device rest (tick s)))) ->
  (forall s m rest out,
     measuring (clock s) = true ->
     get_raw_measurement (device s) = Measured m rest ->
     (m < threshold)%Q ->
     P [] (set_device rest (tick s)) out ->
     P [] s out) ->
  (forall data s m rest,
     measuring (clock s) = true ->
     get_raw_measurement (device s) = Measured m rest ->
     (threshold <= m)%Q ->
     samples <= Z.of_nat (length (data ++ [m])) ->
     P data s (Return (data ++ [m]), emit Close (set_device rest (tick s)))) ->
  (forall data s m rest out,
     measuring (clock s) = true ->
     get_raw_measurement (device s) = Measured m rest ->
     (threshold <= m)%Q ->
     Z.of_nat (length (data ++ [m])) < samples ->
     P (data ++ [m]) (set_device rest (tick s)) out ->
     P data s out) ->
  (forall data s msg rest,
     measuring (clock s) = true ->
     get_raw_measurement (device s) = Exit msg rest ->
     P data s (Raise (SystemExit msg), set_device rest (tick s))) ->
  (forall data s rest,
     measuring (clock s) = true ->
     get_raw_measurement (device s) = Failed rest ->
     P data s (Raise OSError, set_device rest (tick s))) ->
  (forall data s slots,
     measuring (clock s) = true ->
     get_raw_measurement (device s) = Waiting slots ->
     P data s (Starved, set_device [] (tick s))) ->
  forall fuel data s,
    P data s (read_data_loop measuring fuel samples threshold data s).
Proof.
  intros Hfuel Hflag Hoff Hskip Hcap Happ Hexit Hfail Hwait.
  induction fuel as [|fuel IH]; intros data s; [apply Hfuel|].
  rewrite read_data_loop_turn.
  destruct (measuring (clock s)) eqn:Em; [|apply Hflag, Em].
  destruct (get_raw_measurement (device s)) as [m rest|msg rest|rest|d] eqn:E;
    [|apply Hexit; assumption|apply Hfail; assumption
     |eapply Hwait; eassumption].
  cbv zeta.
  destruct (Qlt_bool m threshold) eqn:Elt.
  - apply Qlt_bool_true in Elt.
    destruct data as [|x data].
    + cbn [length Nat.eqb negb andb].
      apply (Hskip s m rest _ Em E Elt), IH.
    + cbn [length Nat.eqb negb andb].
      apply (Hoff (x :: data) s m rest Em E); [discriminate|exact Elt].
  - apply Qlt_bool_false in Elt.
    rewrite !andb_false_r.
    destruct (Z.geb_spec (Z.of_nat (length (data ++ [m]))) samples).
    + apply (Hcap data s m rest Em E Elt). lia.
    + apply (Happ data s m rest _ Em E Elt); [lia|apply IH].
Qed.

Lemma decodes_shorter device ms rest :
  decodes device ms rest -> (length rest <= length device)%nat.
Proof.
  induction 1 as [|d m d' ms rest E _ IH]; [lia|].
  apply get_raw_measurement_shorter in E. lia.
Qed.

Lemma decodes_app device ms1 ms2 rest :
  decodes device (ms1 ++ ms2) rest ->
  exists mid, decodes device ms1 mid /\ decodes mid ms2 rest.
Proof.
  revert device. induction ms1 as [|m ms1 IH]; intros device H.
  - exists device. split; [constructor|exact H].
  - inversion H as [|? ? d' ? ? E H']; subst.
    destruct (IH _ H') as (mid & H1 & H2).
    exists mid. split; [econstructor; eassumption|exact H2].
Qed.

(** While the window is empty, samples below the threshold leave the
    loop where it was. *)
Lemma read_data_loop_skips lows : forall fuel s rest,
  decodes (device s) lows rest ->
  Forall (fun m => (m < threshold)%Q) lows ->
  (forall i, (i < length lows)%nat -> measuring (clock s + i) = true) ->
  (length (device s) < fuel)%nat ->
  read_data_loop measuring fuel samples threshold [] s
  = read_data_loop measuring fuel samples threshold []
      (advance (length lows) rest s).
Proof.
  induction lows as [|m lows IH]; intros fuel s rest Hdec Hlow Hflag Hfuel.
  - inversion Hdec; subst. unfold advance. cbn [length].
    rewrite Nat.add_0_r. destruct s; reflexivity.
  - inversion Hdec as [|? ? d' ? ? E Hdec']; subst.
    inversion Hlow as [|? ? Hm Hlow']; subst.
    destruct fuel as [|fuel]; [lia|].
    rewrite read_data_loop_turn.
    pose proof (Hflag 0%nat ltac:(cbn; lia)) as F0.
    rewrite Nat.add_0_r in F0. rewrite F0, E. cbv zeta.
    apply Qlt_bool_true in Hm. rewrite Hm. cbn [length Nat.eqb negb andb].
    pose proof (get_raw_measurement_shorter _ _ _ _ E) as Hlen.
    rewrite (read_data_loop_fuel fuel (S fuel))
      by (cbn [device set_device]; lia).
    rewrite (IH (S fuel) (set_device d' (tick s)) rest).
    + unfold advance. cbn [length clock set_device tick current_weight trace].
      replace (S (clock s) + length lows)%nat
        with (clock s + S (length lows))%nat by lia.
      reflexivity.
    + exact Hdec'.
    + exact Hlow'.
    + intros i Hi. cbn [clock set_device tick].
      replace (S (clock s) + i)%nat with (clock s + S i)%nat by lia.
      apply Hflag. cbn [length]. lia.
    + cbn [device set_device]. lia.
Qed.

(** Samples at or above the threshold are appended while the window
    stays below the cap. *)
Lemma read_data_loop_appends ms : forall fuel data s rest,
  decodes (device s) ms rest ->
  Forall (fun m => (threshold <= m)%Q) ms ->
  Z.of_nat (length (data ++ ms)) < samples ->
  (forall i, (i < length ms)%nat -> measuring (clock s + i) = true) ->
  (length (device s) < fuel)%nat ->
  read_data_loop measuring fuel samples threshold data s
  = read_data_loop measuring fuel samples threshold (data ++ ms)
      (advance (length ms) rest s).
Proof.
  induction ms as [|m ms IH]; intros fuel data s rest Hdec Hge Hcap Hflag Hfuel.
  - inversion Hdec; subst. unfold advance. cbn [length].
    rewrite Nat.add_0_r, app_nil_r. destruct s; reflexivity.
  - inversion Hdec as [|? ? d' ? ? E Hdec']; subst.
    inversion Hge as [|? ? Hm Hge']; subst.
    destruct fuel as [|fuel]; [lia|].
    rewrite read_data_loop_turn.
    pose proof (Hflag 0%nat ltac:(cbn; lia)) as F0.
    rewrite Nat.add_0_r in F0. rewrite F0, E. cbv zeta.
    apply Qlt_bool_false in Hm. rewrite Hm, !andb_false_r.
    rewrite !length_app in Hcap. cbn [length] in Hcap.
    destruct (Z.geb_spec (Z.of_nat (length (data ++ [m]))) samples) as [Hc|Hc].
    { rewrite length_app in Hc. cbn [length] in Hc. lia. }
    pose proof (get_raw_measurement_shorter _ _ _ _ E) as Hlen.
    rewrite (read_data_loop_fuel fuel (S fuel))
      by (cbn [device set_device]; lia).
    rewrite (IH (S fuel) (data ++ [m]) (set_device d' (tick s)) rest).
    + unfold advance. cbn [length clock set_device tick current_weight trace].
      replace (S (clock s) + length ms)%nat
        with (clock s + S (length ms))%nat by lia.
      rewrite <- app_assoc. reflexivity.
    + exact Hdec'.
    + exact Hge'.
    + rewrite !length_app. cbn [length]. lia.
    + intros i Hi. cbn [clock set_device tick].
      replace (S (clock s) + i)%nat with (clock s + S i)%nat by lia.
      apply Hflag. cbn [length]. lia.
    + cbn [device set_device]. lia.
Qed.

(** A returned window extends the window the loop was entered with. *)
Lemma read_data_loop_extends fuel data s w s' :
  read_data_loop measuring fuel samples threshold data s = (Return w, s') ->
  exists more, w = data ++ more.
Proof.
  revert w s'.
  apply (read_data_loop_cases
           (fun data s out => forall w s', out = (Return w, s') ->
                                           exists more, w = data ++ more));
    try (intros; discriminate).
  - intros d s0 _ w s' [= <- _]. exists []. symmetry. apply app_nil_r.
  - intros d s0 m rest _ _ _ _ w s' [= <- _]. exists [].
    symmetry. apply app_nil_r.
  - intros s0 m rest out _ _ _ IH w s' H. exact (IH w s' H).
  - intros d s0 m rest _ _ _ _ w s' [= <- _]. exists [m]. reflexivity.
  - intros d s0 m rest out _ _ _ _ IH w s' H.
    destruct (IH w s' H) as [more ->]. exists (m :: more).
    rewrite <- app_assoc. reflexivity.
Qed.

End Loop.

(** ** The collection loop *)

Lemma read_data_loop_at_least_threshold measuring samples threshold fuel :
  forall data s w s',
  Forall (fun x => (threshold <= x)%Q) data ->
  read_data_loop measuring fuel samples threshold data s = (Return w, s') ->
  Forall (fun x => (threshold <= x)%Q) w.
Proof.
  intros data s w s' Hdata Hrun. revert Hdata w s' Hrun.
  apply (read_data_loop_cases measuring samples threshold
           (fun data s out =>
              Forall (fun x => (threshold <= x)%Q) data ->
              forall w s', out = (Return w, s') ->
                           Forall (fun x => (threshold <= x)%Q) w));
    try (intros; discriminate).
  - intros d s0 _ Hd w s' [= <- _]. exact Hd.
  - intros d s0 m rest _ _ _ _ Hd w s' [= <- _]. exact Hd.
  - intros s0 m rest out _ _ _ IH Hd w s' H. exact (IH Hd w s' H).
  - intros d s0 m rest _ _ Hm _ Hd w s' [= <- _].
    apply Forall_app. split; [exact Hd|]. constructor; [exact Hm|constructor].
  - intros d s0 m rest out _ _ Hm _ IH Hd w s' H.
    apply (IH ltac:(apply Forall_app; split;
                    [exact Hd|constructor; [exact Hm|constructor]]) w s' H).
Qed.

(** [read_data] gives its loop fuel enough: the run it describes is the
    run of the [while] loop, never one cut short. *)
Lemma read_data_never_out_of_fuel measuring board samples threshold s :
  fst (read_data measuring board samples threshold s) <> OutOfFuel.
Proof.
  unfold read_data. apply read_data_loop_never_out_of_fuel.
  cbn [device set_device]. lia.
Qed.

Lemma turn_keeps_threshold measuring samples threshold data s data' s' :
  Forall (fun x => (threshold <= x)%Q) data ->
  turn measuring samples threshold data s = GoesOn data' s' ->
  Forall (fun x => (threshold <= x)%Q) data'.
Proof.
  intros Hdata. unfold turn.
  destruct (measuring (clock s)); [|discriminate].
  destruct (get_raw_measurement (device s)); try discriminate.
  cbv zeta.
  destruct (Qlt_bool m threshold) eqn:Elt.
  - rewrite !andb_true_r. destruct (length data =? 0)%nat; cbn [negb];
      [|discriminate].
    intros [= <- _]. exact Hdata.
  - rewrite !andb_false_r. apply Qlt_bool_false in Elt.
    destruct (Z.of_nat (length (data ++ [m])) >=? samples); [discriminate|].
    intros [= <- _]. apply Forall_app. split; [exact Hdata|].
    constructor; [exact Elt|constructor].
Qed.

Lemma holds_threshold measuring samples threshold data s data' s' :
  holds measuring samples threshold data s data' s' ->
  Forall (fun x => (threshold <= x)%Q) data ->
  Forall (fun x => (threshold <= x)%Q) data'.
Proof.
  induction 1 as [|d s0 d1 s1 d2 s2 Hturn _ IH]; intros Hdata;
    [exact Hdata|].
  apply IH. exact (turn_keeps_threshold _ _ _ _ _ _ _ Hdata Hturn).
Qed.

(** C10. Every element of a window [read_data] returns is at or above
    the threshold, and so is every element of every window the loop holds
    on its way: a sample below the threshold is never appended. *)
Theorem C10_window_at_least_threshold
    (measuring : nat -> bool) (board : list Read) (samples : Z)
    (threshold : Q) (s : State) :
  (forall w s',
     read_data measuring board samples threshold s = (Return w, s') ->
     Forall (fun x => (threshold <= x)%Q) w)
  /\ (forall data' s',
        holds measuring samples threshold [] (set_device board s) data' s' ->
        Forall (fun x => (threshold <= x)%Q) data').
Proof.
  split.
  - intros w s'. unfold read_data.
    apply read_data_loop_at_least_threshold. constructor.
  - intros data' s' Hholds.
    apply (holds_threshold _ _ _ _ _ _ _ Hholds). constructor.
Qed.

Lemma C10_witness :
  Forall (fun x => (20 <= x)%Q)
         [reading 2100 2100 2100 2100; reading 2200 2200 2200 2200]
  /\ Forall (fun x => (20 <= x)%Q) [reading 2100 2100 2100 2100].
Proof.
  destruct (C10_window_at_least_threshold always
              (group 100 100 100 100 ++ group 2100 2100 2100 2100
               ++ group 2200 2200 2200 2200 ++ group 450 450 450 450)
              200 20 start) as [Hreturned Hheld].
  split.
  - apply (Hreturned _ (mkState [] 4 0 [Close])). reflexivity.
  - apply (Hheld _ (mkState (group 2200 2200 2200 2200
                             ++ group 450 450 450 450) 2 0 [])).
    eapply holds_later; [reflexivity|].
    eapply holds_later; [reflexivity|apply holds_now].
Defined.

Lemma read_data_loop_bounded measuring samples threshold fuel :
  forall data s w s',
  data = [] \/ Z.of_nat (length data) < samples ->
  read_data_loop measuring fuel samples threshold data s = (Return w, s') ->
  Z.of_nat (length w) <= Z.max 1 samples.
Proof.
  intros data s w s' Hdata Hrun. revert Hdata w s' Hrun.
  apply (read_data_loop_cases measuring samples threshold
           (fun data s out =>
              data = [] \/ Z.of_nat (length data) < samples ->
              forall w s', out = (Return w, s') ->
                           Z.of_nat (length w) <= Z.max 1 samples));
    try (intros; discriminate).
  - intros d s0 _ [->|Hd] w s' [= <- _]; cbn [length]; lia.
  - intros d s0 m rest _ _ _ _ [->|Hd] w s' [= <- _]; cbn [length]; lia.
  - intros s0 m rest out _ _ _ IH Hd w s' H. exact (IH Hd w s' H).
  - intros d s0 m rest _ _ _ _ [->|Hd] w s' [= <- _];
      rewrite ?length_app; cbn [length app]; lia.
  - intros d s0 m rest out _ _ _ Hc IH _ w s' H.
    exact (IH (or_intror Hc) w s' H).
Qed.

Lemma turn_keeps_bound measuring samples threshold data s data' s' :
  data = [] \/ Z.of_nat (length data) < samples ->
  turn measuring samples threshold data s = GoesOn data' s' ->
  data' = [] \/ Z.of_nat (length data') < samples.
Proof.
  intros Hdata. unfold turn.
  destruct (measuring (clock s)); [|discriminate].
  destruct (get_raw_measurement (device s)); try discriminate.
  cbv zeta.
  destruct (negb (length data =? 0)%nat && Qlt_bool m threshold);
    [discriminate|].
  destruct ((length data =? 0)%nat && Qlt_bool m threshold).
  - intros [= <- _]. exact Hdata.
  - destruct (Z.geb_spec (Z.of_nat (length (data ++ [m]))) samples);
      [discriminate|].
    intros [= <- _]. right. assumption.
Qed.

Lemma holds_bound measuring samples threshold data s data' s' :
  holds measuring samples threshold data s data' s' ->
  data = [] \/ Z.of_nat (length data) < samples ->
  data' = [] \/ Z.of_nat (length data') < samples.
Proof.
  induction 1 as [|d s0 d1 s1 d2 s2 Hturn _ IH]; intros Hdata;
    [exact Hdata|].
  apply IH. exact (turn_keeps_bound _ _ _ _ _ _ _ Hdata Hturn).
Qed.

(** C9, as the code has it.  A window [read_data] returns holds at most
    [samples] entries, or one entry when [samples] is below 1 (the test
    against [samples] follows the append), and so does every window the
    loop holds on its way.  And a turn whose append makes the window
    reach [samples] ends the loop there: the handle is closed and the
    window returned with no further read of the flag or of the device. *)
Theorem C9_window_bounded
    (measuring : nat -> bool) (board : list Read) (samples : Z)
    (threshold : Q) (s : State) :
  (forall w s',
     read_data measuring board samples threshold s = (Return w, s') ->
     Z.of_nat (length w) <= Z.max 1 samples)
  /\ (forall data' s',
        holds measuring samples threshold [] (set_device board s) data' s' ->
        Z.of_nat (length data') <= Z.max 1 samples)
  /\ (forall fuel data s0 m rest,
        measuring (clock s0) = true ->
        get_raw_measurement (device s0) = Measured m rest ->
        (threshold <= m)%Q ->
        samples <= Z.of_nat (length (data ++ [m])) ->
        read_data_loop measuring (S fuel) samples threshold data s0
        = (Return (data ++ [m]),
           emit Close (set_device rest (tick s0)))).
Proof.
  split; [|split].
  - intros w s'. unfold read_data.
    apply read_data_loop_bounded. left. reflexivity.
  - intros data' s' Hholds.
    destruct (holds_bound _ _ _ _ _ _ _ Hholds (or_introl eq_refl))
      as [->|Hlt]; [cbn [length]|]; lia.
  - intros fuel data s0 m rest Hflag Hraw Hm Hcap.
    rewrite read_data_loop_turn, Hflag, Hraw. cbv zeta.
    apply Qlt_bool_false in Hm. rewrite Hm, !andb_false_r.
    destruct (Z.geb_spec (Z.of_nat (length (data ++ [m]))) samples);
      [reflexivity|lia].
Qed.

Lemma C9_witness :
  Z.of_nat (length (repeat (reading 2100 2100 2100 2100) 3)) <= Z.max 1 3
  /\ Z.of_nat (length [reading 2100 2100 2100 2100]) <= Z.max 1 3
  /\ read_data_loop always 1 3 20
       (repeat (reading 2100 2100 2100 2100) 2)
       (mkState (groups 3 2100) 2 0 [])
     = (Return (repeat (reading 2100 2100 2100 2100) 2
                ++ [reading 2100 2100 2100 2100]),
        mkState (groups 2 2100) 3 0 [Close]).
Proof.
  destruct (C9_window_bounded always (groups 5 2100) 3 20 start)
    as (Hbound & Hheld & Hturn).
  split; [|split].
  - apply (Hbound _ (mkState (groups 2 2100) 3 0 [Close])). reflexivity.
  - apply (Hheld _ (mkState (groups 4 2100) 1 0 [])).
    eapply holds_later; [reflexivity|apply holds_now].
  - apply (Hturn 0%nat _ (mkState (groups 3 2100) 2 0 []) _ (groups 2 2100)).
    + reflexivity.
    + reflexivity.
    + unfold Qle; cbn; lia.
    + cbn; lia.
Defined.

(** C9 as stated fails for a cap below one sample: with [samples = 0] the
    first sample at or above the threshold is appended before the cap is
    looked at, and the window returned holds one entry. *)
Lemma C9_counterexample :
  read_data always (group 2100 2100 2100 2100) 0 20 start
  = (Return [reading 2100 2100 2100 2100], mkState [] 1 0 [Close])
  /\ ~ (Z.of_nat (length [reading 2100 2100 2100 2100]) <= 0).
Proof.
  split; [reflexivity|]. cbn. lia.
Qed.

Lemma read_data_loop_closes measuring samples threshold fuel data s :
  let out := read_data_loop measuring fuel samples threshold data s in
  match fst out with
  | Return _ => trace (snd out) = trace s ++ [Close]
  | _ => trace (snd out) = trace s
  end.
Proof.
  apply (read_data_loop_cases measuring samples threshold
           (fun data s out =>
              match fst out with
              | Return _ => trace (snd out) = trace s ++ [Close]
              | _ => trace (snd out) = trace s
              end)); intros; try reflexivity; assumption.
Qed.

Lemma read_data_loop_raises measuring samples threshold fuel data s ex :
  fst (read_data_loop measuring fuel samples threshold data s) = Raise ex ->
  ex = OSError \/ exists msg, ex = SystemExit msg.
Proof.
  apply (read_data_loop_cases measuring samples threshold
           (fun data s out =>
              fst out = Raise ex ->
              ex = OSError \/ exists msg, ex = SystemExit msg));
    try (intros; discriminate); try (intros; auto; fail).
  - intros d s0 msg rest _ _ [= <-]. right. eauto.
  - intros d s0 rest _ _ [= <-]. left. reflexivity.
Qed.

Lemma closes_app t1 t2 : closes (t1 ++ t2) = (closes t1 + closes t2)%nat.
Proof.
  induction t1 as [|e t1 IH]; [reflexivity|].
  destruct e; cbn [app closes]; rewrite IH; reflexivity.
Qed.

(** ** Aggregation *)

Lemma insert_sorted_Permutation x l : Permutation (insert_sorted x l) (x :: l).
Proof.
  induction l as [|y l IH]; cbn [insert_sorted]; [reflexivity|].
  destruct (Qlt_bool x y); [reflexivity|].
  rewrite IH. apply perm_swap.
Qed.

Lemma insert_sorted_HdRel x y l :
  (y <= x)%Q -> HdRel Qle y l -> HdRel Qle y (insert_sorted x l).
Proof.
  intros Hyx Hhd. destruct l as [|z l]; cbn [insert_sorted].
  - constructor. exact Hyx.
  - destruct (Qlt_bool x z); constructor; [exact Hyx|].
    inversion Hhd; assumption.
Qed.

Lemma insert_sorted_Sorted x l :
  Sorted Qle l -> Sorted Qle (insert_sorted x l).
Proof.
  induction l as [|y l IH]; intros Hs; cbn [insert_sorted].
  - repeat constructor.
  - inversion Hs as [|? ? Hs' Hhd]; subst.
    destruct (Qlt_bool x y) eqn:E.
    + apply Qlt_bool_true in E. constructor; [exact Hs|].
      constructor. apply Qlt_le_weak, E.
    + apply Qlt_bool_false in E. constructor; [apply IH, Hs'|].
      apply insert_sorted_HdRel; assumption.
Qed.

Lemma sorted_spec data :
  Permutation (sorted data) data /\ Sorted Qle (sorted data).
Proof.
  unfold sorted.
  assert (forall acc, Sorted Qle acc ->
            Permutation (fold_left (fun acc x => insert_sorted x acc) data acc)
                        (acc ++ data)
            /\ Sorted Qle
                 (fold_left (fun acc x => insert_sorted x acc) data acc))
    as Hgen.
  { induction data as [|x data IH]; intros acc Hacc; cbn [fold_left].
    - rewrite app_nil_r. split; [reflexivity|exact Hacc].
    - destruct (IH (insert_sorted x acc) (insert_sorted_Sorted x acc Hacc))
        as [Hp Hs].
      split; [|exact Hs].
      rewrite Hp, insert_sorted_Permutation.
      cbn [app]. apply Permutation_middle. }
  apply (Hgen [] (Sorted_nil _)).
Qed.

Lemma sorted_length data : length (sorted data) = length data.
Proof. apply Permutation_length, sorted_spec. Qed.

Lemma after_measurement_closes address command w s :
  fst (after_measurement address command w s) = Return tt
  /\ closes (trace (snd (after_measurement address command w s)))
     = closes (trace s).
Proof.
  unfold after_measurement, bind, when, effect, ret.
  destruct (truthy address), (truthy_opt command); cbn [fst snd emit trace];
    rewrite ?closes_app; cbn [closes]; split; try reflexivity; lia.
Qed.

Lemma final_weight_of_state w adjust s :
  snd (final_weight_of w adjust s) = s
  /\ (fst (final_weight_of w adjust s) = Raise StatisticsError
      \/ exists fw, fst (final_weight_of w adjust s) = Return fw).
Proof.
  unfold final_weight_of, py_median, bind, ret, raise.
  destruct (median w); cbn [fst snd]; split; eauto.
Qed.

(** C2. On an empty window the aggregation raises the [StatisticsError]
    of [statistics.median].  On a window with an entry it returns, with
    the state untouched, the median plus [adjust] and nothing else: the
    window sorted is a permutation of the window in ascending order, the
    median is its middle element when the count is odd and half the sum of
    its two middle elements when the count is even.  [measure_weight] ends
    as the aggregation of the window [read_data] returned ends. *)
Theorem C2_median_plus_adjust (x : Q) (window : list Q) (adjust : Q)
    (s : State) :
  final_weight_of [] adjust s = (Raise StatisticsError, s)
  /\ Permutation (sorted (x :: window)) (x :: window)
  /\ Sorted Qle (sorted (x :: window))
  /\ final_weight_of (x :: window) adjust s
     = (Return
          ((let n := length (x :: window) in
            if Nat.odd n then nth (n / 2) (sorted (x :: window)) 0
            else (nth (n / 2 - 1) (sorted (x :: window)) 0
                  + nth (n / 2) (sorted (x :: window)) 0) / 2)
           + adjust)%Q,
        s)
  /\ (forall measuring lookups minlimit address command terse s0 board s1
             weight_data,
        truthy address && negb (address_match address) = false ->
        wait_for_board lookups s0 = (Return board, s1) ->
        read_data measuring board 200 minlimit s1 = (Return weight_data, s) ->
        fst (measure_weight measuring lookups adjust minlimit address command
                            terse false s0)
        = fst (final_weight_of weight_data adjust s)).
Proof.
  split; [reflexivity|].
  destruct (sorted_spec (x :: window)) as [Hperm Hsorted].
  split; [exact Hperm|]. split; [exact Hsorted|]. split.
  - unfold final_weight_of, py_median, median, bind, ret.
    cbv zeta. rewrite sorted_length.
    set (n := length (x :: window)).
    assert (n <> 0)%nat as Hn by (subst n; cbn [length]; lia).
    destruct (Nat.eqb_spec n 0) as [|_]; [contradiction|].
    rewrite <- (Nat.bit0_mod n), Nat.bit0_odd.
    destruct (Nat.odd n); reflexivity.
  - intros measuring lookups minlimit address command terse s0 board s1
           weight_data Haddr Hwait Hread.
    unfold measure_weight. rewrite Haddr.
    unfold bind at 1. unfold bind at 1. rewrite Hwait, Hread.
    unfold bind at 1.
    destruct (final_weight_of_state weight_data adjust s) as [Hs Hr].
    destruct (final_weight_of weight_data adjust s) as [r s3].
    cbn [fst snd] in Hs, Hr |- *. subst s3.
    destruct Hr as [->|[fw ->]]; [reflexivity|].
    unfold bind at 1.
    assert (fst (when terse (effect (PrintWeight fw)) s) = Return tt) as Hr4.
    { unfold when, effect, ret. destruct terse; reflexivity. }
    destruct (when terse (effect (PrintWeight fw)) s) as [r4 s4].
    cbn [fst] in Hr4. subst r4.
    unfold bind at 1.
    destruct (after_measurement_closes address command fw s4) as [Hr5 _].
    destruct (after_measurement address command fw s4) as [r5 s5].
    cbn [fst] in Hr5. subst r5. reflexivity.
Qed.

Lemma C2_witness :
  fst (measure_weight always [Some (groups 3 2100 ++ group 450 450 450 450)]
                      (-2) 20 EmptyString None false false start)
  = fst (final_weight_of (repeat (reading 2100 2100 2100 2100) 3) (-2)
                         (mkState [] 4 0 [Close])).
Proof.
  destruct (C2_median_plus_adjust 0 [] (-2) (mkState [] 4 0 [Close]))
    as (_ & _ & _ & _ & Hsession).
  apply (Hsession always [Some (groups 3 2100 ++ group 450 450 450 450)]
           20%Q EmptyString None false start
           (groups 3 2100 ++ group 450 450 450 450) start).
  - reflexivity.
  - reflexivity.
  - vm_compute. reflexivity.
Defined.

(** [measure_thread] aggregates only behind [if weight_data and
    measuring]: an empty window is not handed to [statistics.median], and
    nothing is stored for it. *)
Lemma measure_thread_guards_aggregation
    measuring lookups adjust minlimit address command s0 board s1 s2 :
  wait_while_measuring measuring lookups s0 = (Return (Some board), s1) ->
  measuring (clock s1) = true ->
  read_data measuring board 200 minlimit (tick s1) = (Return [], s2) ->
  measure_thread measuring lookups adjust minlimit address command s0
  = (Return tt, emit IdleAdd s2).
Proof.
  intros Hwait Hflag Hread.
  unfold measure_thread, measure_thread_try, bind.
  rewrite Hwait. unfold read_measuring at 1. rewrite Hflag.
  cbn [negb]. rewrite Hread. reflexivity.
Qed.

Lemma median_nonempty (w : list Q) :
  w <> [] -> exists med, median w = Some med.
Proof.
  intros Hw. unfold median. cbv zeta. rewrite sorted_length.
  destruct w as [|x w]; [contradiction|]. cbn [length Nat.eqb].
  destruct (_ =? 1)%nat; eexists; reflexivity.
Qed.

(** ** Step-on and step-off *)

(** C3. From any turn of the loop with a window that is not empty: let
    the next samples decoded be [ms], all at or above the threshold and
    keeping the window below the cap, and then [m] below the threshold,
    the flag staying set.  The loop ends at [m]: it closes the handle and
    returns the window with [ms] appended and without [m], and the
    aggregation of that window gives its median plus [adjust]. *)
Theorem C3_first_low_sample_ends_collection
    (measuring : nat -> bool) (samples : Z) (threshold : Q) (fuel : nat)
    (data : list Q) (s : State) (ms : list Q) (m : Q) (rest : list Read)
    (adjust : Q) :
  data <> [] ->
  decodes (device s) (ms ++ [m]) rest ->
  Forall (fun x => (threshold <= x)%Q) ms ->
  (m < threshold)%Q ->
  Z.of_nat (length (data ++ ms)) < samples ->
  (forall i, (i <= length ms)%nat -> measuring (clock s + i)%nat = true) ->
  (length (device s) < fuel)%nat ->
  read_data_loop measuring fuel samples threshold data s
  = (Return (data ++ ms), emit Close (advance (S (length ms)) rest s))
  /\ exists med,
       median (data ++ ms) = Some med
       /\ final_weight_of (data ++ ms) adjust
            (emit Close (advance (S (length ms)) rest s))
          = (Return (med + adjust)%Q,
             emit Close (advance (S (length ms)) rest s)).
Proof.
  intros Hdata Hdec Hge Hm Hcap Hflag Hfuel.
  destruct (decodes_app _ _ _ _ Hdec) as (mid & Hms & Hlast).
  inversion Hlast as [|? ? d' ? ? E Hnil]; subst.
  inversion Hnil; subst.
  split.
  - rewrite (read_data_loop_appends measuring samples threshold ms fuel data s
               mid Hms Hge Hcap)
      by (try (intros i Hi; apply Hflag; lia); exact Hfuel).
    destruct fuel as [|fuel]; [lia|].
    rewrite read_data_loop_turn.
    cbn [advance clock device].
    rewrite (Hflag (length ms) (Nat.le_refl _)), E. cbv zeta.
    apply Qlt_bool_true in Hm. rewrite Hm.
    assert (length (data ++ ms) <> 0)%nat as Hne.
    { rewrite length_app. destruct data; [contradiction|cbn [length]; lia]. }
    destruct (Nat.eqb_spec (length (data ++ ms)) 0) as [|_]; [contradiction|].
    cbn [negb andb]. unfold emit, advance, set_device, tick.
    cbn [device clock current_weight trace].
    replace (S (clock s + length ms)) with (clock s + S (length ms))%nat by lia.
    reflexivity.
  - destruct (median_nonempty (data ++ ms)) as [med Hmed].
    { destruct data; [contradiction|discriminate]. }
    exists med. split; [exact Hmed|].
    unfold final_weight_of, py_median, bind. rewrite Hmed. reflexivity.
Qed.

Lemma decodes_group tl tr bl br device ms rest :
  decodes device ms rest ->
  decodes (group tl tr bl br ++ device) (reading tl tr bl br :: ms) rest.
Proof. intros H. econstructor; [reflexivity|exact H]. Qed.

Lemma C3_witness :
  read_data_loop always 12 200 20
    (repeat (reading 2100 2100 2100 2100) 49)
    (mkState (group 2100 2100 2100 2100 ++ group 450 450 450 450 ++ [button])
             60 0 [])
  = (Return (repeat (reading 2100 2100 2100 2100) 49
             ++ [reading 2100 2100 2100 2100]),
     mkState [button] 62 0 [Close])
  /\ exists med,
       median (repeat (reading 2100 2100 2100 2100) 49
               ++ [reading 2100 2100 2100 2100]) = Some med
       /\ final_weight_of
            (repeat (reading 2100 2100 2100 2100) 49
             ++ [reading 2100 2100 2100 2100])
            (-2) (mkState [button] 62 0 [Close])
          = (Return (med + -2)%Q, mkState [button] 62 0 [Close]).
Proof.
  apply (C3_first_low_sample_ends_collection always 200 20 12
           (repeat (reading 2100 2100 2100 2100) 49)
           (mkState (group 2100 2100 2100 2100 ++ group 450 450 450 450
                     ++ [button]) 60 0 [])
           [reading 2100 2100 2100 2100] (reading 450 450 450 450)
           [button] (-2)).
  - discriminate.
  - apply decodes_group, decodes_group, decodes_nil.
  - constructor; [unfold Qle; cbn; lia|constructor].
  - unfold Qlt; cbn; lia.
  - vm_compute. reflexivity.
  - intros i _. reflexivity.
  - vm_compute. lia.
Defined.

(** C4. Let the first samples decoded be [lows], all below the
    threshold, and then [first], at or above it, the flag staying set.
    The samples [lows] are passed over with the window still empty, and
    [first] is appended to the empty window: [read_data] goes on from the
    window [[first]] (or returns it, when the cap is already reached), so
    every window it returns starts with [first]. *)
Theorem C4_first_sample_at_threshold_opens_window
    (measuring : nat -> bool) (board : list Read) (samples : Z)
    (threshold : Q) (s : State) (lows : list Q) (first : Q)
    (rest : list Read) :
  decodes board (lows ++ [first]) rest ->
  Forall (fun x => (x < threshold)%Q) lows ->
  (threshold <= first)%Q ->
  (forall i, (i <= length lows)%nat -> measuring (clock s + i)%nat = true) ->
  (exists mid,
     decodes board lows mid
     /\ read_data measuring board samples threshold s
        = read_data_loop measuring (S (length board)) samples threshold []
            (advance (length lows) mid (set_device board s)))
  /\ read_data measuring board samples threshold s
     = (if 1 >=? samples
        then (Return [first],
              emit Close (advance (S (length lows)) rest (set_device board s)))
        else read_data_loop measuring (S (length board)) samples threshold
               [first] (advance (S (length lows)) rest (set_device board s)))
  /\ (forall w s',
        read_data measuring board samples threshold s = (Return w, s') ->
        exists more, w = first :: more).
Proof.
  intros Hdec Hlow Hfirst Hflag.
  destruct (decodes_app _ _ _ _ Hdec) as (mid & Hlows & Hlast).
  inversion Hlast as [|? ? d' ? ? E Hnil]; subst.
  inversion Hnil; subst.
  assert (read_data measuring board samples threshold s
          = read_data_loop measuring (S (length board)) samples threshold []
              (advance (length lows) mid (set_device board s))) as Hskip.
  { unfold read_data.
    apply read_data_loop_skips;
      [exact Hlows|exact Hlow| |cbn [device set_device]; lia].
    intros i Hi. cbn [clock set_device]. apply Hflag. lia. }
  assert (read_data measuring board samples threshold s
          = (if 1 >=? samples
             then (Return [first],
                   emit Close
                     (advance (S (length lows)) rest (set_device board s)))
             else read_data_loop measuring (S (length board)) samples
                    threshold [first]
                    (advance (S (length lows)) rest (set_device board s))))
    as Hfirst_turn.
  { rewrite Hskip, read_data_loop_turn.
    cbn [advance clock device set_device].
    rewrite (Hflag (length lows) (Nat.le_refl _)), E. cbv zeta.
    apply Qlt_bool_false in Hfirst. rewrite Hfirst, !andb_false_r.
    cbn [app length]. change (Z.of_nat 1) with 1.
    unfold emit, advance, set_device, tick.
    cbn [device clock current_weight trace].
    replace (S (clock s + length lows)) with (clock s + S (length lows))%nat
      by lia.
    destruct (1 >=? samples); [reflexivity|].
    apply read_data_loop_fuel; cbn [device].
    - pose proof (decodes_shorter _ _ _ Hlows).
      apply get_raw_measurement_shorter in E. lia.
    - pose proof (decodes_shorter _ _ _ Hlows).
      apply get_raw_measurement_shorter in E. lia. }
  split; [exists mid; split; [exact Hlows|exact Hskip]|].
  split; [exact Hfirst_turn|].
  intros w s' Hret. rewrite Hfirst_turn in Hret.
  destruct (1 >=? samples).
  - injection Hret as <- _. exists []. reflexivity.
  - apply read_data_loop_extends in Hret. exact Hret.
Qed.

Lemma C4_witness :
  (exists mid,
     decodes (group 100 100 100 100 ++ group 200 200 200 200
              ++ group 2100 2100 2100 2100 ++ group 450 450 450 450)
             [reading 100 100 100 100; reading 200 200 200 200] mid
     /\ read_data always
          (group 100 100 100 100 ++ group 200 200 200 200
           ++ group 2100 2100 2100 2100 ++ group 450 450 450 450)
          200 20 start
        = read_data_loop always 21 200 20 []
            (mkState mid 2 0 []))
  /\ read_data always
       (group 100 100 100 100 ++ group 200 200 200 200
        ++ group 2100 2100 2100 2100 ++ group 450 450 450 450)
       200 20 start
     = read_data_loop always 21 200 20 [reading 2100 2100 2100 2100]
         (mkState (group 450 450 450 450) 3 0 [])
  /\ (forall w s',
        read_data always
          (group 100 100 100 100 ++ group 200 200 200 200
           ++ group 2100 2100 2100 2100 ++ group 450 450 450 450)
          200 20 start = (Return w, s') ->
        exists more, w = reading 2100 2100 2100 2100 :: more).
Proof.
  apply (C4_first_sample_at_threshold_opens_window always
           (group 100 100 100 100 ++ group 200 200 200 200
            ++ group 2100 2100 2100 2100 ++ group 450 450 450 450)
           200 20 start
           [reading 100 100 100 100; reading 200 200 200 200]
           (reading 2100 2100 2100 2100) (group 450 450 450 450)).
  - apply decodes_group, decodes_group.
    apply (decodes_group 2100 2100 2100 2100 _ [] _), decodes_nil.
  - repeat constructor.
  - unfold Qle; cbn; lia.
  - intros i _. reflexivity.
Defined.

(** ** Sessions *)

Lemma read_data_loop_current_weight measuring samples threshold fuel data s :
  current_weight
    (snd (read_data_loop measuring fuel samples threshold data s))
  = current_weight s.
Proof.
  apply (read_data_loop_cases measuring samples threshold
           (fun data s out => current_weight (snd out) = current_weight s));
    intros; try reflexivity; assumption.
Qed.

Lemma wait_for_board_spec polls : forall s r s',
  wait_for_board polls s = (r, s') ->
  closes (trace s') = closes (trace s)
  /\ current_weight s' = current_weight s
  /\ ((exists board, r = Return board) \/ r = Starved).
Proof.
  induction polls as [|[board|] polls IH]; intros s r s' H;
    cbn [wait_for_board] in H.
  - injection H as <- <-. repeat split. right. reflexivity.
  - injection H as <- <-. repeat split. left. eauto.
  - unfold bind, effect in H.
    destruct (IH _ _ _ H) as (Hc & Hw & Hr).
    repeat split; [|exact Hw|exact Hr].
    rewrite Hc. unfold emit; cbn [trace]. rewrite closes_app. cbn. lia.
Qed.

Lemma wait_while_measuring_current_weight measuring polls : forall s,
  current_weight (snd (wait_while_measuring measuring polls s))
  = current_weight s.
Proof.
  induction polls as [|[board|] polls IH]; intros s;
    cbn [wait_while_measuring]; unfold bind, read_measuring;
    destruct (measuring (clock s)); try reflexivity.
  unfold effect. rewrite IH. reflexivity.
Qed.

(** C6. An event with the code of the board button makes the step
    [Abort] whatever the slots hold, and the call raise [SystemExit]
    there.  A turn of the loop that meets the button, after any pending
    axis events, raises it whatever the window holds: nothing is returned
    and nothing added to the trace.  [measure_weight] and
    [measure_thread] pass the [SystemExit] on: no weight is returned,
    printed or stored, and no command is run. *)
Theorem C6_button_aborts
    (measuring : nat -> bool) (lookups : list (option (list Read)))
    (data : list (option Q)) (e : InputEvent) (rest : list Read) :
  code e = ecodes.BTN_A ->
  decode data e = Abort abort_message
  /\ get_raw_measurement_from data (Event e :: rest)
     = Exit abort_message rest
  /\ (forall evs fuel samples threshold window s,
        Forall is_axis evs ->
        measuring (clock s) = true ->
        device s = map Event evs ++ Event e :: rest ->
        read_data_loop measuring (S fuel) samples threshold window s
        = (Raise (SystemExit abort_message), set_device rest (tick s)))
  /\ (forall adjust minlimit address command terse s0 board s1 msg s2,
        truthy address && negb (address_match address) = false ->
        wait_for_board lookups s0 = (Return board, s1) ->
        read_data measuring board 200 minlimit s1
        = (Raise (SystemExit msg), s2) ->
        measure_weight measuring lookups adjust minlimit address command
                       terse false s0
        = (Raise (SystemExit msg), s2)
        /\ trace s2 = trace s1)
  /\ (forall adjust minlimit address command s0 board s1 msg s2,
        wait_while_measuring measuring lookups s0
        = (Return (Some board), s1) ->
        measuring (clock s1) = true ->
        read_data measuring board 200 minlimit (tick s1)
        = (Raise (SystemExit msg), s2) ->
        measure_thread measuring lookups adjust minlimit address command s0
        = (Raise (SystemExit msg), emit IdleAdd s2)
        /\ trace s2 = trace s1
        /\ current_weight (emit IdleAdd s2) = current_weight s0).
Proof.
  intros Hcode.
  pose proof (decode_button data e Hcode) as Hd.
  split; [exact Hd|].
  split; [cbn [get_raw_measurement_from]; rewrite Hd; reflexivity|].
  split; [|split].
  - intros evs fuel samples threshold window s Hax Hflag Hdev.
    rewrite read_data_loop_turn, Hflag, Hdev.
    unfold get_raw_measurement. rewrite loop_axes by assumption.
    cbn [get_raw_measurement_from].
    rewrite (decode_button _ e Hcode). reflexivity.
  - intros adjust minlimit address command terse s0 board s1 msg s2
           Haddr Hwait Hread.
    split.
    + unfold measure_weight. rewrite Haddr.
      unfold bind. rewrite Hwait, Hread. reflexivity.
    + pose proof (read_data_loop_closes measuring 200 minlimit
                    (S (length board)) [] (set_device board s1)) as Hc.
      unfold read_data in Hread. cbv zeta in Hc. rewrite Hread in Hc.
      exact Hc.
  - intros adjust minlimit address command s0 board s1 msg s2
           Hwait Hflag Hread.
    split; [|split].
    + unfold measure_thread, measure_thread_try, bind.
      rewrite Hwait. unfold read_measuring at 1. rewrite Hflag.
      cbn [negb]. rewrite Hread. reflexivity.
    + pose proof (read_data_loop_closes measuring 200 minlimit
                    (S (length board)) [] (set_device board (tick s1))) as Hc.
      unfold read_data in Hread. cbv zeta in Hc. rewrite Hread in Hc.
      exact Hc.
    + pose proof (read_data_loop_current_weight measuring 200 minlimit
                    (S (length board)) [] (set_device board (tick s1))) as Hw.
      unfold read_data in Hread. rewrite Hread in Hw.
      pose proof (wait_while_measuring_current_weight measuring lookups s0)
        as Hw0.
      rewrite Hwait in Hw0. cbn [snd] in Hw, Hw0.
      cbn [emit current_weight set_device tick] in *. congruence.
Qed.

Lemma wait_while_measuring_closes measuring polls : forall s,
  closes (trace (snd (wait_while_measuring measuring polls s)))
  = closes (trace s).
Proof.
  induction polls as [|[board|] polls IH]; intros s;
    cbn [wait_while_measuring]; unfold bind, read_measuring;
    destruct (measuring (clock s)); try reflexivity.
  unfold effect. rewrite IH. unfold emit; cbn [trace tick].
  rewrite closes_app. cbn. lia.
Qed.

Lemma read_data_closes measuring board samples threshold s :
  let out := read_data measuring board samples threshold s in
  match fst out with
  | Return _ => trace (snd out) = trace s ++ [Close]
  | _ => trace (snd out) = trace s
  end.
Proof.
  unfold read_data.
  apply (read_data_loop_closes measuring samples threshold
           (S (length board)) [] (set_device board s)).
Qed.

Lemma measure_thread_try_closes
    measuring lookups adjust minlimit address command s :
  (closes (trace (snd (measure_thread_try measuring lookups adjust minlimit
                         address command s)))
   <= closes (trace s) + 1)%nat.
Proof.
  unfold measure_thread_try. unfold bind at 1.
  pose proof (wait_while_measuring_closes measuring lookups s) as Hc1.
  destruct (wait_while_measuring measuring lookups s) as [r1 s1].
  cbn [snd] in Hc1.
  destruct r1 as [board| | |]; cbn [snd]; try lia.
  unfold bind at 1. unfold read_measuring at 1.
  destruct (measuring (clock s1)); cbn [negb];
    [|unfold ret; cbn [snd tick trace]; lia].
  unfold bind at 1.
  destruct board as [board|].
  - pose proof (read_data_closes measuring board 200 minlimit (tick s1))
      as Hc2. cbv zeta in Hc2.
    destruct (read_data measuring board 200 minlimit (tick s1)) as [r2 s2].
    cbn [fst snd tick trace] in Hc2.
    destruct r2 as [w|ex| |]; cbn [snd]; try (rewrite Hc2; lia).
    assert (closes (trace s2) = closes (trace s) + 1)%nat as Hclosed.
    { rewrite Hc2, closes_app, Hc1. reflexivity. }
    destruct (negb (length w =? 0)%nat); [|unfold ret; cbn [snd]; lia].
    unfold bind at 1. unfold read_measuring at 1.
    destruct (measuring (clock s2)); [|unfold ret; cbn [snd tick trace]; lia].
    unfold bind at 1.
    destruct (final_weight_of_state w adjust (tick s2)) as [Hs3 Hr3].
    destruct (final_weight_of w adjust (tick s2)) as [r3 s3].
    cbn [fst snd] in Hs3, Hr3. subst s3.
    destruct Hr3 as [->|[fw ->]]; [cbn [snd tick trace]; lia|].
    unfold bind at 1.
    destruct (after_measurement_closes address command fw
                (set_current_weight fw (tick s2))) as [_ Hc5].
    rewrite Hc5. cbn [set_current_weight tick trace]. lia.
  - unfold bind, read_measuring, raise. cbn [snd tick trace]. lia.
Qed.

(** C7, as the code has it.  [device.close()] is the statement after the
    loop of [read_data]: a call that returns (cap reached, step-off, flag
    cleared) has closed the handle once, and a call left by an exception
    ([SystemExit] from the button, [OSError] from a read) or still
    waiting for events has not closed it.  [measure_weight] closes
    nothing besides: once on the paths where [read_data] returned (it
    returns the weight, or [statistics.median] raises on an empty window),
    never otherwise.  [measure_thread] closes at most once. *)
Theorem C7_close_follows_the_loop
    (measuring : nat -> bool) (lookups : list (option (list Read))) :
  (forall board samples threshold s,
     let out := read_data measuring board samples threshold s in
     match fst out with
     | Return _ => trace (snd out) = trace s ++ [Close]
     | _ => trace (snd out) = trace s
     end)
  /\ (forall adjust minlimit address command terse s,
        let out := measure_weight measuring lookups adjust minlimit address
                                  command terse false s in
        closes (trace (snd out))
        = (closes (trace s)
           + match fst out with
             | Return _ | Raise StatisticsError => 1
             | _ => 0
             end)%nat)
  /\ (forall adjust minlimit address command s,
        (closes (trace (snd (measure_thread measuring lookups adjust minlimit
                               address command s)))
         <= closes (trace s) + 1)%nat).
Proof.
  split; [exact (read_data_closes measuring)|]. split.
  - intros adjust minlimit address command terse s. cbv zeta.
    destruct (measure_weight measuring lookups adjust minlimit address
                command terse false s) as [r s'] eqn:Hmw.
    cbn [fst snd]. unfold measure_weight in Hmw.
    destruct (truthy address && negb (address_match address)).
    { injection Hmw as <- <-. lia. }
    unfold bind in Hmw.
    destruct (wait_for_board lookups s) as [r1 s1] eqn:Hwait.
    destruct (wait_for_board_spec _ _ _ _ Hwait) as (Hc1 & _ & Hr1).
    destruct Hr1 as [[board ->]| ->]; [|injection Hmw as <- <-; lia].
    pose proof (read_data_closes measuring board 200 minlimit s1) as Hc2.
    pose proof (read_data_loop_raises measuring 200 minlimit
                  (S (length board)) [] (set_device board s1)) as Hex.
    cbv zeta in Hc2. fold (read_data measuring board 200 minlimit s1) in Hex.
    destruct (read_data measuring board 200 minlimit s1) as [r2 s2].
    cbn [fst snd] in Hc2, Hex.
    destruct r2 as [w|ex| |];
      try (injection Hmw as <- <-; rewrite Hc2, Hc1; lia).
    2: { injection Hmw as <- <-. rewrite Hc2, Hc1.
         destruct (Hex ex eq_refl) as [->|[msg ->]]; lia. }
    assert (closes (trace s2) = closes (trace s) + 1)%nat as Hclosed.
    { rewrite Hc2, closes_app, Hc1. reflexivity. }
    destruct (final_weight_of_state w adjust s2) as [Hs3 Hr3].
    destruct (final_weight_of w adjust s2) as [r3 s3].
    cbn [fst snd] in Hs3, Hr3. subst s3.
    destruct Hr3 as [->|[fw ->]]; [injection Hmw as <- <-; exact Hclosed|].
    assert (closes (trace (snd (when terse (effect (PrintWeight fw)) s2)))
            = closes (trace s2)
            /\ fst (when terse (effect (PrintWeight fw)) s2) = Return tt)
      as [Hc4 Hr4].
    { unfold when, effect, ret. destruct terse; cbn [fst snd emit trace];
        rewrite ?closes_app; cbn [closes]; split; try reflexivity; lia. }
    destruct (when terse (effect (PrintWeight fw)) s2) as [r4 s4].
    cbn [fst snd] in Hc4, Hr4. subst r4.
    destruct (after_measurement_closes address command fw s4) as [Hr5 Hc5].
    destruct (after_measurement address command fw s4) as [r5 s5].
    cbn [fst snd] in Hc5, Hr5. subst r5.
    unfold ret in Hmw. injection Hmw as <- <-. lia.
  - intros adjust minlimit address command s.
    pose proof (measure_thread_try_closes measuring lookups adjust minlimit
                  address command s) as Htry.
    unfold measure_thread.
    destruct (measure_thread_try measuring lookups adjust minlimit address
                command s) as [r s'].
    cbn [snd] in Htry.
    destruct r as [[]|[msg| | |]| |]; cbn [snd emit trace];
      rewrite ?closes_app; cbn [closes]; lia.
Qed.

(** The sessions never run short of fuel either: what they return is what
    the program does on the inputs given. *)
Lemma measure_weight_never_out_of_fuel
    measuring lookups adjust minlimit address command terse fake s :
  fst (measure_weight measuring lookups adjust minlimit address command
                      terse fake s) <> OutOfFuel.
Proof.
  destruct (measure_weight measuring lookups adjust minlimit address
              command terse fake s) as [r s'] eqn:Hmw.
  cbn [fst]. unfold measure_weight in Hmw.
  destruct (truthy address && negb (address_match address)).
  { injection Hmw as <- _. discriminate. }
  unfold bind at 1 in Hmw.
  assert (forall w s2,
            (do final_weight <- final_weight_of w adjust;
             run when terse (effect (PrintWeight final_weight));
             run after_measurement address command final_weight;
             ret final_weight) s2 = (r, s') ->
            r <> OutOfFuel) as Htail.
  { intros w s2 H. unfold bind at 1 in H.
    destruct (final_weight_of_state w adjust s2) as [Hs3 Hr3].
    destruct (final_weight_of w adjust s2) as [r3 s3].
    cbn [fst snd] in Hs3, Hr3. subst s3.
    destruct Hr3 as [->|[fw ->]]; [injection H as <- _; discriminate|].
    unfold bind at 1 in H.
    assert (fst (when terse (effect (PrintWeight fw)) s2) = Return tt) as Hr4.
    { unfold when, effect, ret. destruct terse; reflexivity. }
    destruct (when terse (effect (PrintWeight fw)) s2) as [r4 s4].
    cbn [fst] in Hr4. subst r4.
    unfold bind at 1 in H.
    destruct (after_measurement_closes address command fw s4) as [Hr5 _].
    destruct (after_measurement address command fw s4) as [r5 s5].
    cbn [fst] in Hr5. subst r5.
    injection H as <- _. discriminate. }
  destruct fake.
  - unfold ret at 1 in Hmw. exact (Htail _ _ Hmw).
  - unfold bind at 1 in Hmw.
    destruct (wait_for_board lookups s) as [r1 s1] eqn:Hwait.
    destruct (wait_for_board_spec _ _ _ _ Hwait) as (_ & _ & Hr1).
    destruct Hr1 as [[board ->]| ->];
      [|injection Hmw as <- _; discriminate].
    pose proof (read_data_never_out_of_fuel measuring board 200 minlimit s1)
      as Hfuel.
    destruct (read_data measuring board 200 minlimit s1) as [r2 s2].
    cbn [fst] in Hfuel.
    destruct r2 as [w|ex| |]; try (injection Hmw as <- _; discriminate).
    + exact (Htail _ _ Hmw).
    + contradiction.
Qed.

(** C7 as stated fails on the abort path: a session that has opened the
    handle and meets the button ends by [SystemExit] without a call of
    [device.close()]. *)
Lemma C7_counterexample :
  measure_weight always [Some (group 2100 2100 2100 2100 ++ [button])]
                 0 20 EmptyString None false false start
  = (Raise (SystemExit abort_message), mkState [] 2 0 [])
  /\ closes (trace (mkState [] 2 0 [])) <> 1%nat.
Proof.
  split; [reflexivity|]. cbn. lia.
Qed.

(** ** The address check *)

Lemma append_assoc (s1 s2 s3 : string) :
  String.append (String.append s1 s2) s3
  = String.append s1 (String.append s2 s3).
Proof.
  induction s1 as [|c s1 IH]; cbn [String.append]; [reflexivity|].
  rewrite IH. reflexivity.
Qed.

Lemma append_empty_r (s : string) : String.append s EmptyString = s.
Proof.
  induction s as [|c s IH]; cbn [String.append]; [reflexivity|].
  rewrite IH. reflexivity.
Qed.

Lemma matches_chars_inv p s :
  matches (Chars p) s -> exists c, s = String c EmptyString /\ p c = true.
Proof. inversion 1; subst. eauto. Qed.

Lemma matches_hex_pair_inv s :
  matches hex_pair s ->
  exists a b, s = String a (String b EmptyString)
              /\ is_hex a = true /\ is_hex b = true.
Proof.
  unfold hex_pair. inversion 1 as [| | |? ? s1 s2 H1 H2]; subst.
  inversion H2 as [| | |? ? s3 s4 H3 H4]; subst.
  inversion H4; subst.
  apply matches_chars_inv in H1 as (a & -> & Ha).
  apply matches_chars_inv in H3 as (b & -> & Hb).
  exists a, b. repeat split; assumption.
Qed.

Lemma matches_hex_pair a b :
  is_hex a = true -> is_hex b = true ->
  matches hex_pair (String a (String b EmptyString)).
Proof.
  intros Ha Hb. unfold hex_pair.
  apply (matches_times_S 1 _ (String a EmptyString) (String b EmptyString));
    [constructor; exact Ha|].
  apply (matches_times_S 0 _ (String b EmptyString) EmptyString);
    [constructor; exact Hb|constructor].
Qed.

Lemma matches_group_inv s :
  matches (Cat hex_pair colon) s ->
  exists a b, s = String a (String b (String ":" EmptyString))
              /\ is_hex a = true /\ is_hex b = true.
Proof.
  inversion 1 as [|? ? s1 s2 H1 H2| |]; subst.
  apply matches_hex_pair_inv in H1 as (a & b & -> & Ha & Hb).
  apply matches_chars_inv in H2 as (c & -> & Hc).
  apply Ascii.eqb_eq in Hc. subst c.
  exists a, b. repeat split; assumption.
Qed.

Lemma match_groups_sound n : forall s rest,
  match_groups n s = Some rest ->
  exists p, matches (Times n (Cat hex_pair colon)) p
            /\ s = String.append p rest.
Proof.
  induction n as [|n IH]; intros s rest H; cbn [match_groups] in H.
  - injection H as <-. exists EmptyString. split; [constructor|reflexivity].
  - destruct s as [|a [|b [|c s]]]; try discriminate.
    destruct (is_hex a) eqn:Ha; [|discriminate].
    destruct (is_hex b) eqn:Hb; [|discriminate].
    destruct (Ascii.eqb_spec c ":") as [->|]; [|discriminate].
    cbn [andb] in H. destruct (IH _ _ H) as (p & Hp & ->).
    exists (String.append (String a (String b (String ":" EmptyString))) p).
    split; [|reflexivity].
    constructor; [|exact Hp].
    apply (matches_cat hex_pair colon (String a (String b EmptyString))
             (String ":" EmptyString)).
    + apply matches_hex_pair; assumption.
    + constructor. reflexivity.
Qed.

Lemma match_groups_complete n : forall p rest,
  matches (Times n (Cat hex_pair colon)) p ->
  match_groups n (String.append p rest) = Some rest.
Proof.
  induction n as [|n IH]; intros p rest H.
  - inversion H; subst. reflexivity.
  - inversion H as [| | |? ? s1 s2 H1 H2]; subst.
    apply matches_group_inv in H1 as (a & b & -> & Ha & Hb).
    cbn [String.append match_groups]. rewrite Ha, Hb. cbn [andb Ascii.eqb].
    change (Ascii.eqb ":" ":") with true. cbn iota.
    apply IH, H2.
Qed.

(** The check of the source against the pattern: [re.match] with [$]
    accepts the strings the pattern matches and, besides, those with one
    newline after such a string. *)
Lemma address_match_spec (address : string) :
  address_match address = true
  <-> matches address_pattern address
      \/ exists s0, address = String.append s0 newline
                    /\ matches address_pattern s0.
Proof.
  unfold address_match. split.
  - destruct (match_groups 5 address) as [[|a [|b rest]]|] eqn:Hg;
      try discriminate.
    intros H. apply andb_prop in H as [H Hend].
    apply andb_prop in H as [Ha Hb].
    apply match_groups_sound in Hg as (p & Hp & ->).
    assert (matches address_pattern
              (String.append p (String a (String b EmptyString)))) as Hm.
    { apply matches_cat; [exact Hp|apply matches_hex_pair; assumption]. }
    destruct rest as [|c [|? ?]]; try discriminate.
    + left. exact Hm.
    + right. cbn [at_end] in Hend. apply Ascii.eqb_eq in Hend. subst c.
      exists (String.append p (String a (String b EmptyString))).
      split; [|exact Hm]. rewrite append_assoc. reflexivity.
  - intros [Hm|(s0 & -> & Hm)].
    + inversion Hm as [|? ? p q Hp Hq| |]; subst.
      apply matches_hex_pair_inv in Hq as (a & b & -> & Ha & Hb).
      rewrite (match_groups_complete 5 p _ Hp), Ha, Hb. reflexivity.
    + inversion Hm as [|? ? p q Hp Hq| |]; subst.
      apply matches_hex_pair_inv in Hq as (a & b & -> & Ha & Hb).
      rewrite append_assoc, (match_groups_complete 5 p _ Hp).
      cbn [String.append newline]. rewrite Ha, Hb. reflexivity.
Qed.

(** C8, as the code has it.  An address that is not empty and that the
    pattern does not match (nor matches up to one final newline, which
    [$] lets pass) makes [measure_weight] raise [SystemExit] at once:
    the state is untouched, so no board is looked up, nothing is read, no
    disconnect command is run; and no weight is returned, the session
    does not take place. *)
Theorem C8_invalid_address_exits_before_session
    (measuring : nat -> bool) (lookups : list (option (list Read)))
    (adjust minlimit : Q) (address : string) (command : option string)
    (terse fake : bool) (s : State) :
  address <> EmptyString ->
  ~ matches address_pattern address ->
  ~ (exists s0, address = String.append s0 newline
                /\ matches address_pattern s0) ->
  measure_weight measuring lookups adjust minlimit address command terse
                 fake s
  = (Raise (SystemExit invalid_address_message), s).
Proof.
  intros Hne Hno Hnl. unfold measure_weight.
  destruct (address_match address) eqn:Hm.
  - apply address_match_spec in Hm. tauto.
  - destruct address; [contradiction|reflexivity].
Qed.

Lemma not_an_address :
  ~ matches address_pattern "not-a-mac"
  /\ ~ (exists s0, "not-a-mac"%string = String.append s0 newline
                   /\ matches address_pattern s0).
Proof.
  pose proof (address_match_spec "not-a-mac") as [_ H].
  split; intros Hm; (assert (false = true) by (apply H; tauto));
    discriminate.
Qed.

Lemma C8_witness :
  measure_weight always [Some (groups 3 2100)] 0 20 "not-a-mac" None
                 false false start
  = (Raise (SystemExit invalid_address_message), start).
Proof.
  apply (C8_invalid_address_exits_before_session always
           [Some (groups 3 2100)] 0 20 "not-a-mac" None false false start).
  - discriminate.
  - apply not_an_address.
  - apply not_an_address.
Defined.

(** C8 as stated fails: with the address ["not-a-mac"], which the
    pattern does not match, the session does not proceed to completion.
    [measure_weight] ends by [SystemExit] before it looks for the board,
    where the same call without an address returns a weight. *)
Lemma C8_counterexample :
  ~ matches address_pattern "not-a-mac"
  /\ measure_weight always [Some (groups 200 2100)] (-2) 20 "not-a-mac"
                    None false false start
     = (Raise (SystemExit invalid_address_message), start)
  /\ measure_weight always [Some (groups 200 2100)] (-2) 20 EmptyString
                    None false false start
     = (Return ((reading 2100 2100 2100 2100 + reading 2100 2100 2100 2100)
                / 2 + -2)%Q,
        mkState [] 200 0 [Close]).
Proof.
  split; [apply not_an_address|]. split; [reflexivity|].
  vm_compute. reflexivity.
Qed.

Lemma C6_witness :
  decode [Some (div100 2100); None; None; None] (mkEvent ecodes.BTN_A 1)
  = Abort abort_message
  /\ get_raw_measurement_from [Some (div100 2100); None; None; None]
       (Event (mkEvent ecodes.BTN_A 1) :: group 1 1 1 1)
     = Exit abort_message (group 1 1 1 1)
  /\ read_data_loop always 1 200 20
       (repeat (reading 2100 2100 2100 2100) 50)
       (mkState (map Event [mkEvent ecodes.ABS_HAT1X 2100]
                 ++ Event (mkEvent ecodes.BTN_A 1) :: group 1 1 1 1)
                50 0 [])
     = (Raise (SystemExit abort_message),
        mkState (group 1 1 1 1) 51 0 [])
  /\ measure_weight always
       [None; Some (groups 50 2100 ++ [axis ecodes.ABS_HAT1X 2100; button])]
       (-2) 20 EmptyString None true false start
     = (Raise (SystemExit abort_message), mkState [] 51 0 [Sleep])
  /\ measure_thread always
       [None; Some (groups 50 2100 ++ [axis ecodes.ABS_HAT1X 2100; button])]
       (-2) 20 EmptyString None start
     = (Raise (SystemExit abort_message), mkState [] 54 0 [Sleep; IdleAdd]).
Proof.
  destruct (C6_button_aborts always
              [None;
               Some (groups 50 2100 ++ [axis ecodes.ABS_HAT1X 2100; button])]
              [Some (div100 2100); None; None; None]
              (mkEvent ecodes.BTN_A 1) (group 1 1 1 1) eq_refl)
    as (Hstep & Hcall & Hturn & Hcli & Hgui).
  split; [exact Hstep|]. split; [exact Hcall|]. split; [|split].
  - apply (Hturn [mkEvent ecodes.ABS_HAT1X 2100] 0%nat 200 20%Q
             (repeat (reading 2100 2100 2100 2100) 50)
             (mkState (map Event [mkEvent ecodes.ABS_HAT1X 2100]
                       ++ Event (mkEvent ecodes.BTN_A 1) :: group 1 1 1 1)
                      50 0 [])).
    + repeat constructor; eexists; reflexivity.
    + reflexivity.
    + reflexivity.
  - apply (Hcli (-2)%Q 20%Q EmptyString None true start
             (groups 50 2100 ++ [axis ecodes.ABS_HAT1X 2100; button])
             (mkState [] 0 0 [Sleep]) abort_message
             (mkState [] 51 0 [Sleep])).
    + reflexivity.
    + reflexivity.
    + vm_compute. reflexivity.
  - apply (Hgui (-2)%Q 20%Q EmptyString None start
             (groups 50 2100 ++ [axis ecodes.ABS_HAT1X 2100; button])
             (mkState [] 2 0 [Sleep]) abort_message
             (mkState [] 54 0 [Sleep])).
    + reflexivity.
    + reflexivity.
    + vm_compute. reflexivity.
Defined.

(** ** The scenarios of the specification, run *)

(** 200 readings of 21.0 on every sensor, threshold 20, adjustment -2:
    the window holds 200 samples and the weight is 82. *)
Example scenario_full_window :
  exists w s',
    measure_weight always [Some (groups 200 2100)] (-2) 20 EmptyString None
                   false false start = (Return w, s')
    /\ (w == 82)%Q /\ trace s' = [Close].
Proof.
  exists ((reading 2100 2100 2100 2100 + reading 2100 2100 2100 2100)
          / 2 + -2)%Q, (mkState [] 200 0 [Close]).
  split; [vm_compute; reflexivity|]. split; reflexivity.
Qed.

(** 50 samples of 84.0 buffered, then one of 18.0 with threshold 20: the
    window returned holds the 50. *)
Example scenario_step_off :
  read_data always (groups 50 2100 ++ group 450 450 450 450) 200 20 start
  = (Return (repeat (reading 2100 2100 2100 2100) 50),
     mkState [] 51 0 [Close]).
Proof. vm_compute. reflexivity. Qed.

(** The flag cleared while samples are collected: the loop ends at its
    next test, the handle is closed and the window so far returned. *)
Example scenario_cancelled :
  read_data (until 3) (groups 50 2100) 200 20 start
  = (Return (repeat (reading 2100 2100 2100 2100) 3),
     mkState (groups 47 2100) 4 0 [Close]).
Proof. vm_compute. reflexivity. Qed.

(** A read that fails: [OSError] leaves [read_data] before the close;
    [measure_thread] catches it and publishes nothing. *)
Example scenario_device_failure :
  read_data always (groups 2 2100 ++ [Fault]) 200 20 start
  = (Raise OSError, mkState [] 3 0 [])
  /\ measure_thread always [Some (groups 2 2100 ++ [Fault])] 0 20
       EmptyString None start
     = (Return tt, mkState [] 5 0 [IdleAdd]).
Proof. split; vm_compute; reflexivity. Qed.

(** [measure_thread] hands the address to the disconnect command as it
    is: the check of [measure_weight] is not made there. *)
Example measure_thread_disconnects_unchecked :
  measure_thread always [Some (groups 1 2100 ++ group 450 450 450 450)]
    0 20 "not-a-mac" None start
  = (Return tt,
     mkState [] 5 (reading 2100 2100 2100 2100 + 0)
             [Close; Disconnect "not-a-mac"; IdleAdd]).
Proof. vm_compute. reflexivity. Qed.

(** * More properties of the code

    ** The decoder *)

Lemma decode_passed_over data e :
  passed_over e = true ->
  decode data e = Pending data \/ decode data e = Unexpected data.
Proof.
  unfold passed_over, slot_of, is_marker, decode.
  repeat (destruct (code e =? _); [discriminate|]). cbn [negb andb].
  destruct (code e =? ecodes.SYN_DROPPED); [left; reflexivity|].
  destruct (code e =? ecodes.SYN_REPORT); cbn [andb negb];
    [|right; reflexivity].
  destruct (value e =? 3); [left; reflexivity|].
  destruct (value e =? 0); [discriminate|right; reflexivity].
Qed.

Lemma decode_reaches_else data e :
  reaches_else e = true <-> decode data e = Unexpected data.
Proof.
  unfold reaches_else, decode.
  case_tests; split; intros H; try discriminate; reflexivity.
Qed.

Lemma decode_not_else data e data' :
  reaches_else e = false -> decode data e <> Unexpected data'.
Proof.
  intros He Hd.
  assert (decode data e = Unexpected data) as Hd'.
  { revert Hd. unfold decode. case_tests; intros; try discriminate.
    reflexivity. }
  apply decode_reaches_else in Hd'. congruence.
Qed.

Lemma decode_unexpected_passed_over data e data' :
  decode data e = Unexpected data' -> passed_over e = true.
Proof.
  unfold passed_over, slot_of, is_marker, decode.
  repeat (destruct (code e =? _); [discriminate|]). cbn [negb andb].
  destruct (code e =? ecodes.SYN_REPORT); cbn [andb negb];
    [|reflexivity].
  destruct (value e =? 3); [discriminate|].
  destruct (value e =? 0); [|reflexivity].
  destruct (has_None data); discriminate.
Qed.

(** X1. Reads without an event, events of the [pass] branches
    ([SYN_DROPPED], [SYN_REPORT] 3) and events of the [else] branch that
    the library has a name for change nothing: on the stream without
    them the call ends the same way, with the same sample.  An event of
    the [else] branch without a name ends the call by [KeyError] on both
    streams. *)
Theorem get_raw_measurement_skips_idle_reads
    (named : InputEvent -> bool) (device : list Read) :
  forall data,
    get_raw_measurement_checked named data (without_idle named device)
    = on_rest_checked (without_idle named)
        (get_raw_measurement_checked named data device).
Proof.
  induction device as [|r device IH]; intros data; [reflexivity|].
  unfold without_idle. cbn [List.filter].
  fold (without_idle named device).
  destruct r as [|e|]; cbn [idle negb].
  - cbn [get_raw_measurement_checked]. apply IH.
  - destruct (passed_over e) eqn:Hp; cbn [andb negb].
    + destruct (reaches_else e) eqn:He; cbn [negb orb].
      * apply (decode_reaches_else data) in He.
        destruct (named e) eqn:Hn; cbn [negb get_raw_measurement_checked];
          rewrite He, Hn; [apply IH|reflexivity].
      * cbn [get_raw_measurement_checked].
        destruct (decode_passed_over data e Hp) as [Hd|Hd].
        -- rewrite Hd. apply IH.
        -- exfalso. exact (decode_not_else data e data He Hd).
    + cbn [get_raw_measurement_checked].
      destruct (decode data e) eqn:Hd; cbn [on_rest_checked on_rest];
        try apply IH; try reflexivity.
      rewrite (decode_unexpected_passed_over data e _ Hd) in Hp.
      discriminate.
  - reflexivity.
Qed.

(** Where every event of the [else] branch has a name, the call ends as
    [get_raw_measurement_from] says. *)
Lemma get_raw_measurement_checked_named named device : forall data,
  all_named named device ->
  get_raw_measurement_checked named data device
  = Finished (get_raw_measurement_from data device).
Proof.
  induction device as [|r device IH]; intros data Hall; [reflexivity|].
  inversion Hall as [|? ? Hr Hall']; subst.
  destruct r as [|e|]; cbn [get_raw_measurement_checked
                            get_raw_measurement_from].
  - apply IH, Hall'.
  - destruct (decode data e) eqn:Hd; try (apply IH, Hall'); try reflexivity.
    assert (reaches_else e = true) as He.
    { destruct (reaches_else e) eqn:He; [reflexivity|].
      exfalso. exact (decode_not_else data e _ He Hd). }
    rewrite (Hr He). apply IH, Hall'.
  - reflexivity.
Qed.

Lemma feed_app data evs1 evs2 :
  feed data (evs1 ++ evs2) = feed (feed data evs1) evs2.
Proof. unfold feed. apply fold_left_app. Qed.

Lemma events_app l1 l2 : events (l1 ++ l2) = events l1 ++ events l2.
Proof.
  induction l1 as [|[|e|] l1 IH]; cbn [app events]; rewrite ?IH; reflexivity.
Qed.

Lemma feed_complete evs :
  has_None (feed empty_slots evs) = false ->
  exists tl tr bl br,
    last_value ecodes.ABS_HAT1X evs = Some tl
    /\ last_value ecodes.ABS_HAT0X evs = Some tr
    /\ last_value ecodes.ABS_HAT0Y evs = Some bl
    /\ last_value ecodes.ABS_HAT1Y evs = Some br
    /\ feed empty_slots evs
       = [Some (div100 tl); Some (div100 tr);
          Some (div100 bl); Some (div100 br)].
Proof.
  intros Hfull.
  destruct (last_value ecodes.ABS_HAT1X evs) as [tl|] eqn:H0;
    [|rewrite (feed_missing evs ecodes.ABS_HAT1X 0%nat eq_refl H0) in Hfull;
      discriminate].
  destruct (last_value ecodes.ABS_HAT0X evs) as [tr|] eqn:H1;
    [|rewrite (feed_missing evs ecodes.ABS_HAT0X 1%nat eq_refl H1) in Hfull;
      discriminate].
  destruct (last_value ecodes.ABS_HAT0Y evs) as [bl|] eqn:H2;
    [|rewrite (feed_missing evs ecodes.ABS_HAT0Y 2%nat eq_refl H2) in Hfull;
      discriminate].
  destruct (last_value ecodes.ABS_HAT1Y evs) as [br|] eqn:H3;
    [|rewrite (feed_missing evs ecodes.ABS_HAT1Y 3%nat eq_refl H3) in Hfull;
      discriminate].
  exists tl, tr, bl, br. repeat split.
  apply feed_all_axes; assumption.
Qed.

Lemma axis_is_inside e i :
  slot_of (code e) = Some i ->
  is_marker e = false /\ code e <> ecodes.BTN_A.
Proof.
  unfold slot_of, is_marker.
  repeat match goal with
         | |- context [code e =? ?c] =>
             destruct (Z.eqb_spec (code e) c) as [->|?]
         end; intros H; try discriminate H; split;
    try reflexivity; try discriminate; try assumption;
    cbn [andb]; try reflexivity.
Qed.

Lemma sample_comes_from_group device :
  forall before g data m rest,
    data = feed empty_slots (events g) ->
    inside_group g ->
    ends_group before ->
    get_raw_measurement_from data device = Measured m rest ->
    exists before' grp e,
      before ++ g ++ device = before' ++ grp ++ Event e :: rest
      /\ is_marker e = true
      /\ ends_group before'
      /\ inside_group grp
      /\ has_None (feed empty_slots (events grp)) = false
      /\ m = sum (feed empty_slots (events grp)).
Proof.
  induction device as [|r device IH]; intros before g data m rest
    Hdata Hg Hbefore Hrun; cbn [get_raw_measurement_from] in Hrun;
    [discriminate|].
  assert (forall r', before ++ g ++ r' :: device
                     = before ++ (g ++ [r']) ++ device) as Hshift.
  { intros r'. rewrite <- (app_assoc g). reflexivity. }
  destruct r as [|e|]; [| |discriminate].
  - rewrite Hshift. apply (IH before (g ++ [NoEvent]) data m rest);
      [|apply Forall_app; split; [exact Hg|repeat constructor]
       |exact Hbefore|exact Hrun].
    rewrite events_app. cbn [events]. rewrite app_nil_r. exact Hdata.
  - destruct (slot_of (code e)) as [i|] eqn:Hslot.
    + rewrite (decode_axis data e i Hslot) in Hrun.
      rewrite Hshift.
      apply (IH before (g ++ [Event e])
               (<[i := Some (div100 (value e))]> data) m rest);
        [|apply Forall_app; split;
          [exact Hg|constructor; [exact (axis_is_inside e i Hslot)
                                 |constructor]]
         |exact Hbefore|exact Hrun].
      rewrite events_app, feed_app, <- Hdata. cbn [events].
      unfold feed at 1. cbn [fold_left]. rewrite Hslot. reflexivity.
    + assert (feed empty_slots (events (g ++ [Event e]))
              = feed empty_slots (events g)) as Hsame.
      { rewrite events_app, feed_app. cbn [events].
        unfold feed at 1. cbn [fold_left]. rewrite Hslot. reflexivity. }
      destruct (Z.eqb_spec (code e) ecodes.BTN_A) as [Hb|Hb].
      { rewrite (decode_button data e Hb) in Hrun. discriminate. }
      destruct (is_marker e) eqn:Hmark.
      * assert (code e = ecodes.SYN_REPORT /\ value e = 0) as [Hc Hv].
        { unfold is_marker in Hmark. apply andb_prop in Hmark as [Hc Hv].
          split; apply Z.eqb_eq; assumption. }
        rewrite (decode_report_complete data e Hc Hv) in Hrun.
        destruct (has_None data) eqn:Hnone.
        -- replace (before ++ g ++ Event e :: device)
             with ((before ++ g ++ [Event e]) ++ [] ++ device)
             by (rewrite <- !app_assoc; reflexivity).
           apply (IH (before ++ g ++ [Event e]) [] empty_slots m rest);
             [reflexivity|constructor| |exact Hrun].
           right. exists (before ++ g), e. split; [|exact Hmark].
           rewrite <- app_assoc. reflexivity.
        -- injection Hrun as <- <-.
           exists before, g, e. subst data. repeat split; assumption.
      * assert (passed_over e = true) as Hp.
        { unfold passed_over. rewrite Hslot, Hmark.
          destruct (Z.eqb_spec (code e) ecodes.BTN_A); [contradiction|].
          reflexivity. }
        rewrite Hshift.
        apply (IH before (g ++ [Event e]) data m rest);
          [rewrite Hsame; exact Hdata
          |apply Forall_app; split;
           [exact Hg|constructor; [split; assumption|constructor]]
          |exact Hbefore|].
        destruct (decode_passed_over data e Hp) as [Hd|Hd];
          rewrite Hd in Hrun; exact Hrun.
Qed.

(** X2. Every sample [get_raw_measurement] returns is returned at a
    report-complete marker and is made of the last reading of each of the
    four axes within the group that this marker ends: the reads between
    the call's start, or the marker before, and this marker.  Nothing read
    before that group enters the sample, and nothing after the marker is
    read. *)
Theorem sample_is_the_last_group (device : list Read) (m : Q)
    (rest : list Read) :
  get_raw_measurement device = Measured m rest ->
  exists before grp e tl tr bl br,
    device = before ++ grp ++ Event e :: rest
    /\ is_marker e = true
    /\ ends_group before
    /\ inside_group grp
    /\ last_value ecodes.ABS_HAT1X (events grp) = Some tl
    /\ last_value ecodes.ABS_HAT0X (events grp) = Some tr
    /\ last_value ecodes.ABS_HAT0Y (events grp) = Some bl
    /\ last_value ecodes.ABS_HAT1Y (events grp) = Some br
    /\ m = reading tl tr bl br.
Proof.
  intros Hrun.
  destruct (sample_comes_from_group device [] [] empty_slots m rest
              eq_refl (List.Forall_nil _) (or_introl eq_refl) Hrun)
    as (before & grp & e & Hdev & Hmark & Hbefore & Hgrp & Hfull & Hm).
  destruct (feed_complete _ Hfull)
    as (tl & tr & bl & br & H0 & H1 & H2 & H3 & Hfeed).
  exists before, grp, e, tl, tr, bl, br.
  repeat split; try assumption.
  rewrite Hm, Hfeed. reflexivity.
Qed.

Lemma sample_is_the_last_group_witness :
  exists before grp e tl tr bl br,
    map Event partial_group ++ report 0 :: NoEvent
      :: map Event shuffled_group ++ report 0 :: [button]
    = before ++ grp ++ Event e :: [button]
    /\ is_marker e = true
    /\ ends_group before
    /\ inside_group grp
    /\ last_value ecodes.ABS_HAT1X (events grp) = Some tl
    /\ last_value ecodes.ABS_HAT0X (events grp) = Some tr
    /\ last_value ecodes.ABS_HAT0Y (events grp) = Some bl
    /\ last_value ecodes.ABS_HAT1Y (events grp) = Some br
    /\ reading 2000 2200 2300 2400 = reading tl tr bl br.
Proof.
  apply (sample_is_the_last_group
           (map Event partial_group ++ report 0 :: NoEvent
              :: map Event shuffled_group ++ report 0 :: [button])
           (reading 2000 2200 2300 2400) [button]).
  reflexivity.
Defined.

(** ** The collection loop *)

Lemma read_data_loop_window_is_a_run measuring samples threshold fuel :
  forall data s w s',
    read_data_loop measuring fuel samples threshold data s = (Return w, s') ->
    exists lows more tail,
      decodes (device s) (lows ++ more ++ tail) (device s')
      /\ w = data ++ more
      /\ Forall (fun m => (m < threshold)%Q) lows
      /\ (data <> [] -> lows = [])
      /\ (tail = []
          \/ exists m, tail = [m] /\ (m < threshold)%Q /\ w <> []).
Proof.
  intros data s.
  apply (read_data_loop_cases measuring samples threshold
           (fun data s out =>
              forall w s', out = (Return w, s') ->
                exists lows more tail,
                  decodes (device s) (lows ++ more ++ tail) (device s')
                  /\ w = data ++ more
                  /\ Forall (fun m => (m < threshold)%Q) lows
                  /\ (data <> [] -> lows = [])
                  /\ (tail = []
                      \/ exists m, tail = [m] /\ (m < threshold)%Q
                                   /\ w <> [])));
    try (intros; discriminate); clear data s.
  - intros data s _ w s' [= <- <-].
    exists [], [], []. cbn [app emit tick device].
    rewrite app_nil_r. repeat split; auto; constructor.
  - intros data s m rest _ E Hdata Hm w s' [= <- <-].
    exists [], [], [m]. cbn [app emit tick set_device device].
    rewrite app_nil_r. repeat split; auto.
    + econstructor; [exact E|constructor].
    + right. exists m. repeat split; assumption.
  - intros s m rest out _ E Hm IH w s' Hout.
    destruct (IH w s' Hout) as (lows & more & tail & Hdec & Hw & Hlow & _ & Ht).
    exists (m :: lows), more, tail. cbn [set_device tick device] in Hdec.
    repeat split; auto.
    + cbn [app]. econstructor; [exact E|exact Hdec].
    + intros H. contradiction.
  - intros data s m rest _ E Hm _ w s' [= <- <-].
    exists [], [m], []. cbn [app emit tick set_device device].
    repeat split; auto.
    econstructor; [exact E|constructor].
  - intros data s m rest out _ E Hm _ IH w s' Hout.
    destruct (IH w s' Hout) as (lows & more & tail & Hdec & Hw & _ & Hno & Ht).
    assert (lows = []) as -> by (apply Hno; destruct data; discriminate).
    exists [], (m :: more), tail. cbn [set_device tick device app] in Hdec |- *.
    repeat split; auto.
    + econstructor; [exact E|exact Hdec].
    + rewrite Hw, <- app_assoc. reflexivity.
Qed.

(** X3. The window [read_data] returns is a run of consecutive samples in
    the order they were decoded: the samples decoded before it are all
    below the threshold (they were passed over), none inside it is left
    out, and it is followed by nothing that was read, or by the one
    sample below the threshold that ended it. *)
Theorem window_is_a_run_of_samples
    (measuring : nat -> bool) (board : list Read) (samples : Z)
    (threshold : Q) (s s' : State) (w : list Q) :
  read_data measuring board samples threshold s = (Return w, s') ->
  exists lows tail,
    decodes board (lows ++ w ++ tail) (device s')
    /\ Forall (fun m => (m < threshold)%Q) lows
    /\ (tail = []
        \/ exists m, tail = [m] /\ (m < threshold)%Q /\ w <> []).
Proof.
  unfold read_data. intros Hrun.
  destruct (read_data_loop_window_is_a_run _ _ _ _ _ _ _ _ Hrun)
    as (lows & more & tail & Hdec & Hw & Hlow & _ & Ht).
  cbn [app] in Hw. subst more. cbn [set_device device] in Hdec.
  exists lows, tail. repeat split; assumption.
Qed.

Lemma window_is_a_run_of_samples_witness :
  exists lows tail,
    decodes (group 100 100 100 100 ++ groups 2 2100 ++ group 450 450 450 450
             ++ [button])
            (lows ++ repeat (reading 2100 2100 2100 2100) 2 ++ tail)
            (device (mkState [button] 4 0 [Close]))
    /\ Forall (fun m => (m < 20)%Q) lows
    /\ (tail = []
        \/ exists m, tail = [m] /\ (m < 20)%Q
                     /\ repeat (reading 2100 2100 2100 2100) 2 <> []).
Proof.
  apply (window_is_a_run_of_samples always
           (group 100 100 100 100 ++ groups 2 2100 ++ group 450 450 450 450
            ++ [button])
           200 20 start (mkState [button] 4 0 [Close])).
  reflexivity.
Defined.

Lemma advance_advance n1 n2 r1 r2 s :
  advance n2 r2 (advance n1 r1 s) = advance (n1 + n2) r2 s.
Proof.
  unfold advance. cbn [clock current_weight trace].
  rewrite Nat.add_assoc. reflexivity.
Qed.

(** The loop of [read_data] after the samples [lows], all below the
    threshold, and then [ms], all at or above it and fewer than the cap. *)
Lemma read_data_collects measuring samples threshold board s lows ms mid :
  decodes board (lows ++ ms) mid ->
  Forall (fun m => (m < threshold)%Q) lows ->
  Forall (fun m => (threshold <= m)%Q) ms ->
  Z.of_nat (length ms) < samples ->
  (forall i, (i < length lows + length ms)%nat ->
             measuring (clock s + i)%nat = true) ->
  read_data measuring board samples threshold s
  = read_data_loop measuring (S (length board)) samples threshold ms
      (advance (length lows + length ms) mid (set_device board s)).
Proof.
  intros Hdec Hlow Hge Hcap Hflag.
  destruct (decodes_app _ _ _ _ Hdec) as (mid0 & Hlows & Hms).
  unfold read_data.
  rewrite (read_data_loop_skips measuring samples threshold lows
             (S (length board)) (set_device board s) mid0);
    [|exact Hlows|exact Hlow
     |intros i Hi; cbn [clock set_device]; apply Hflag; lia
     |cbn [device set_device]; lia].
  rewrite (read_data_loop_appends measuring samples threshold ms
             (S (length board)) [] _ mid);
    [|exact Hms|exact Hge|exact Hcap| |].
  - rewrite advance_advance. reflexivity.
  - intros i Hi. cbn [advance clock set_device].
    rewrite <- Nat.add_assoc. apply Hflag. lia.
  - pose proof (decodes_shorter _ _ _ Hlows). cbn [advance device]. lia.
Qed.

(** X4. With the flag set throughout, samples below the threshold
    followed by exactly [samples] samples at or above it make [read_data]
    return those [samples] samples, the handle closed, nothing read after
    the last of them. *)
Theorem window_fills_to_the_cap
    (measuring : nat -> bool) (board : list Read) (samples : Z)
    (threshold : Q) (s : State) (lows ms : list Q) (m : Q)
    (rest : list Read) :
  decodes board (lows ++ ms ++ [m]) rest ->
  Forall (fun x => (x < threshold)%Q) lows ->
  Forall (fun x => (threshold <= x)%Q) (ms ++ [m]) ->
  Z.of_nat (length (ms ++ [m])) = samples ->
  (forall i, (i <= length lows + length ms)%nat ->
             measuring (clock s + i)%nat = true) ->
  read_data measuring board samples threshold s
  = (Return (ms ++ [m]),
     emit Close (advance (length lows + length ms + 1) rest
                         (set_device board s))).
Proof.
  intros Hdec Hlow Hge Hlen Hflag.
  rewrite app_assoc in Hdec.
  destruct (decodes_app _ _ _ _ Hdec) as (mid & Hfront & Hlast).
  inversion Hlast as [|? ? d' ? ? E Hnil]; subst.
  inversion Hnil; subst.
  apply Forall_app in Hge as [Hms Hm].
  inversion Hm as [|? ? Hm' _]; subst.
  rewrite length_app in *. cbn [length] in *.
  rewrite (read_data_collects measuring _ threshold board s lows ms mid);
    [|exact Hfront|exact Hlow|exact Hms|lia|intros i Hi; apply Hflag; lia].
  rewrite read_data_loop_turn. cbn [advance clock device set_device].
  rewrite (Hflag _ (Nat.le_refl _)), E. cbv zeta.
  apply Qlt_bool_false in Hm'. rewrite Hm', !andb_false_r.
  destruct (Z.geb_spec (Z.of_nat (length (ms ++ [m])))
              (Z.of_nat (length ms + 1))) as [_|Hc];
    [|rewrite length_app in Hc; cbn [length] in Hc; lia].
  unfold emit, advance, set_device, tick.
  cbn [device clock current_weight trace].
  replace (S (clock s + (length lows + length ms)))
    with (clock s + (length lows + length ms + 1))%nat by lia.
  reflexivity.
Qed.

Lemma window_fills_to_the_cap_witness :
  read_data always
    (group 100 100 100 100 ++ groups 3 2100 ++ group 450 450 450 450) 3 20
    start
  = (Return (repeat (reading 2100 2100 2100 2100) 2
             ++ [reading 2100 2100 2100 2100]),
     mkState (group 450 450 450 450) 4 0 [Close]).
Proof.
  apply (window_fills_to_the_cap always
           (group 100 100 100 100 ++ groups 3 2100 ++ group 450 450 450 450)
           3 20 start [reading 100 100 100 100]
           (repeat (reading 2100 2100 2100 2100) 2)
           (reading 2100 2100 2100 2100) (group 450 450 450 450)).
  - apply decodes_group. cbn [groups repeat app].
    rewrite <- !app_assoc.
    apply decodes_group, decodes_group, decodes_group, decodes_nil.
  - repeat constructor.
  - repeat constructor; unfold Qle; cbn; lia.
  - reflexivity.
  - intros i _. reflexivity.
Defined.

(** X5. When the flag is found cleared, [read_data] stops there: it
    returns the samples accepted so far (none, when the flag is cleared
    from the start), closes the handle and leaves the events that follow
    unread. *)
Theorem cancellation_returns_the_window_so_far
    (measuring : nat -> bool) (board : list Read) (samples : Z)
    (threshold : Q) (s : State) (lows ms : list Q) (mid : list Read) :
  decodes board (lows ++ ms) mid ->
  Forall (fun x => (x < threshold)%Q) lows ->
  Forall (fun x => (threshold <= x)%Q) ms ->
  Z.of_nat (length ms) < samples \/ ms = [] ->
  (forall i, (i < length lows + length ms)%nat ->
             measuring (clock s + i)%nat = true) ->
  measuring (clock s + (length lows + length ms))%nat = false ->
  read_data measuring board samples threshold s
  = (Return ms,
     emit Close (tick (advance (length lows + length ms) mid
                               (set_device board s)))).
Proof.
  intros Hdec Hlow Hge Hcap Hflag Hoff.
  assert (read_data measuring board samples threshold s
          = read_data_loop measuring (S (length board)) samples threshold ms
              (advance (length lows + length ms) mid (set_device board s)))
    as Hrun.
  { destruct Hcap as [Hcap| ->].
    - apply read_data_collects; assumption.
    - rewrite app_nil_r in Hdec. cbn [length] in *.
      rewrite Nat.add_0_r in *. unfold read_data.
      apply read_data_loop_skips;
        [exact Hdec|exact Hlow
        |intros i Hi; cbn [clock set_device]; apply Hflag; exact Hi
        |cbn [device set_device]; lia]. }
  rewrite Hrun, read_data_loop_turn. cbn [advance clock set_device].
  rewrite Hoff. reflexivity.
Qed.

Lemma cancellation_returns_the_window_so_far_witness :
  read_data (until 3)
    (group 100 100 100 100 ++ groups 2 2100 ++ groups 5 2200) 200 20 start
  = (Return (repeat (reading 2100 2100 2100 2100) 2),
     mkState (groups 5 2200) 4 0 [Close]).
Proof.
  apply (cancellation_returns_the_window_so_far (until 3)
           (group 100 100 100 100 ++ groups 2 2100 ++ groups 5 2200)
           200 20 start [reading 100 100 100 100]
           (repeat (reading 2100 2100 2100 2100) 2) (groups 5 2200)).
  - apply decodes_group. cbn [groups repeat app].
    rewrite <- !app_assoc.
    apply decodes_group, decodes_group, decodes_nil.
  - repeat constructor.
  - repeat constructor; unfold Qle; cbn; lia.
  - left. cbn. lia.
  - intros i Hi. cbn in Hi. unfold until. cbn [clock start Nat.add].
    apply Nat.ltb_lt. exact Hi.
  - reflexivity.
Defined.

(** ** Sessions of [measure_weight] *)

Lemma add_trace_nil s :
  mkState (device s) (clock s) (current_weight s) (trace s ++ []) = s.
Proof. rewrite app_nil_r. destruct s; reflexivity. Qed.

(** Lookups that find nothing cost one sleep each and nothing else. *)
Lemma wait_for_board_after_misses (k : nat)
    (polls : list (option (list Read))) (s : State) :
  wait_for_board (repeat None k ++ polls) s
  = wait_for_board polls
      (mkState (device s) (clock s) (current_weight s)
               (trace s ++ repeat Sleep k)).
Proof.
  revert s. induction k as [|k IH]; intros s; cbn [repeat app].
  - rewrite add_trace_nil. reflexivity.
  - cbn [wait_for_board]. unfold bind, effect. rewrite IH.
    unfold emit. cbn [device clock current_weight trace].
    rewrite <- !app_assoc. reflexivity.
Qed.

(** X6. [measure_weight] looks for the board until it is there: it
    sleeps once after every lookup that finds nothing, takes the first
    handle it gets and looks no further; the flag is not read and the
    state otherwise not touched.  When the lookups given all fail it is
    still waiting. *)
Theorem wait_for_board_sleeps_once_per_miss (k : nat) (board : list Read)
    (later : list (option (list Read))) (s : State) :
  wait_for_board (repeat None k ++ Some board :: later) s
  = (Return board,
     mkState (device s) (clock s) (current_weight s)
             (trace s ++ repeat Sleep k))
  /\ wait_for_board (repeat None k) s
     = (Starved,
        mkState (device s) (clock s) (current_weight s)
                (trace s ++ repeat Sleep k)).
Proof.
  split.
  - rewrite wait_for_board_after_misses. reflexivity.
  - rewrite <- (app_nil_r (repeat None k)) at 1.
    rewrite wait_for_board_after_misses. reflexivity.
Qed.

Lemma wait_for_board_clock polls : forall s r s',
  wait_for_board polls s = (r, s') ->
  clock s' = clock s /\ device s' = device s.
Proof.
  induction polls as [|[board|] polls IH]; intros s r s' H;
    cbn [wait_for_board] in H.
  - injection H as _ <-. split; reflexivity.
  - injection H as _ <-. split; reflexivity.
  - unfold bind, effect in H. apply IH in H. exact H.
Qed.

(** X7. [measure_weight] does not set the flag [measuring] that
    [read_data] tests.  When the flag is not set as the board is found,
    [read_data] returns the empty window at once, after closing the
    handle and without reading an event, and [measure_weight] ends by the
    [StatisticsError] of the median: there is no weight. *)
Theorem measure_weight_needs_the_flag
    (measuring : nat -> bool) (lookups : list (option (list Read)))
    (adjust minlimit : Q) (address : string) (command : option string)
    (terse : bool) (s : State) (board : list Read) (s1 : State) :
  truthy address && negb (address_match address) = false ->
  wait_for_board lookups s = (Return board, s1) ->
  measuring (clock s) = false ->
  measure_weight measuring lookups adjust minlimit address command terse
                 false s
  = (Raise StatisticsError, emit Close (tick (set_device board s1))).
Proof.
  intros Haddr Hwait Hflag.
  destruct (wait_for_board_clock _ _ _ _ Hwait) as [Hclock _].
  unfold measure_weight. rewrite Haddr.
  unfold bind at 1. unfold bind at 1. rewrite Hwait.
  unfold read_data. rewrite read_data_loop_turn.
  cbn [clock set_device]. rewrite Hclock, Hflag. reflexivity.
Qed.

Lemma measure_weight_needs_the_flag_witness :
  measure_weight (fun _ => false) [None; Some (groups 200 2100)] 0 20
                 EmptyString None false false start
  = (Raise StatisticsError, mkState (groups 200 2100) 1 0 [Sleep; Close]).
Proof.
  apply (measure_weight_needs_the_flag (fun _ => false)
           [None; Some (groups 200 2100)] 0 20 EmptyString None false start
           (groups 200 2100) (mkState [] 0 0 [Sleep])).
  - reflexivity.
  - reflexivity.
  - reflexivity.
Defined.

(** X8. A measurement that succeeds acts in this order: the sleeps of
    the lookups that found nothing, [device.close()], the weight printed
    when [terse] is set, the disconnect command when an address is given,
    the user's command when one is given.  The weight returned is the
    median of the window plus [adjust]. *)
Theorem measure_weight_acts_in_order
    (measuring : nat -> bool) (k : nat) (board : list Read)
    (later : list (option (list Read))) (adjust minlimit : Q)
    (address : string) (command : option string) (terse : bool)
    (s s2 : State) (w : list Q) (med : Q) :
  truthy address && negb (address_match address) = false ->
  read_data measuring board 200 minlimit
    (mkState (device s) (clock s) (current_weight s)
             (trace s ++ repeat Sleep k))
  = (Return w, s2) ->
  median w = Some med ->
  measure_weight measuring (repeat None k ++ Some board :: later) adjust
                 minlimit address command terse false s
  = (Return (med + adjust)%Q,
     mkState (device s2) (clock s2) (current_weight s2)
       (trace s ++ repeat Sleep k ++ [Close]
        ++ (if terse then [PrintWeight (med + adjust)%Q] else [])
        ++ (if truthy address then [Disconnect address] else [])
        ++ (if truthy_opt command
            then [Command (default EmptyString command) (med + adjust)%Q]
            else []))).
Proof.
  intros Haddr Hread Hmed.
  pose proof (read_data_closes measuring board 200 minlimit
                (mkState (device s) (clock s) (current_weight s)
                         (trace s ++ repeat Sleep k))) as Hclose.
  cbv zeta in Hclose. rewrite Hread in Hclose. cbn [fst snd trace] in Hclose.
  unfold measure_weight. rewrite Haddr.
  unfold bind at 1. unfold bind at 1.
  rewrite wait_for_board_after_misses. cbn [wait_for_board]. unfold ret at 1.
  rewrite Hread.
  unfold bind at 1. unfold final_weight_of, py_median, bind at 1.
  rewrite Hmed. unfold ret at 1. unfold ret at 1.
  unfold after_measurement, bind, when, effect, ret, emit.
  destruct s2 as [d2 c2 w2 t2]. cbn [trace] in Hclose. subst t2.
  destruct terse, (truthy address), (truthy_opt command);
    cbn [device clock current_weight trace];
    rewrite <- ?app_assoc; cbn [app]; rewrite ?app_nil_r; reflexivity.
Qed.

Lemma measure_weight_acts_in_order_witness :
  measure_weight always
    ([None; None] ++ Some (groups 3 2100 ++ group 450 450 450 450) :: [])
    (-2) 20 "00:1f:32:AB:cd:09" (Some "notify {weight}"%string) true false
    start
  = (Return (reading 2100 2100 2100 2100 + -2)%Q,
     mkState [] 4 0
       [Sleep; Sleep; Close;
        PrintWeight (reading 2100 2100 2100 2100 + -2)%Q;
        Disconnect "00:1f:32:AB:cd:09";
        Command "notify {weight}" (reading 2100 2100 2100 2100 + -2)%Q]).
Proof.
  apply (measure_weight_acts_in_order always 2
           (groups 3 2100 ++ group 450 450 450 450) [] (-2) 20
           "00:1f:32:AB:cd:09" (Some "notify {weight}"%string) true start
           (mkState [] 4 0 [Sleep; Sleep; Close])
           (repeat (reading 2100 2100 2100 2100) 3)
           (reading 2100 2100 2100 2100)).
  - reflexivity.
  - vm_compute. reflexivity.
  - reflexivity.
Defined.

(** ** Sessions of [measure_thread] *)

Lemma decode_abort_message data e msg :
  decode data e = Abort msg -> msg = abort_message.
Proof.
  unfold decode. case_tests; intros H; try discriminate H.
  injection H as <-. reflexivity.
Qed.

Lemma get_raw_measurement_exit_message device : forall data msg rest,
  get_raw_measurement_from data device = Exit msg rest ->
  msg = abort_message.
Proof.
  induction device as [|[|e|] device IH]; intros data msg rest H;
    cbn [get_raw_measurement_from] in H; try discriminate H.
  - exact (IH _ _ _ H).
  - destruct (decode data e) eqn:Hd; try discriminate H;
      try exact (IH _ _ _ H).
    injection H as <- _. exact (decode_abort_message _ _ _ Hd).
Qed.

Lemma read_data_raises measuring board samples threshold s ex :
  fst (read_data measuring board samples threshold s) = Raise ex ->
  ex = OSError \/ ex = SystemExit abort_message.
Proof.
  unfold read_data.
  apply (read_data_loop_cases measuring samples threshold
           (fun data s out =>
              fst out = Raise ex ->
              ex = OSError \/ ex = SystemExit abort_message));
    try (intros; discriminate); try (intros; auto; fail).
  - intros d s0 msg rest _ E [= <-]. right.
    rewrite (get_raw_measurement_exit_message _ _ _ _ E). reflexivity.
  - intros d s0 rest _ _ [= <-]. left. reflexivity.
Qed.

Lemma wait_while_measuring_spec measuring polls : forall s,
  (exists board, fst (wait_while_measuring measuring polls s) = Return board)
  \/ fst (wait_while_measuring measuring polls s) = Starved.
Proof.
  induction polls as [|[board|] polls IH]; intros s;
    cbn [wait_while_measuring]; unfold bind, read_measuring;
    destruct (measuring (clock s)); cbn [fst]; eauto.
  unfold effect. apply IH.
Qed.

(** The paths through the [try] of [measure_thread], spelled out. *)
Lemma measure_thread_try_paths
    measuring lookups adjust minlimit address command s :
  measure_thread_try measuring lookups adjust minlimit address command s
  = match wait_while_measuring measuring lookups s with
    | (Return board, s1) =>
        if measuring (clock s1) then
          match board with
          | Some board =>
              match read_data measuring board 200 minlimit (tick s1) with
              | (Return w, s2) =>
                  if negb (length w =? 0)%nat then
                    if measuring (clock s2) then
                      match median w with
                      | Some med =>
                          after_measurement address command (med + adjust)%Q
                            (set_current_weight (med + adjust)%Q (tick s2))
                      | None => (Raise StatisticsError, tick s2)
                      end
                    else (Return tt, tick s2)
                  else (Return tt, s2)
              | (Raise e, s2) => (Raise e, s2)
              | (Starved, s2) => (Starved, s2)
              | (OutOfFuel, s2) => (OutOfFuel, s2)
              end
          | None => (Raise AttributeError, tick (tick s1))
          end
        else (Return tt, tick s1)
    | (Raise e, s1) => (Raise e, s1)
    | (Starved, s1) => (Starved, s1)
    | (OutOfFuel, s1) => (OutOfFuel, s1)
    end.
Proof.
  unfold measure_thread_try. unfold bind at 1.
  destruct (wait_while_measuring measuring lookups s) as [[board| | |] s1];
    try reflexivity.
  unfold bind at 1. unfold read_measuring at 1.
  destruct (measuring (clock s1)); [|reflexivity]. cbn [negb].
  unfold bind at 1. destruct board as [board|]; [|reflexivity].
  destruct (read_data measuring board 200 minlimit (tick s1))
    as [[w| | |] s2]; try reflexivity.
  destruct (negb (length w =? 0)%nat); [|reflexivity].
  unfold bind at 1. unfold read_measuring at 1.
  destruct (measuring (clock s2)); [|reflexivity].
  unfold final_weight_of, py_median, bind.
  destruct (median w); reflexivity.
Qed.

(** X9. Whatever happens, [measure_thread] ends by scheduling
    [finish_measurement] as its last act, and the only exception that
    leaves it is the [SystemExit] of the board button: every other one
    ([OSError] of a read, [AttributeError], [StatisticsError]) is caught. *)
Theorem measure_thread_always_finishes
    (measuring : nat -> bool) (lookups : list (option (list Read)))
    (adjust minlimit : Q) (address : string) (command : option string)
    (s : State) :
  let out := measure_thread measuring lookups adjust minlimit address
                            command s in
  (fst out = Return tt
   \/ fst out = Raise (SystemExit abort_message)
   \/ fst out = Starved)
  /\ (fst out <> Starved -> exists t, trace (snd out) = t ++ [IdleAdd]).
Proof.
  cbv zeta. unfold measure_thread. rewrite measure_thread_try_paths.
  destruct (wait_while_measuring_spec measuring lookups s) as [[board Hw]|Hw];
    destruct (wait_while_measuring measuring lookups s) as [r1 s1];
    cbn [fst] in Hw; subst r1; [|cbn [fst snd]; split; [auto|congruence]].
  destruct (measuring (clock s1));
    [|cbn [fst snd emit trace]; split; eauto].
  destruct board as [board|]; [|cbn [fst snd emit trace]; split; eauto].
  pose proof (read_data_raises measuring board 200 minlimit (tick s1)) as Hex.
  pose proof (read_data_never_out_of_fuel measuring board 200 minlimit
                (tick s1)) as Hfuel.
  destruct (read_data measuring board 200 minlimit (tick s1))
    as [[w|ex| |] s2]; cbn [fst] in Hex, Hfuel.
  - destruct (negb (length w =? 0)%nat);
      [|cbn [fst snd emit trace]; split; eauto].
    destruct (measuring (clock s2));
      [|cbn [fst snd emit trace]; split; eauto].
    destruct (median w) as [med|];
      [|cbn [fst snd emit trace]; split; eauto].
    destruct (after_measurement_closes address command (med + adjust)%Q
                (set_current_weight (med + adjust)%Q (tick s2))) as [Hr _].
    destruct (after_measurement address command (med + adjust)%Q
                (set_current_weight (med + adjust)%Q (tick s2))) as [r3 s3].
    cbn [fst] in Hr. subst r3. cbn [fst snd emit trace]. split; eauto.
  - destruct (Hex ex eq_refl) as [-> | ->];
      cbn [fst snd emit trace]; split; eauto.
  - cbn [fst snd]. split; [auto|congruence].
  - contradiction.
Qed.

(** X10. When the flag is found cleared after the samples were
    collected, [measure_thread] publishes nothing: the window [read_data]
    returned is dropped, [current_weight] keeps its value and neither the
    disconnect command nor the user's command is run. *)
Theorem cancelled_collection_publishes_nothing
    (measuring : nat -> bool) (lookups : list (option (list Read)))
    (adjust minlimit : Q) (address : string) (command : option string)
    (s : State) (board : list Read) (s1 s2 : State) (w : list Q) :
  wait_while_measuring measuring lookups s = (Return (Some board), s1) ->
  measuring (clock s1) = true ->
  read_data measuring board 200 minlimit (tick s1) = (Return w, s2) ->
  w <> [] ->
  measuring (clock s2) = false ->
  measure_thread measuring lookups adjust minlimit address command s
  = (Return tt, emit IdleAdd (tick s2))
  /\ current_weight s2 = current_weight s.
Proof.
  intros Hwait Hflag Hread Hw Hoff. split.
  - unfold measure_thread. rewrite measure_thread_try_paths.
    rewrite Hwait, Hflag, Hread, Hoff.
    destruct w; [contradiction|reflexivity].
  - pose proof (read_data_loop_current_weight measuring 200 minlimit
                  (S (length board)) [] (set_device board (tick s1))) as H2.
    unfold read_data in Hread. rewrite Hread in H2.
    pose proof (wait_while_measuring_current_weight measuring lookups s) as H1.
    rewrite Hwait in H1. cbn [snd set_device tick current_weight] in H1, H2.
    congruence.
Qed.

Lemma cancelled_collection_publishes_nothing_witness :
  measure_thread (until 5) [Some (groups 50 2100)] (-2) 20
    "00:1f:32:AB:cd:09" (Some "notify {weight}"%string) start
  = (Return tt, mkState (groups 47 2100) 7 0 [Close; IdleAdd])
  /\ current_weight (mkState (groups 47 2100) 6 0 [Close])
     = current_weight start.
Proof.
  apply (cancelled_collection_publishes_nothing (until 5)
           [Some (groups 50 2100)] (-2) 20 "00:1f:32:AB:cd:09"
           (Some "notify {weight}"%string) start (groups 50 2100)
           (mkState [] 1 0 []) (mkState (groups 47 2100) 6 0 [Close])
           (repeat (reading 2100 2100 2100 2100) 3)).
  - reflexivity.
  - reflexivity.
  - vm_compute. reflexivity.
  - discriminate.
  - reflexivity.
Defined.

(** X11. A measurement of [measure_thread] that succeeds stores the
    median of the window plus [adjust] in [current_weight] and then runs
    the disconnect command with the address as it was typed, whenever
    the address is not empty: no check of the address is made here.  The
    user's command follows, then [finish_measurement] is scheduled. *)
Theorem measure_thread_publishes_and_disconnects
    (measuring : nat -> bool) (lookups : list (option (list Read)))
    (adjust minlimit : Q) (address : string) (command : option string)
    (s : State) (board : list Read) (s1 s2 : State) (w : list Q) (med : Q) :
  wait_while_measuring measuring lookups s = (Return (Some board), s1) ->
  measuring (clock s1) = true ->
  read_data measuring board 200 minlimit (tick s1) = (Return w, s2) ->
  median w = Some med ->
  measuring (clock s2) = true ->
  measure_thread measuring lookups adjust minlimit address command s
  = (Return tt,
     mkState (device s2) (S (clock s2)) (med + adjust)%Q
       (trace s2
        ++ (if truthy address then [Disconnect address] else [])
        ++ (if truthy_opt command
            then [Command (default EmptyString command) (med + adjust)%Q]
            else [])
        ++ [IdleAdd])).
Proof.
  intros Hwait Hflag Hread Hmed Hon.
  unfold measure_thread. rewrite measure_thread_try_paths.
  rewrite Hwait, Hflag, Hread, Hon, Hmed.
  assert (negb (length w =? 0)%nat = true) as ->.
  { destruct w; [discriminate Hmed|reflexivity]. }
  unfold after_measurement, bind, when, effect, ret, emit,
    set_current_weight, tick.
  destruct (truthy address), (truthy_opt command);
    cbn [device clock current_weight trace];
    rewrite <- ?app_assoc; cbn [app]; rewrite ?app_nil_r; reflexivity.
Qed.

Lemma measure_thread_publishes_and_disconnects_witness :
  measure_thread always [Some (groups 3 2100 ++ group 450 450 450 450)]
    (-2) 20 "not-a-mac" None start
  = (Return tt,
     mkState [] 7 (reading 2100 2100 2100 2100 + -2)
             [Close; Disconnect "not-a-mac"; IdleAdd]).
Proof.
  apply (measure_thread_publishes_and_disconnects always
           [Some (groups 3 2100 ++ group 450 450 450 450)] (-2) 20
           "not-a-mac" None start
           (groups 3 2100 ++ group 450 450 450 450)
           (mkState [] 1 0 []) (mkState [] 6 0 [Close])
           (repeat (reading 2100 2100 2100 2100) 3)
           (reading 2100 2100 2100 2100)).
  - reflexivity.
  - reflexivity.
  - vm_compute. reflexivity.
  - reflexivity.
  - reflexivity.
Defined.

Lemma wait_while_measuring_cancelled measuring k :
  forall later s,
    (forall i, (i < k)%nat -> measuring (clock s + i)%nat = true) ->
    measuring (clock s + k)%nat = false ->
    wait_while_measuring measuring (repeat None k ++ later) s
    = (Return None,
       mkState (device s) (clock s + k + 1) (current_weight s)
               (trace s ++ repeat Sleep k)).
Proof.
  induction k as [|k IH]; intros later s Hon Hoff.
  - rewrite Nat.add_0_r in *. cbn [repeat app].
    destruct later as [|[b|] later]; cbn [wait_while_measuring];
      unfold bind, read_measuring, ret, tick; rewrite Hoff;
      rewrite app_nil_r, Nat.add_1_r; reflexivity.
  - cbn [repeat app wait_while_measuring].
    unfold bind at 1. unfold read_measuring at 1.
    pose proof (Hon 0%nat ltac:(lia)) as H0. rewrite Nat.add_0_r in H0.
    rewrite H0. unfold bind, effect.
    rewrite (IH later (emit Sleep (tick s))).
    + unfold emit, tick. cbn [device clock current_weight trace].
      rewrite <- app_assoc.
      replace (S (clock s) + k + 1)%nat with (clock s + S k + 1)%nat by lia.
      reflexivity.
    + intros i Hi. cbn [emit tick clock].
      replace (S (clock s) + i)%nat with (clock s + S i)%nat by lia.
      apply Hon. lia.
    + cbn [emit tick clock].
      replace (S (clock s) + k)%nat with (clock s + S k)%nat by lia.
      exact Hoff.
Qed.

(** X12. When the flag is cleared while [measure_thread] still looks for
    the board, the lookup stops at the next test of the flag: no further
    lookup is made, no handle is read or closed, nothing is published, and
    [finish_measurement] is scheduled.  So it is whether the flag stays
    cleared or is set again before the [if not measuring] that follows. *)
Theorem cancelled_wait_opens_nothing
    (measuring : nat -> bool) (k : nat)
    (later : list (option (list Read))) (adjust minlimit : Q)
    (address : string) (command : option string) (s : State) :
  (forall i, (i < k)%nat -> measuring (clock s + i)%nat = true) ->
  measuring (clock s + k)%nat = false ->
  exists reads,
    measure_thread measuring (repeat None k ++ later) adjust minlimit
                   address command s
    = (Return tt,
       mkState (device s) (clock s + k + reads) (current_weight s)
               (trace s ++ repeat Sleep k ++ [IdleAdd])).
Proof.
  intros Hon Hoff.
  unfold measure_thread. rewrite measure_thread_try_paths.
  rewrite (wait_while_measuring_cancelled measuring k later s Hon Hoff).
  cbn [clock].
  destruct (measuring (clock s + k + 1)%nat).
  - exists 3%nat. unfold emit, tick.
    cbn [device clock current_weight trace].
    rewrite <- app_assoc.
    replace (S (S (clock s + k + 1))) with (clock s + k + 3)%nat by lia.
    reflexivity.
  - exists 2%nat. unfold emit, tick.
    cbn [device clock current_weight trace].
    rewrite <- app_assoc.
    replace (S (clock s + k + 1)) with (clock s + k + 2)%nat by lia.
    reflexivity.
Qed.

Lemma cancelled_wait_opens_nothing_witness :
  exists reads,
    measure_thread (until 2) (repeat None 2 ++ [Some (groups 3 2100)])
                   0 20 EmptyString None start
    = (Return tt,
       mkState (device start) (clock start + 2 + reads)
               (current_weight start)
               (trace start ++ repeat Sleep 2 ++ [IdleAdd])).
Proof.
  apply (cancelled_wait_opens_nothing (until 2) 2 [Some (groups 3 2100)]
           0 20 EmptyString None start).
  - intros i Hi. unfold until. cbn [clock start Nat.add].
    apply Nat.ltb_lt. exact Hi.
  - reflexivity.
Defined.

(** ** Aggregation *)

Lemma sorted_Forall (P : Q -> Prop) data :
  Forall P data -> Forall P (sorted data).
Proof.
  intros H. destruct (sorted_spec data) as [Hperm _].
  rewrite Hperm. exact H.
Qed.

Lemma Forall_nth_default (P : Q -> Prop) l i :
  Forall P l -> (i < length l)%nat -> P (nth i l 0%Q).
Proof.
  intros H. revert i. induction H as [|x l Hx _ IH]; intros i Hi;
    cbn [length] in Hi; [lia|].
  destruct i as [|i]; cbn [nth]; [exact Hx|apply IH; lia].
Qed.

Lemma median_is_between (P : Q -> Prop) w med :
  (forall a b, P a -> P b -> P ((a + b) / 2)%Q) ->
  Forall P w ->
  median w = Some med ->
  P med.
Proof.
  intros Hmid Hw. apply (sorted_Forall P) in Hw.
  unfold median. cbv zeta.
  destruct (Nat.eqb_spec (length (sorted w)) 0) as [|Hn]; [discriminate|].
  pose proof (Nat.div_mod_eq (length (sorted w)) 2) as Hdiv.
  pose proof (Nat.mod_upper_bound (length (sorted w)) 2) as Hmod.
  set (n := length (sorted w)) in *.
  set (half := (n / 2)%nat) in *.
  destruct (Nat.eqb_spec (n mod 2) 1) as [Hodd|Heven];
    intros H; apply (f_equal (fun o => from_option id 0%Q o)) in H;
    cbn [from_option id] in H; subst med.
  - apply Forall_nth_default; [exact Hw|]. fold n. lia.
  - apply Hmid; apply Forall_nth_default; try exact Hw; fold n; lia.
Qed.

(** X13. The median of a window lies within the window: it is at least
    its smallest and at most its largest sample. *)
Theorem median_within_the_samples (w : list Q) (lo hi med : Q) :
  Forall (fun x => (lo <= x <= hi)%Q) w ->
  median w = Some med ->
  (lo <= med <= hi)%Q.
Proof.
  apply (median_is_between (fun x => (lo <= x <= hi)%Q)).
  intros a b [Ha1 Ha2] [Hb1 Hb2].
  unfold Qdiv. change (/ 2)%Q with (1 # 2)%Q. split; lra.
Qed.

Lemma median_within_the_samples_witness :
  (reading 450 450 450 450
   <= (reading 2100 2100 2100 2100 + reading 2200 2200 2200 2200) / 2
   <= reading 2300 2300 2300 2300)%Q.
Proof.
  apply (median_within_the_samples
           [reading 2300 2300 2300 2300; reading 450 450 450 450;
            reading 2200 2200 2200 2200; reading 2100 2100 2100 2100]).
  - repeat constructor; unfold Qle; cbn; lia.
  - reflexivity.
Defined.

(** The paths through [measure_weight] on a real board, once the address
    has passed the check. *)
Lemma measure_weight_paths
    measuring lookups adjust minlimit address command terse s :
  truthy address && negb (address_match address) = false ->
  measure_weight measuring lookups adjust minlimit address command terse
                 false s
  = match wait_for_board lookups s with
    | (Return board, s1) =>
        match read_data measuring board 200 minlimit s1 with
        | (Return w, s2) =>
            match median w with
            | Some med =>
                (Return (med + adjust)%Q,
                 snd (after_measurement address command (med + adjust)%Q
                        (if terse
                         then emit (PrintWeight (med + adjust)%Q) s2
                         else s2)))
            | None => (Raise StatisticsError, s2)
            end
        | (Raise e, s2) => (Raise e, s2)
        | (Starved, s2) => (Starved, s2)
        | (OutOfFuel, s2) => (OutOfFuel, s2)
        end
    | (Raise e, s1) => (Raise e, s1)
    | (Starved, s1) => (Starved, s1)
    | (OutOfFuel, s1) => (OutOfFuel, s1)
    end.
Proof.
  intros Haddr. unfold measure_weight. rewrite Haddr.
  unfold bind at 1. unfold bind at 1.
  destruct (wait_for_board lookups s) as [[board| | |] s1]; try reflexivity.
  destruct (read_data measuring board 200 minlimit s1) as [[w| | |] s2];
    try reflexivity.
  unfold bind at 1. unfold final_weight_of, py_median, bind at 1.
  destruct (median w) as [med|]; [|reflexivity].
  unfold ret at 1. unfold ret at 1. unfold bind at 1.
  assert (when terse (effect (PrintWeight (med + adjust)%Q)) s2
          = (Return tt, if terse then emit (PrintWeight (med + adjust)%Q) s2
                        else s2)) as ->.
  { destruct terse; reflexivity. }
  unfold bind at 1.
  destruct (after_measurement_closes address command (med + adjust)%Q
              (if terse then emit (PrintWeight (med + adjust)%Q) s2 else s2))
    as [Hr _].
  destruct (after_measurement address command (med + adjust)%Q
              (if terse then emit (PrintWeight (med + adjust)%Q) s2 else s2))
    as [r3 s3].
  cbn [fst] in Hr. subst r3. reflexivity.
Qed.

Lemma read_data_at_least_threshold measuring board samples threshold s w s' :
  read_data measuring board samples threshold s = (Return w, s') ->
  Forall (fun x => (threshold <= x)%Q) w.
Proof.
  unfold read_data. apply read_data_loop_at_least_threshold. constructor.
Qed.

Lemma median_at_least threshold w med :
  Forall (fun x => (threshold <= x)%Q) w ->
  median w = Some med ->
  (threshold <= med)%Q.
Proof.
  apply (median_is_between (fun x => (threshold <= x)%Q)).
  intros a b Ha Hb. unfold Qdiv. change (/ 2)%Q with (1 # 2)%Q. lra.
Qed.

(** X14. A weight [measure_weight] returns from the board is never
    below the threshold plus the adjustment: the window holds no sample
    below the threshold, so neither is its median. *)
Theorem returned_weight_clears_the_threshold
    (measuring : nat -> bool) (lookups : list (option (list Read)))
    (adjust minlimit : Q) (address : string) (command : option string)
    (terse : bool) (s s' : State) (final_weight : Q) :
  measure_weight measuring lookups adjust minlimit address command terse
                 false s = (Return final_weight, s') ->
  (minlimit + adjust <= final_weight)%Q.
Proof.
  intros Hmw.
  destruct (truthy address && negb (address_match address)) eqn:Haddr.
  { unfold measure_weight in Hmw. rewrite Haddr in Hmw. discriminate. }
  rewrite (measure_weight_paths _ _ _ _ _ _ _ _ Haddr) in Hmw.
  destruct (wait_for_board lookups s) as [[board| | |] s1];
    try discriminate.
  destruct (read_data measuring board 200 minlimit s1) as [[w| | |] s2] eqn:Hr;
    try discriminate.
  destruct (median w) as [med|] eqn:Hmed; [|discriminate].
  injection Hmw as <- _.
  pose proof (median_at_least minlimit w med
                (read_data_at_least_threshold _ _ _ _ _ _ _ Hr) Hmed).
  lra.
Qed.

Lemma returned_weight_clears_the_threshold_witness :
  (20 + -2 <= reading 2100 2100 2100 2100 + -2)%Q.
Proof.
  apply (returned_weight_clears_the_threshold always
           [Some (groups 3 2100 ++ group 450 450 450 450)] (-2) 20
           EmptyString None false start (mkState [] 4 0 [Close])).
  vm_compute. reflexivity.
Defined.

Lemma after_measurement_current_weight address command w s :
  current_weight (snd (after_measurement address command w s))
  = current_weight s.
Proof.
  unfold after_measurement, bind, when, effect, ret.
  destruct (truthy address), (truthy_opt command); reflexivity.
Qed.

Lemma measure_thread_current_weight
    measuring lookups adjust minlimit address command s :
  current_weight
    (snd (measure_thread measuring lookups adjust minlimit address command s))
  = current_weight
      (snd (measure_thread_try measuring lookups adjust minlimit address
                               command s)).
Proof.
  unfold measure_thread.
  destruct (measure_thread_try measuring lookups adjust minlimit address
                               command s) as [[[]|[]| |] s'];
    reflexivity.
Qed.

(** X15. [measure_thread] leaves [current_weight] as it was or sets it
    to a weight that is not below the threshold plus the adjustment. *)
Theorem published_weight_clears_the_threshold
    (measuring : nat -> bool) (lookups : list (option (list Read)))
    (adjust minlimit : Q) (address : string) (command : option string)
    (s : State) :
  let out := measure_thread measuring lookups adjust minlimit address
                            command s in
  current_weight (snd out) = current_weight s
  \/ (minlimit + adjust <= current_weight (snd out))%Q.
Proof.
  cbv zeta. rewrite measure_thread_current_weight.
  rewrite measure_thread_try_paths.
  pose proof (wait_while_measuring_current_weight measuring lookups s) as H1.
  destruct (wait_while_measuring measuring lookups s) as [[board| | |] s1];
    cbn [snd] in H1; try (left; exact H1).
  destruct (measuring (clock s1)); [|left; exact H1].
  destruct board as [board|]; [|left; exact H1].
  pose proof (read_data_loop_current_weight measuring 200 minlimit
                (S (length board)) [] (set_device board (tick s1))) as H2.
  fold (read_data measuring board 200 minlimit (tick s1)) in H2.
  destruct (read_data measuring board 200 minlimit (tick s1))
    as [[w| | |] s2] eqn:Hr;
    cbn [snd set_device tick current_weight] in H2;
    try (left; cbn [snd current_weight]; congruence).
  destruct (negb (length w =? 0)%nat);
    [|left; cbn [snd current_weight]; congruence].
  destruct (measuring (clock s2));
    [|left; cbn [snd tick current_weight]; congruence].
  destruct (median w) as [med|] eqn:Hmed;
    [|left; cbn [snd tick current_weight]; congruence].
  right. rewrite after_measurement_current_weight.
  cbn [set_current_weight current_weight].
  pose proof (median_at_least minlimit w med
                (read_data_at_least_threshold _ _ _ _ _ _ _ Hr) Hmed).
  lra.
Qed.

Lemma median_fake_data :
  exists m, median fake_data = Some m /\ (m == 85.2)%Q.
Proof.
  eexists. split; [vm_compute; reflexivity | reflexivity].
Qed.

(** X16. With [fake] set, [measure_weight] takes no board: no lookup is
    made, nothing is read, the flag is not consulted and nothing is
    closed.  It returns 85.2 plus [adjust] and acts on it as on a real
    weight. *)
Theorem fake_measurement_needs_no_board
    (measuring : nat -> bool) (lookups : list (option (list Read)))
    (adjust minlimit : Q) (address : string) (command : option string)
    (terse : bool) (s : State) :
  truthy address && negb (address_match address) = false ->
  exists final_weight : Q,
    (final_weight == 85.2 + adjust)%Q
    /\ measure_weight measuring lookups adjust minlimit address command
                      terse true s
       = (Return final_weight,
          mkState (device s) (clock s) (current_weight s)
            (trace s
             ++ (if terse then [PrintWeight final_weight] else [])
             ++ (if truthy address then [Disconnect address] else [])
             ++ (if truthy_opt command
                 then [Command (default EmptyString command) final_weight]
                 else []))).
Proof.
  intros Haddr. destruct median_fake_data as (m & Hm & Heq).
  exists (m + adjust)%Q. split; [rewrite Heq; reflexivity|].
  unfold measure_weight. rewrite Haddr.
  unfold bind at 1. unfold ret at 1.
  unfold bind at 1. unfold final_weight_of, py_median, bind at 1.
  rewrite Hm. unfold ret at 1. unfold ret at 1.
  unfold after_measurement, bind, when, effect, ret, emit.
  destruct s as [d c w t].
  destruct terse, (truthy address), (truthy_opt command);
    cbn [device clock current_weight trace];
    rewrite <- ?app_assoc, ?app_nil_r; reflexivity.
Qed.

Lemma fake_measurement_needs_no_board_witness :
  exists final_weight : Q,
    (final_weight == 85.2 + 1)%Q
    /\ measure_weight (until 0) [] 1 20 "00:1f:32:a0:b1:c2" None true true
                      start
       = (Return final_weight,
          mkState [] 0 0
            ([]
             ++ (if true then [PrintWeight final_weight] else [])
             ++ (if truthy "00:1f:32:a0:b1:c2"
                 then [Disconnect "00:1f:32:a0:b1:c2"] else [])
             ++ (if truthy_opt None
                 then [Command (default EmptyString None) final_weight]
                 else []))).
Proof.
  apply (fake_measurement_needs_no_board (until 0) [] 1 20
           "00:1f:32:a0:b1:c2" None true start).
  reflexivity.
Defined.

(** * The window of [gui.py]

    ** Its [measure_weight] and [measure_thread] against those of
       [cli.py] *)

Lemma bind_ext {A B} (m : M A) (k1 k2 : A -> M B) s :
  (forall a s', k1 a s' = k2 a s') ->
  bind m k1 s = bind m k2 s.
Proof.
  intros H. unfold bind. destruct (m s) as [[a| | |] s']; auto.
Qed.

Lemma forget_bind {A B} (m : M A) (k1 : A -> M unit) (k2 : A -> M B) s :
  (forall a s', k1 a s' = forget (k2 a s')) ->
  bind m k1 s = forget (bind m k2 s).
Proof.
  intros H. unfold bind. destruct (m s) as [[a| | |] s']; auto.
Qed.

Lemma after_measurement_nothing_asked final_weight s :
  after_measurement EmptyString None final_weight s = (Return tt, s).
Proof. reflexivity. Qed.

(** X17. [measure_weight] of [gui.py] is the one of [cli.py] called
    with no address and no command: the same result, the same reads of
    the board and the same outside calls. *)
Theorem gui_measure_weight_is_the_cli_one
    (measuring : nat -> bool) (lookups : list (option (list Read)))
    (adjust minlimit : Q) (terse fake : bool) (s : State) :
  gui.measure_weight measuring lookups adjust minlimit terse fake s
  = measure_weight measuring lookups adjust minlimit EmptyString None
                   terse fake s.
Proof.
  unfold gui.measure_weight, measure_weight. cbn [truthy andb].
  apply bind_ext. intros weight_data s1.
  apply bind_ext. intros final_weight s2.
  apply bind_ext. intros [] s3.
  unfold bind. rewrite after_measurement_nothing_asked. reflexivity.
Qed.

Lemma measure_thread_try_forgets
    measuring lookups adjust minlimit s :
  measure_thread_try measuring lookups adjust minlimit EmptyString None s
  = forget (gui.publish_weight measuring lookups adjust minlimit s).
Proof.
  unfold measure_thread_try, gui.publish_weight.
  apply forget_bind. intros board s1.
  apply forget_bind. intros measuring_now s2.
  destruct (negb measuring_now); [reflexivity|].
  apply forget_bind. intros weight_data s3.
  destruct (negb (length weight_data =? 0)%nat); [|reflexivity].
  apply forget_bind. intros measuring_then s4.
  destruct measuring_then; [|reflexivity].
  apply forget_bind. intros final_weight s5.
  apply forget_bind. intros [] s6.
  reflexivity.
Qed.

(** X18. On the session, [measure_thread] of [gui.py] does what the one
    of [cli.py] does with no address and no command, whatever the
    controls hold: the same result, the same weight published, the same
    reads and outside calls. *)
Theorem gui_measure_thread_is_the_cli_one_on_the_session
    (measuring : nat -> bool) (lookups : list (option (list Read)))
    (c : gui.Controls) (adjust minlimit : Q) (g : gui.Window) :
  let out := gui.measure_thread measuring lookups c adjust minlimit g in
  let cli := measure_thread measuring lookups adjust minlimit EmptyString
                            None (gui.session g) in
  fst out = fst cli /\ gui.session (snd out) = snd cli.
Proof.
  cbv zeta. unfold gui.measure_thread, measure_thread.
  rewrite measure_thread_try_forgets.
  destruct (gui.publish_weight measuring lookups adjust minlimit
              (gui.session g)) as [[[final_weight|]|[]| |] s'];
    cbn [forget]; try (split; reflexivity).
  destruct (gui.calculate_bmi final_weight (gui.get_height_in_cm c))
    as [[bmi cat]|]; split; reflexivity.
Qed.

(** The paths through the [try] of the window's thread. *)
Lemma publish_weight_paths measuring lookups adjust minlimit s :
  gui.publish_weight measuring lookups adjust minlimit s
  = match wait_while_measuring measuring lookups s with
    | (Return board, s1) =>
        if measuring (clock s1) then
          match board with
          | Some board =>
              match read_data measuring board 200 minlimit (tick s1) with
              | (Return w, s2) =>
                  if negb (length w =? 0)%nat then
                    if measuring (clock s2) then
                      match median w with
                      | Some med =>
                          (Return (Some (med + adjust)%Q),
                           set_current_weight (med + adjust)%Q (tick s2))
                      | None => (Raise StatisticsError, tick s2)
                      end
                    else (Return None, tick s2)
                  else (Return None, s2)
              | (Raise e, s2) => (Raise e, s2)
              | (Starved, s2) => (Starved, s2)
              | (OutOfFuel, s2) => (OutOfFuel, s2)
              end
          | None => (Raise AttributeError, tick (tick s1))
          end
        else (Return None, tick s1)
    | (Raise e, s1) => (Raise e, s1)
    | (Starved, s1) => (Starved, s1)
    | (OutOfFuel, s1) => (OutOfFuel, s1)
    end.
Proof.
  unfold gui.publish_weight. unfold bind at 1.
  destruct (wait_while_measuring measuring lookups s) as [[board| | |] s1];
    try reflexivity.
  unfold bind at 1. unfold read_measuring at 1.
  destruct (measuring (clock s1)); [|reflexivity]. cbn [negb].
  unfold bind at 1. destruct board as [board|]; [|reflexivity].
  destruct (read_data measuring board 200 minlimit (tick s1))
    as [[w| | |] s2]; try reflexivity.
  destruct (negb (length w =? 0)%nat); [|reflexivity].
  unfold bind at 1. unfold read_measuring at 1.
  destruct (measuring (clock s2)); [|reflexivity].
  unfold final_weight_of, py_median, bind.
  destruct (median w); reflexivity.
Qed.

(** What the [try] does to [current_weight]. *)
Lemma publish_weight_spec measuring lookups adjust minlimit s :
  match gui.publish_weight measuring lookups adjust minlimit s with
  | (Return (Some final_weight), s') =>
      current_weight s' = final_weight
      /\ (minlimit + adjust <= final_weight)%Q
  | (_, s') => current_weight s' = current_weight s
  end.
Proof.
  rewrite publish_weight_paths.
  pose proof (wait_while_measuring_current_weight measuring lookups s) as H1.
  destruct (wait_while_measuring measuring lookups s) as [[board| | |] s1];
    cbn [snd] in H1; try exact H1.
  destruct (measuring (clock s1)); [|exact H1].
  destruct board as [board|]; [|exact H1].
  pose proof (read_data_loop_current_weight measuring 200 minlimit
                (S (length board)) [] (set_device board (tick s1))) as H2.
  fold (read_data measuring board 200 minlimit (tick s1)) in H2.
  destruct (read_data measuring board 200 minlimit (tick s1))
    as [[w| | |] s2] eqn:Hr;
    cbn [snd set_device tick current_weight] in H2;
    try (cbn [current_weight]; congruence).
  destruct (negb (length w =? 0)%nat);
    [|cbn [current_weight]; congruence].
  destruct (measuring (clock s2));
    [|cbn [tick current_weight]; congruence].
  destruct (median w) as [med|] eqn:Hmed;
    [|cbn [tick current_weight]; congruence].
  split; [reflexivity|].
  pose proof (median_at_least minlimit w med
                (read_data_at_least_threshold _ _ _ _ _ _ _ Hr) Hmed).
  lra.
Qed.

(** The height the controls give is above zero while they are within
    their bounds. *)
Lemma height_above_zero c :
  gui.within_bounds c -> (0 < gui.get_height_in_cm c)%Q.
Proof.
  intros (Hh & Hf & Hi & _). unfold gui.get_height_in_cm.
  destruct (gui.use_imperial c); lra.
Qed.

Lemma calculate_bmi_defined weight_kg height_cm :
  (0 < height_cm)%Q ->
  exists cat,
    gui.calculate_bmi weight_kg height_cm
    = Some ((weight_kg / (height_cm / 100 * (height_cm / 100)))%Q, cat).
Proof.
  intros Hh. unfold gui.calculate_bmi.
  destruct (Qeq_bool (height_cm / 100 * (height_cm / 100)) 0) eqn:Hz.
  - apply Qeq_bool_iff in Hz. apply Qmult_integral in Hz.
    assert (height_cm / 100 == 0)%Q as H0 by (destruct Hz; assumption).
    exfalso. unfold Qdiv in H0. change (/ 100)%Q with (1 # 100)%Q in H0.
    lra.
  - eexists. reflexivity.
Qed.

(** What the window's thread leaves behind. *)
Lemma gui_measure_thread_outcome measuring lookups c adjust minlimit g :
  let out := snd (gui.measure_thread measuring lookups c adjust minlimit g) in
  (current_weight (gui.session out) = current_weight (gui.session g)
   /\ gui.current_bmi out = gui.current_bmi g)
  \/ ((minlimit + adjust <= current_weight (gui.session out))%Q
      /\ match gui.calculate_bmi (current_weight (gui.session out))
                                 (gui.get_height_in_cm c) with
         | Some (bmi, _) => gui.current_bmi out = bmi
         | None => gui.current_bmi out = gui.current_bmi g
         end).
Proof.
  cbv zeta. unfold gui.measure_thread.
  pose proof (publish_weight_spec measuring lookups adjust minlimit
                (gui.session g)) as H.
  destruct (gui.publish_weight measuring lookups adjust minlimit
              (gui.session g)) as [[[final_weight|]|[]| |] s'];
    try (left; split; [exact H|reflexivity]).
  destruct H as [Hw Hle]. right.
  destruct (gui.calculate_bmi final_weight (gui.get_height_in_cm c))
    as [[bmi cat]|] eqn:Hb;
    cbn [snd gui.session gui.current_bmi emit current_weight];
    rewrite Hw, Hb; split; auto.
Qed.

(** X19. While the controls are within their bounds, the window's
    thread leaves the weight and the BMI as they were, or publishes a
    weight that is not below the threshold plus the adjustment together
    with the BMI [calculate_bmi] gives for that weight at the height of
    the controls. *)
Theorem bmi_is_published_with_its_weight
    (measuring : nat -> bool) (lookups : list (option (list Read)))
    (c : gui.Controls) (adjust minlimit : Q) (g : gui.Window) :
  gui.within_bounds c ->
  let out := snd (gui.measure_thread measuring lookups c adjust minlimit g) in
  (current_weight (gui.session out) = current_weight (gui.session g)
   /\ gui.current_bmi out = gui.current_bmi g)
  \/ ((minlimit + adjust <= current_weight (gui.session out))%Q
      /\ exists cat,
           gui.calculate_bmi (current_weight (gui.session out))
                             (gui.get_height_in_cm c)
           = Some (gui.current_bmi out, cat)).
Proof.
  intros Hc. cbv zeta.
  destruct (gui_measure_thread_outcome measuring lookups c adjust minlimit g)
    as [H|[Hle Hb]]; [left; exact H|right].
  split; [exact Hle|].
  destruct (calculate_bmi_defined
              (current_weight
                 (gui.session
                    (snd (gui.measure_thread measuring lookups c adjust
                                             minlimit g))))
              (gui.get_height_in_cm c) (height_above_zero c Hc))
    as (cat & Hcat).
  rewrite Hcat in Hb. exists cat. rewrite Hcat, Hb. reflexivity.
Qed.

Lemma bmi_is_published_with_its_weight_witness :
  let c := gui.mkControls false 170 5 7 0 in
  let g := gui.mkWindow start 0 in
  let out :=
    snd (gui.measure_thread always
           [Some (groups 3 2100 ++ group 450 450 450 450)] c 0 20 g) in
  (current_weight (gui.session out) = current_weight (gui.session g)
   /\ gui.current_bmi out = gui.current_bmi g)
  \/ ((20 + 0 <= current_weight (gui.session out))%Q
      /\ exists cat,
           gui.calculate_bmi (current_weight (gui.session out))
                             (gui.get_height_in_cm c)
           = Some (gui.current_bmi out, cat)).
Proof.
  intros c g.
  apply (bmi_is_published_with_its_weight always
           [Some (groups 3 2100 ++ group 450 450 450 450)] c 0 20 g).
  unfold gui.within_bounds. cbn. repeat split; discriminate.
Defined.

Lemma adjustment_within_bounds c :
  gui.within_bounds c -> (-20 <= gui.get_adjustment_in_kg c <= 20)%Q.
Proof.
  intros (_ & _ & _ & Ha). unfold gui.get_adjustment_in_kg.
  destruct (gui.use_imperial c); [|exact Ha].
  unfold Qdiv.
  assert (/ 2.20462 == 100000 # 220462)%Q as -> by reflexivity.
  lra.
Qed.

Lemma bmi_not_negative weight_kg height_cm bmi cat :
  (0 <= weight_kg)%Q ->
  gui.calculate_bmi weight_kg height_cm = Some (bmi, cat) ->
  (0 <= bmi)%Q.
Proof.
  intros Hw. unfold gui.calculate_bmi.
  destruct (Qeq_bool (height_cm / 100 * (height_cm / 100)) 0) eqn:Hz;
    [discriminate|].
  intros [= <- _]. unfold Qdiv at 1.
  apply Qmult_le_0_compat; [exact Hw|].
  apply Qinv_le_0_compat.
  set (m := (height_cm / 100)%Q). nra.
Qed.

(** X20. A measurement started from the window never publishes a
    negative weight or BMI while the controls are within their bounds:
    the threshold is 20 kg and the adjustment, in either unit, is not
    below -20 kg. *)
Theorem clicked_measurement_publishes_nothing_negative
    (measuring : nat -> bool) (lookups : list (option (list Read)))
    (c : gui.Controls) (g : gui.Window) :
  gui.within_bounds c ->
  let out := snd (gui.on_measure_clicked measuring lookups c g) in
  (current_weight (gui.session out) = current_weight (gui.session g)
   /\ gui.current_bmi out = gui.current_bmi g)
  \/ ((0 <= current_weight (gui.session out))%Q
      /\ (0 <= gui.current_bmi out)%Q).
Proof.
  intros Hc. cbv zeta. unfold gui.on_measure_clicked.
  destruct (gui_measure_thread_outcome measuring lookups c
              (gui.get_adjustment_in_kg c) gui.DEFAULT_MIN_WEIGHT_LIMIT g)
    as [H|[Hle Hb]]; [left; exact H|right].
  pose proof (adjustment_within_bounds c Hc) as [Ha _].
  unfold gui.DEFAULT_MIN_WEIGHT_LIMIT in Hle, Hb |- *.
  set (out := snd (gui.measure_thread measuring lookups c
                     (gui.get_adjustment_in_kg c) 20 g)) in *.
  assert (0 <= current_weight (gui.session out))%Q as Hw by lra.
  split; [exact Hw|].
  destruct (calculate_bmi_defined (current_weight (gui.session out))
              (gui.get_height_in_cm c) (height_above_zero c Hc))
    as (cat & Hcat).
  rewrite Hcat in Hb. rewrite Hb.
  exact (bmi_not_negative _ _ _ _ Hw Hcat).
Qed.

Lemma clicked_measurement_publishes_nothing_negative_witness :
  let c := gui.mkControls true 170 5 7 (-20) in
  let g := gui.mkWindow start 0 in
  let out :=
    snd (gui.on_measure_clicked always
           [Some (groups 3 2100 ++ group 450 450 450 450)] c g) in
  (current_weight (gui.session out) = current_weight (gui.session g)
   /\ gui.current_bmi out = gui.current_bmi g)
  \/ ((0 <= current_weight (gui.session out))%Q
      /\ (0 <= gui.current_bmi out)%Q).
Proof.
  intros c g.
  apply (clicked_measurement_publishes_nothing_negative always
           [Some (groups 3 2100 ++ group 450 450 450 450)] c g).
  unfold gui.within_bounds. cbn. repeat split; discriminate.
Defined.

(** ** [calculate_bmi] and the scale *)

Lemma Qle_bool_false x y : Qle_bool x y = false <-> (y < x)%Q.
Proof.
  rewrite <- Qlt_bool_true. unfold Qlt_bool.
  destruct (Qle_bool x y); cbn; split; congruence.
Qed.

(** Decides the comparisons of numbers in the goal, one after the
    other, and leaves their outcome among the hypotheses. *)
Ltac compare_numbers :=
  repeat match goal with
  | |- context [Qlt_bool ?a ?b] =>
      let H := fresh "Hlt" in
      destruct (Qlt_bool a b) eqn:H;
      [apply Qlt_bool_true in H | apply Qlt_bool_false in H];
      cbn [andb orb negb]
  | |- context [Qle_bool ?a ?b] =>
      let H := fresh "Hle" in
      destruct (Qle_bool a b) eqn:H;
      [apply Qle_bool_iff in H | apply Qle_bool_false in H];
      cbn [andb orb negb]
  end.

Lemma category_of_intervals (bmi : Q) :
  let cat := gui.category_of bmi gui.BMI_CATEGORIES in
  (cat = "Underweight"%string <-> (0 <= bmi < 18.5)%Q)
  /\ (cat = "Normal weight"%string <-> (18.5 <= bmi < 25)%Q)
  /\ (cat = "Overweight"%string <-> (25 <= bmi < 30)%Q)
  /\ (cat = "Obese"%string <-> (30 <= bmi < 100)%Q)
  /\ (cat = "Unknown"%string <-> (bmi < 0 \/ 100 <= bmi)%Q).
Proof.
  cbv zeta. unfold gui.BMI_CATEGORIES, gui.category_of.
  compare_numbers;
    repeat split; intros; try discriminate; try reflexivity; try lra;
    try (left; lra); try (right; lra);
    match goal with
    | H : (_ \/ _)%Q |- _ => destruct H; lra
    end.
Qed.

(** X21. The BMI [calculate_bmi] returns is the weight divided by the
    product of the height in metres with itself, the height in metres
    being the height in centimetres divided by 100.  The category
    returned with it is the one of that number: each of the four named
    categories exactly on its interval, a bound belonging to the
    interval above it; below 0 or from 100 on it is "Unknown". *)
Theorem calculate_bmi_categories
    (weight_kg height_cm bmi : Q) (cat : string) :
  gui.calculate_bmi weight_kg height_cm = Some (bmi, cat) ->
  bmi = (weight_kg / (height_cm / 100 * (height_cm / 100)))%Q
  /\ (cat = "Underweight"%string <-> (0 <= bmi < 18.5)%Q)
  /\ (cat = "Normal weight"%string <-> (18.5 <= bmi < 25)%Q)
  /\ (cat = "Overweight"%string <-> (25 <= bmi < 30)%Q)
  /\ (cat = "Obese"%string <-> (30 <= bmi < 100)%Q)
  /\ (cat = "Unknown"%string <-> (bmi < 0 \/ 100 <= bmi)%Q).
Proof.
  unfold gui.calculate_bmi.
  destruct (Qeq_bool (height_cm / 100 * (height_cm / 100)) 0) eqn:Hz;
    [discriminate|].
  intros [= <- <-]. split; [reflexivity|apply category_of_intervals].
Qed.

Lemma calculate_bmi_categories_witness :
  (980000 # 40000) = (98 / (200 / 100 * (200 / 100)))%Q
  /\ ("Normal weight"%string = "Underweight"%string
      <-> (0 <= (980000 # 40000) < 18.5)%Q)
  /\ ("Normal weight"%string = "Normal weight"%string
      <-> (18.5 <= (980000 # 40000) < 25)%Q)
  /\ ("Normal weight"%string = "Overweight"%string
      <-> (25 <= (980000 # 40000) < 30)%Q)
  /\ ("Normal weight"%string = "Obese"%string
      <-> (30 <= (980000 # 40000) < 100)%Q)
  /\ ("Normal weight"%string = "Unknown"%string
      <-> ((980000 # 40000) < 0 \/ 100 <= (980000 # 40000))%Q).
Proof.
  apply (calculate_bmi_categories 98 200 (980000 # 40000) "Normal weight").
  vm_compute. reflexivity.
Defined.

(** The list of segments, written out. *)
Lemma segments_written_out width :
  let at_bmi (b : Q) := (gui.margin + (b - gui.bmi_min) * gui.scale_factor width)%Q in
  gui.segments width
  = [gui.mkSegment "Underweight" (at_bmi (10)%Q) (at_bmi (18.5)%Q)
                   (at_bmi (18.5)%Q - at_bmi (10)%Q)%Q;
     gui.mkSegment "Normal weight" (at_bmi (18.5)%Q) (at_bmi (25)%Q)
                   (at_bmi (25)%Q - at_bmi (18.5)%Q)%Q;
     gui.mkSegment "Overweight" (at_bmi (25)%Q) (at_bmi (30)%Q)
                   (at_bmi (30)%Q - at_bmi (25)%Q)%Q;
     gui.mkSegment "Obese" (at_bmi (30)%Q) (at_bmi (40)%Q)
                   (at_bmi (40)%Q - at_bmi (30)%Q)%Q].
Proof. reflexivity. Qed.

(** X22. The scale is drawn as four segments, in the order Underweight,
    Normal weight, Overweight, Obese, at any width of the drawing area.
    The first starts at the position of BMI 10, which is the left
    margin; each of the others starts at the very position where the
    one before it ends; the last ends at the position of BMI 40. *)
Theorem segments_tile_the_bar (width : Q) :
  let at_bmi (b : Q) :=
    (gui.margin + (b - gui.bmi_min) * gui.scale_factor width)%Q in
  map gui.category (gui.segments width)
  = ["Underweight"; "Normal weight"; "Overweight"; "Obese"]%string
  /\ gui.contiguous (at_bmi gui.bmi_min) (gui.segments width)
                    (at_bmi gui.bmi_max)
  /\ (at_bmi gui.bmi_min == gui.margin)%Q.
Proof.
  rewrite segments_written_out. cbv zeta.
  split; [reflexivity|]. split.
  - cbn [gui.contiguous gui.start_x gui.end_x gui.segment_width].
    repeat split; reflexivity.
  - unfold gui.bmi_min. ring.
Qed.

Lemma scale_factor_not_negative width :
  (20 <= width)%Q -> (0 <= gui.scale_factor width)%Q.
Proof.
  intros Hw. unfold gui.scale_factor, gui.bar_width, gui.bmi_max,
    gui.bmi_min, gui.margin, Qdiv.
  assert (/ (40 - 10) == 1 # 30)%Q as -> by reflexivity. lra.
Qed.


(** The BMI the marker is drawn at: within the ends of the scale. *)
Lemma clamped_bmi bmi :
  let v := py_min (py_max bmi gui.bmi_min) gui.bmi_max in
  (10 <= v <= 40)%Q
  /\ (forall a, a <= bmi -> a <= 40 -> a <= v)%Q
  /\ (forall b, bmi <= b -> 10 <= b -> v <= b)%Q.
Proof.
  cbv zeta. unfold py_max, gui.bmi_min, gui.bmi_max.
  destruct (Qlt_bool bmi 10) eqn:Hlow;
    [apply Qlt_bool_true in Hlow|apply Qlt_bool_false in Hlow];
    unfold py_min; compare_numbers; repeat split; intros; lra.
Qed.

(** A larger BMI is drawn further to the right. *)
Lemma position_grows width a b :
  (20 <= width)%Q -> (a <= b)%Q ->
  (gui.margin + (a - gui.bmi_min) * gui.scale_factor width
   <= gui.margin + (b - gui.bmi_min) * gui.scale_factor width)%Q.
Proof.
  intros Hw Hab. pose proof (scale_factor_not_negative width Hw) as Hsf.
  apply Qplus_le_r. apply Qmult_le_compat_r; [|exact Hsf].
  unfold gui.bmi_min. lra.
Qed.

(** X23. On a drawing area at least as wide as the two margins, the
    marker of a BMI with a named category lies on the segment drawn for
    that category; a BMI of 10 or less is marked where that segment
    starts, one of 40 or more where it ends. *)
Theorem marker_lies_on_its_category
    (width weight_kg height_cm bmi x : Q) (cat : string) :
  (20 <= width)%Q ->
  gui.calculate_bmi weight_kg height_cm = Some (bmi, cat) ->
  cat <> "Unknown"%string ->
  gui.marker_x width bmi = Some x ->
  exists seg,
    In seg (gui.segments width)
    /\ gui.category seg = cat
    /\ (gui.start_x seg <= x <= gui.end_x seg)%Q
    /\ (bmi <= 10 -> x == gui.start_x seg)%Q
    /\ (40 <= bmi -> x == gui.end_x seg)%Q.
Proof.
  intros Hw Hb Hcat Hx.
  unfold gui.calculate_bmi in Hb.
  destruct (Qeq_bool (height_cm / 100 * (height_cm / 100)) 0);
    [discriminate|].
  injection Hb as Hbmi Hc. rewrite Hbmi in Hc. subst cat.
  destruct (category_of_intervals bmi) as (Hu & Hn & Ho & Hob & Hunk).
  cbv zeta in Hu, Hn, Ho, Hob, Hunk.
  assert (0 <= bmi < 100)%Q as [H0 H100].
  { split.
    - destruct (Qlt_le_dec bmi 0) as [H|H]; [|exact H].
      exfalso. apply Hcat, Hunk. left. exact H.
    - destruct (Qlt_le_dec bmi 100) as [H|H]; [exact H|].
      exfalso. apply Hcat, Hunk. right. exact H. }
  unfold gui.marker_x in Hx.
  destruct (Qlt_bool 0 bmi); [|discriminate]. injection Hx as <-.
  destruct (clamped_bmi bmi) as ([Hv10 Hv40] & Hlo & Hhi).
  cbv zeta in Hv10, Hv40, Hlo, Hhi.
  set (v := py_min (py_max bmi gui.bmi_min) gui.bmi_max) in *.
  assert ((bmi <= 10)%Q -> (v == 10)%Q) as Hleft.
  { intros H. apply Qle_antisym; [apply Hhi; lra|exact Hv10]. }
  assert ((40 <= bmi)%Q -> (v == 40)%Q) as Hright.
  { intros H. apply Qle_antisym; [exact Hv40|apply Hlo; lra]. }
  rewrite segments_written_out. cbv zeta.
  destruct (Qlt_le_dec bmi 18.5) as [H1|H1];
    [|destruct (Qlt_le_dec bmi 25) as [H2|H2];
      [|destruct (Qlt_le_dec bmi 30) as [H3|H3]]].
  - eexists. split; [left; reflexivity|].
    cbn [gui.category gui.start_x gui.end_x].
    split; [symmetry; apply Hu; split; assumption|].
    split; [split; apply position_grows; try exact Hw;
            [exact Hv10|apply Hhi; lra]|].
    split; intros H; [rewrite (Hleft H); reflexivity|lra].
  - eexists. split; [right; left; reflexivity|].
    cbn [gui.category gui.start_x gui.end_x].
    split; [symmetry; apply Hn; split; assumption|].
    split; [split; apply position_grows; try exact Hw;
            [apply Hlo|apply Hhi]; lra|].
    split; intros H; lra.
  - eexists. split; [right; right; left; reflexivity|].
    cbn [gui.category gui.start_x gui.end_x].
    split; [symmetry; apply Ho; split; assumption|].
    split; [split; apply position_grows; try exact Hw;
            [apply Hlo|apply Hhi]; lra|].
    split; intros H; lra.
  - eexists. split; [right; right; right; left; reflexivity|].
    cbn [gui.category gui.start_x gui.end_x].
    split; [symmetry; apply Hob; split; assumption|].
    split; [split; apply position_grows; try exact Hw;
            [apply Hlo; lra|exact Hv40]|].
    split; intros H; [lra|rewrite (Hright H); reflexivity].
Qed.

Lemma marker_lies_on_its_category_witness :
  exists seg,
    In seg (gui.segments 320)
    /\ gui.category seg = "Normal weight"%string
    /\ (gui.start_x seg <= 186000000 # 1200000 <= gui.end_x seg)%Q
    /\ (980000 # 40000 <= 10
        -> 186000000 # 1200000 == gui.start_x seg)%Q
    /\ (40 <= 980000 # 40000
        -> 186000000 # 1200000 == gui.end_x seg)%Q.
Proof.
  apply (marker_lies_on_its_category 320 98 200 (980000 # 40000)
           (186000000 # 1200000) "Normal weight").
  - discriminate.
  - vm_compute. reflexivity.
  - discriminate.
  - vm_compute. reflexivity.
Defined.

(** ** [on_unit_toggled] *)

(** A test that holds on every number of a range, checked one by
    one. *)
Lemma checked_on_range (p : Z -> bool) (lo : Z) (n : nat) :
  forallb p (map (fun k => lo + Z.of_nat k) (seq 0 n)) = true ->
  forall z, lo <= z < lo + Z.of_nat n -> p z = true.
Proof.
  intros Hall z Hz. rewrite forallb_forall in Hall. apply Hall.
  apply in_map_iff. exists (Z.to_nat (z - lo)). split; [lia|].
  apply in_seq. lia.
Qed.

Lemma set_value_within lower upper v :
  (lower <= v <= upper)%Q -> gui.set_value lower upper v = v.
Proof.
  intros [Hl Hu]. unfold gui.set_value.
  destruct (Qlt_bool v lower) eqn:H1.
  { apply Qlt_bool_true in H1. lra. }
  destruct (Qlt_bool upper v) eqn:H2; [|reflexivity].
  apply Qlt_bool_true in H2. lra.
Qed.

Lemma inject_Z_within (lo hi z : Z) :
  lo <= z <= hi -> (inject_Z lo <= inject_Z z <= inject_Z hi)%Q.
Proof. intros [H1 H2]. split; rewrite <- Zle_Qle; assumption. Qed.

Lemma to_imperial_feet c :
  gui.feet_spin (gui.to_imperial c)
  = gui.set_value 1 8
      (inject_Z (fst (gui.imperial_of_cm (gui.height_spin c)))).
Proof.
  unfold gui.to_imperial.
  destruct (gui.imperial_of_cm (gui.height_spin c)); reflexivity.
Qed.

Lemma to_imperial_inches c :
  gui.inches_spin (gui.to_imperial c)
  = gui.set_value 0 11
      (inject_Z (snd (gui.imperial_of_cm (gui.height_spin c)))).
Proof.
  unfold gui.to_imperial.
  destruct (gui.imperial_of_cm (gui.height_spin c)); reflexivity.
Qed.

Lemma to_imperial_others c :
  gui.use_imperial (gui.to_imperial c) = true
  /\ gui.height_spin (gui.to_imperial c) = gui.height_spin c
  /\ gui.adj_spin (gui.to_imperial c) = gui.adj_spin c.
Proof.
  unfold gui.to_imperial.
  destruct (gui.imperial_of_cm (gui.height_spin c)); repeat split.
Qed.

(** X24. Switching to imperial with a whole number of centimetres
    within the bounds of the height control shows the nearest whole
    inch: feet from 3 to 8 and inches from 0 to 11, never 12, both
    within the bounds of their controls, for a height no more than half
    an inch (1.27 cm) from the one in centimetres. *)
Theorem imperial_height_is_the_nearest_inch (c : gui.Controls) (cm : Z) :
  100 <= cm <= 250 ->
  gui.height_spin c = inject_Z cm ->
  exists feet inches : Z,
    gui.imperial_of_cm (inject_Z cm) = (feet, inches)
    /\ gui.feet_spin (gui.to_imperial c) = inject_Z feet
    /\ gui.inches_spin (gui.to_imperial c) = inject_Z inches
    /\ 3 <= feet <= 8 /\ 0 <= inches <= 11
    /\ (- (1.27) <= gui.get_height_in_cm (gui.to_imperial c) - inject_Z cm
        <= 1.27)%Q.
Proof.
  intros Hcm Hh.
  pose (p := fun cm : Z =>
    let (feet, inches) := gui.imperial_of_cm (inject_Z cm) in
    (3 <=? feet) && (feet <=? 8) && (0 <=? inches) && (inches <=? 11)
    && Qle_bool (- (1.27))
         ((inject_Z feet * 12 + inject_Z inches) * 2.54 - inject_Z cm)
    && Qle_bool
         ((inject_Z feet * 12 + inject_Z inches) * 2.54 - inject_Z cm)
         1.27).
  assert (p cm = true) as Hp.
  { apply (checked_on_range p 100 151); [vm_compute; reflexivity|lia]. }
  unfold p in Hp. clear p.
  unfold gui.get_height_in_cm.
  destruct (to_imperial_others c) as (-> & _ & _).
  rewrite to_imperial_feet, to_imperial_inches, Hh.
  destruct (gui.imperial_of_cm (inject_Z cm)) as [feet inches].
  cbn [fst snd].
  repeat (apply andb_prop in Hp; destruct Hp as [Hp ?]).
  repeat match goal with
         | H : (_ <=? _) = true |- _ => apply Z.leb_le in H
         | H : Qle_bool _ _ = true |- _ => apply Qle_bool_iff in H
         end.
  rewrite (set_value_within 1 8 (inject_Z feet)),
    (set_value_within 0 11 (inject_Z inches)).
  - exists feet, inches. repeat split; assumption.
  - apply (inject_Z_within 0 11). lia.
  - apply (inject_Z_within 1 8). lia.
Qed.

Lemma imperial_height_is_the_nearest_inch_witness :
  exists feet inches : Z,
    gui.imperial_of_cm (inject_Z 170) = (feet, inches)
    /\ gui.feet_spin (gui.to_imperial (gui.mkControls false 170 5 7 0))
       = inject_Z feet
    /\ gui.inches_spin (gui.to_imperial (gui.mkControls false 170 5 7 0))
       = inject_Z inches
    /\ 3 <= feet <= 8 /\ 0 <= inches <= 11
    /\ (- (1.27)
        <= gui.get_height_in_cm
             (gui.to_imperial (gui.mkControls false 170 5 7 0))
           - inject_Z 170
        <= 1.27)%Q.
Proof.
  apply (imperial_height_is_the_nearest_inch
           (gui.mkControls false 170 5 7 0) 170).
  - lia.
  - reflexivity.
Defined.

Lemma imperial_and_back_spec c :
  let back := gui.to_imperial (gui.to_metric c) in
  gui.feet_spin back
  = fst (imperial_and_back (gui.feet_spin c) (gui.inches_spin c))
  /\ gui.inches_spin back
     = snd (imperial_and_back (gui.feet_spin c) (gui.inches_spin c)).
Proof.
  cbv zeta. unfold imperial_and_back. cbn [fst snd].
  rewrite !to_imperial_feet, !to_imperial_inches. split; reflexivity.
Qed.

Lemma metric_and_back_spec c :
  gui.height_spin (gui.to_metric (gui.to_imperial c))
  = metric_and_back (gui.height_spin c).
Proof.
  unfold metric_and_back, gui.to_metric.
  cbn [gui.height_spin].
  rewrite !to_imperial_feet, !to_imperial_inches. reflexivity.
Qed.

(** X25. Switching from imperial to metric and back restores the feet
    and inches exactly when the height is from 3 ft 3 in to 8 ft 2 in:
    below and above, the height control, which holds 100 to 250 cm,
    cuts the height off. *)
Theorem imperial_height_survives_metric_and_back
    (c : gui.Controls) (feet inches : Z) :
  1 <= feet <= 8 -> 0 <= inches <= 11 ->
  gui.feet_spin c = inject_Z feet ->
  gui.inches_spin c = inject_Z inches ->
  let back := gui.to_imperial (gui.to_metric c) in
  (gui.feet_spin back == inject_Z feet
   /\ gui.inches_spin back == inject_Z inches)%Q
  <-> 39 <= feet * 12 + inches <= 98.
Proof.
  intros Hf Hi Hcf Hci. cbv zeta.
  destruct (imperial_and_back_spec c) as [-> ->]. rewrite Hcf, Hci.
  pose (q := fun f i : Z =>
    Bool.eqb
      (Qeq_bool (fst (imperial_and_back (inject_Z f) (inject_Z i)))
                (inject_Z f)
       && Qeq_bool (snd (imperial_and_back (inject_Z f) (inject_Z i)))
                   (inject_Z i))
      ((39 <=? f * 12 + i) && (f * 12 + i <=? 98))).
  pose (p := fun f : Z =>
    forallb (q f) (map (fun k => 0 + Z.of_nat k) (seq 0 12))).
  assert (p feet = true) as Hp.
  { apply (checked_on_range p 1 8); [vm_compute; reflexivity|lia]. }
  assert (q feet inches = true) as Hq.
  { apply (checked_on_range (q feet) 0 12); [exact Hp|lia]. }
  unfold q in Hq. clear p q Hp. apply Bool.eqb_prop in Hq.
  set (back := imperial_and_back (inject_Z feet) (inject_Z inches)) in *.
  clearbody back.
  split.
  - intros [H1 H2]. apply Qeq_bool_iff in H1, H2.
    rewrite H1, H2 in Hq. symmetry in Hq.
    apply andb_prop in Hq. destruct Hq as [H3 H4].
    apply Z.leb_le in H3, H4. split; assumption.
  - intros [H3 H4]. apply Z.leb_le in H3, H4.
    rewrite H3, H4 in Hq. apply andb_prop in Hq. destruct Hq as [H1 H2].
    split; apply Qeq_bool_iff; assumption.
Qed.

Lemma imperial_height_survives_metric_and_back_witness :
  let back := gui.to_imperial
                (gui.to_metric (gui.mkControls true 170 5 7 0)) in
  (gui.feet_spin back == inject_Z 5
   /\ gui.inches_spin back == inject_Z 7)%Q
  <-> 39 <= 5 * 12 + 7 <= 98.
Proof.
  apply (imperial_height_survives_metric_and_back
           (gui.mkControls true 170 5 7 0) 5 7).
  - lia.
  - lia.
  - reflexivity.
  - reflexivity.
Defined.

(** X26. Switching from metric to imperial and back moves a whole
    number of centimetres within the bounds of the height control by
    2 cm down or 1 cm up at most, and a second round moves the result
    no further. *)
Theorem metric_height_drifts_once
    (c : gui.Controls) (cm : Z) :
  100 <= cm <= 250 ->
  gui.height_spin c = inject_Z cm ->
  let once := gui.to_metric (gui.to_imperial c) in
  let twice := gui.to_metric (gui.to_imperial once) in
  exists after : Z,
    (gui.height_spin once == inject_Z after)%Q
    /\ -2 <= after - cm <= 1
    /\ (gui.height_spin twice == gui.height_spin once)%Q.
Proof.
  intros Hcm Hh. cbv zeta.
  rewrite (metric_and_back_spec (gui.to_metric (gui.to_imperial c))).
  rewrite (metric_and_back_spec c), Hh.
  pose (p := fun cm : Z =>
    let once := metric_and_back (inject_Z cm) in
    Qeq_bool once (inject_Z (Qfloor once))
    && (-2 <=? Qfloor once - cm) && (Qfloor once - cm <=? 1)
    && Qeq_bool (metric_and_back once) once).
  assert (p cm = true) as Hp.
  { apply (checked_on_range p 100 151); [vm_compute; reflexivity|lia]. }
  unfold p in Hp. cbv zeta in Hp.
  repeat (apply andb_prop in Hp; destruct Hp as [Hp ?]).
  exists (Qfloor (metric_and_back (inject_Z cm))).
  split; [apply Qeq_bool_iff; exact Hp|].
  split; [split; apply Z.leb_le; assumption|].
  apply Qeq_bool_iff. assumption.
Qed.

Lemma metric_height_drifts_once_witness :
  let once := gui.to_metric
                (gui.to_imperial (gui.mkControls false 113 5 7 0)) in
  let twice := gui.to_metric (gui.to_imperial once) in
  exists after : Z,
    (gui.height_spin once == inject_Z after)%Q
    /\ -2 <= after - 113 <= 1
    /\ (gui.height_spin twice == gui.height_spin once)%Q.
Proof.
  apply (metric_height_drifts_once (gui.mkControls false 113 5 7 0) 113).
  - lia.
  - reflexivity.
Defined.

(** ** Units of the weight *)

(** X27. The weight shown follows the number in the adjustment
    control: with the same median and the same unit, a larger number
    never shows a smaller weight. *)
Theorem shown_weight_follows_the_adjustment
    (c1 c2 : gui.Controls) (med shown1 shown2 : Q) :
  gui.use_imperial c1 = gui.use_imperial c2 ->
  (gui.adj_spin c1 <= gui.adj_spin c2)%Q ->
  gui.update_weight_display c1 (med + gui.get_adjustment_in_kg c1)
  = Some shown1 ->
  gui.update_weight_display c2 (med + gui.get_adjustment_in_kg c2)
  = Some shown2 ->
  (shown1 <= shown2)%Q.
Proof.
  intros Hunit Hadj.
  unfold gui.update_weight_display, gui.get_adjustment_in_kg.
  rewrite <- Hunit.
  destruct (Qlt_bool 0 _); [|discriminate].
  destruct (Qlt_bool 0 _); [|discriminate].
  destruct (gui.use_imperial c1); intros [= <-] [= <-].
  - apply Qmult_le_compat_r; [|discriminate].
    apply Qplus_le_r.
    apply Qmult_le_compat_r; [exact Hadj|discriminate].
  - apply Qplus_le_r. exact Hadj.
Qed.

Lemma shown_weight_follows_the_adjustment_witness :
  ((80 + 5 / 2.20462) * 2.20462 <= (80 + 11 / 2.20462) * 2.20462)%Q.
Proof.
  apply (shown_weight_follows_the_adjustment
           (gui.mkControls true 170 5 7 5)
           (gui.mkControls true 170 5 7 11) 80).
  - reflexivity.
  - discriminate.
  - reflexivity.
  - reflexivity.
Defined.

(** X28. Switching units leaves the number in the adjustment control
    as it is and converts nothing: the adjustment applied after
    switching to imperial is the one applied after switching to metric
    divided by 2.20462. *)
Theorem switching_units_rescales_the_adjustment (c : gui.Controls) :
  gui.adj_spin (gui.to_imperial c) = gui.adj_spin c
  /\ gui.adj_spin (gui.to_metric c) = gui.adj_spin c
  /\ (gui.get_adjustment_in_kg (gui.to_imperial c)
      == gui.get_adjustment_in_kg (gui.to_metric c) / 2.20462)%Q.
Proof.
  destruct (to_imperial_others c) as (Himp & _ & Hadj).
  unfold gui.get_adjustment_in_kg. rewrite Himp, Hadj.
  repeat split; reflexivity.
Qed.
